(** * Document-fraud pre-screening service: the analysis pipeline of [main.py]

    A shallow embedding of the functions of [main.py] and the properties of
    its specification.

    Conventions of the embedding.
    - A Python [str] is a Rocq [string]; its characters are the code points
      below 256.  The character classes of [re] and the case mapping of
      [str.lower] are the Unicode ones restricted to that range.
    - A Python dict built by the code is an association list in insertion
      order ([VDict]); a mapping received from a library is a [gmap].
    - The values of a metadata mapping are raw property strings.
    - An exception is a value of [exn]; code that may raise lives in
      [outcome], and [try]/[except] is a handler on [outcome].
    - What a library answers for an upload (PyMuPDF's and pdfplumber's view
      of the bytes) is part of the input.
    - A binary64 number is held as the rational it was read from: the code
      only negates such numbers, tests them against zero and passes them on,
      and rounding a decimal with two places changes neither its sign nor
      whether it is zero. *)

From Stdlib Require Import ZArith QArith Ascii String DecimalString List Lia Bool.
From Stdlib.Strings Require Import Byte.
From stdpp Require Import base option list strings gmap.

Local Open Scope string_scope.
Local Open Scope list_scope.

(** ** Python values and exceptions *)

#[local] Set Warnings "-register-all".

Inductive value : Type :=
| VNone
| VBool (b : bool)
| VInt (n : Z)
| VFloat (q : Q)
| VStr (s : string)
| VTuple (vs : list value)
| VList (vs : list value)
| VDict (kvs : list (string * value)).

Inductive exn_class : Type :=
| ValueError
| TypeError
| NameError
| AttributeError
| IndexError
| KeyError
| LibraryError            (* any other [Exception] raised inside a library *)
| HTTPException (status_code : Z).

Record exn : Type := Exn { exn_cls : exn_class; exn_str : string }.

Inductive outcome (A : Type) : Type :=
| Ret (a : A)
| Raise (e : exn).
Arguments Ret {A} a.
Arguments Raise {A} e.

#[global] Instance outcome_ret : MRet outcome := fun A a => Ret a.
#[global] Instance outcome_bind : MBind outcome := fun A B f m =>
  match m with
  | Ret a => f a
  | Raise e => Raise e
  end.

(** [try: body except Exception as e: handler e].  Every member of
    [exn_class] is a subclass of [Exception]. *)
Definition try_except {A} (body : outcome A) (handler : exn -> outcome A)
  : outcome A :=
  match body with
  | Ret a => Ret a
  | Raise e => handler e
  end.

(** [try: body except ValueError: handler]. *)
Definition try_except_ValueError {A} (body : outcome A) (handler : outcome A)
  : outcome A :=
  match body with
  | Ret a => Ret a
  | Raise e =>
      match exn_cls e with
      | ValueError => handler
      | _ => Raise e
      end
  end.

(** [d.get(k)] and [d.get(k, default)] on a dict built by the code. *)
Fixpoint dict_get (k : string) (kvs : list (string * value)) : option value :=
  match kvs with
  | [] => None
  | (k', v) :: kvs' => if String.eqb k k' then Some v else dict_get k kvs'
  end.

Definition dict_keys (kvs : list (string * value)) : list string :=
  map fst kvs.

(** [v.get(k, default)] where [v] is expected to be a dict. *)
Definition value_get (v : value) (k : string) (default : value)
  : outcome value :=
  match v with
  | VDict kvs => Ret (from_option id default (dict_get k kvs))
  | _ => Raise (Exn AttributeError "object has no attribute 'get'")
  end.

(** [v[k]] where [v] is expected to be a dict. *)
Definition value_item (v : value) (k : string) : outcome value :=
  match v with
  | VDict kvs =>
      match dict_get k kvs with
      | Some x => Ret x
      | None => Raise (Exn KeyError k)
      end
  | _ => Raise (Exn TypeError "object is not subscriptable")
  end.

(** Python truthiness of the values the code tests. *)
Definition truthy (v : value) : bool :=
  match v with
  | VNone => false
  | VBool b => b
  | VInt n => negb (n =? 0)%Z
  | VFloat q => negb (Qeq_bool q 0)
  | VStr s => negb (String.eqb s "")
  | VTuple vs | VList vs => negb (Nat.eqb (length vs) 0)
  | VDict kvs => negb (Nat.eqb (length kvs) 0)
  end.

(** Truthiness of a list. *)
Definition nonempty {A} (l : list A) : bool :=
  match l with
  | [] => false
  | _ :: _ => true
  end.

(** [for x in xs: acc = f acc x], stopping at the first exception. *)
Fixpoint foldM {A B} (f : B -> A -> outcome B) (b : B) (l : list A)
  : outcome B :=
  match l with
  | [] => mret b
  | a :: l' => b' ← f b a; foldM f b' l'
  end.

(** ** Strings *)

Abbreviation chars := list_ascii_of_string.
Abbreviation unchars := string_of_list_ascii.

Definition code (a : ascii) : N := N_of_ascii a.

Definition in_range (lo hi : N) (a : ascii) : bool :=
  ((lo <=? code a) && (code a <=? hi))%N.

(** [str.lower] on one character: the upper-case letters below 256 are
    A-Z, and the Latin-1 letters 192-214 and 216-222. *)
Definition lower_char (a : ascii) : ascii :=
  if in_range 65 90 a || in_range 192 214 a || in_range 216 222 a
  then ascii_of_N (code a + 32)
  else a.

Definition lower (s : string) : string := unchars (map lower_char (chars s)).

(** [s.startswith(p)] and [s.endswith(p)]. *)
Fixpoint is_prefix (p s : list ascii) : bool :=
  match p, s with
  | [], _ => true
  | a :: p', b :: s' => Ascii.eqb a b && is_prefix p' s'
  | _ :: _, [] => false
  end.

Definition startswith (s p : string) : bool := is_prefix (chars p) (chars s).
Definition endswith (s p : string) : bool :=
  is_prefix (rev (chars p)) (rev (chars s)).

(** [needle in hay] for two strings. *)
Fixpoint is_infix (needle hay : list ascii) : bool :=
  is_prefix needle hay ||
  match hay with
  | [] => false
  | _ :: hay' => is_infix needle hay'
  end.

Definition contains (hay needle : string) : bool :=
  is_infix (chars needle) (chars hay).

(** The declarative reading of [needle in hay]. *)
Definition occurs (needle hay : string) : Prop :=
  exists pre post : string, hay = pre +:+ needle +:+ post.

(** [s[:n]] and [s[n:]]. *)
Definition slice_to (n : nat) (s : string) : string := unchars (take n (chars s)).
Definition slice_from (n : nat) (s : string) : string := unchars (drop n (chars s)).

(** [s.replace(a, b)] for single characters [a] and [b], and [s.replace(a, "")]. *)
Definition replace_char (a b : ascii) (s : string) : string :=
  unchars (map (fun c => if Ascii.eqb c a then b else c) (chars s)).
Definition remove_char (a : ascii) (s : string) : string :=
  unchars (List.filter (fun c => negb (Ascii.eqb c a)) (chars s)).

(** [str.isspace] on one character, which is also the class [\s] of [re]. *)
Definition is_space (a : ascii) : bool :=
  in_range 9 13 a || in_range 28 32 a || N.eqb (code a) 133 || N.eqb (code a) 160.

(** [\d] of [re]: below 256 the decimal digits are 0-9. *)
Definition is_digit (a : ascii) : bool := in_range 48 57 a.

Fixpoint lstrip (s : list ascii) : list ascii :=
  match s with
  | a :: s' => if is_space a then lstrip s' else s
  | [] => []
  end.

(** [s.strip()]. *)
Definition strip (s : string) : string :=
  unchars (rev (lstrip (rev (lstrip (chars s))))).

(** [str(n)] for a non-negative integer. *)
Definition str_of_nat (n : nat) : string :=
  NilZero.string_of_uint (Nat.to_uint n).

(** [str(i)] for an integer. *)
Definition str_of_Z (i : Z) : string :=
  if (i <? 0)%Z then "-" +:+ str_of_nat (Z.to_nat (- i))
  else str_of_nat (Z.to_nat i).

(** ** The fragment of [re] the code uses

    A backtracking matcher as a list of successes: [run r c g] lists, in the
    order in which [re] tries them, the ways [r] can match at cursor [c].
    Every repetition in the patterns of [main.py] is over a single character
    class, so [Star] takes a class. *)

Definition charset := ascii -> bool.

Inductive regex : Type :=
| Eps
| Chars (p : charset)
| Cat (r1 r2 : regex)
| Alt (r1 r2 : regex)
| Star (greedy : bool) (p : charset)
| Group (i : nat) (r : regex)
| Bol                       (* [^] under [re.MULTILINE] *)
| Eol.                      (* [$] under [re.MULTILINE] *)

(** A position in the subject: the character before it and what is left. *)
Record cursor : Type := Cursor { prev : option ascii; rest : list ascii }.

Definition captures := list (nat * list ascii).

Definition newline : ascii := ascii_of_N 10.

(** The text between two cursors of one subject. *)
Definition consumed (c c' : cursor) : list ascii :=
  take (length (rest c) - length (rest c')) (rest c).

Fixpoint run (r : regex) (c : cursor) (g : captures) {struct r}
  : list (cursor * captures) :=
  match r with
  | Eps => [(c, g)]
  | Chars p =>
      match rest c with
      | a :: s => if p a then [(Cursor (Some a) s, g)] else []
      | [] => []
      end
  | Cat r1 r2 => flat_map (fun cg => run r2 (fst cg) (snd cg)) (run r1 c g)
  | Alt r1 r2 => run r1 c g ++ run r2 c g
  | Star greedy p =>
      (fix loop (pv : option ascii) (s : list ascii) {struct s} :=
         let stop := (Cursor pv s, g) in
         match s with
         | a :: s' =>
             if p a
             then if greedy then loop (Some a) s' ++ [stop]
                  else stop :: loop (Some a) s'
             else [stop]
         | [] => [stop]
         end) (prev c) (rest c)
  | Group i r1 =>
      map (fun cg => (fst cg, (i, consumed c (fst cg)) :: snd cg)) (run r1 c g)
  | Bol =>
      match prev c with
      | None => [(c, g)]
      | Some a => if Ascii.eqb a newline then [(c, g)] else []
      end
  | Eol =>
      match rest c with
      | [] => [(c, g)]
      | a :: _ => if Ascii.eqb a newline then [(c, g)] else []
      end
  end.

(** A literal, [x+], [x?] and [x{2}]. *)
Definition lit (s : string) : regex :=
  foldr (fun a r => Cat (Chars (Ascii.eqb a)) r) Eps (chars s).
Definition Plus (greedy : bool) (p : charset) : regex :=
  Cat (Chars p) (Star greedy p).
Definition Opt (r : regex) : regex := Alt r Eps.
Definition Twice (r : regex) : regex := Cat r r.

Declare Scope regex_scope.
Delimit Scope regex_scope with re.
Bind Scope regex_scope with regex.
Infix "⋅" := Cat (at level 41, right associativity) : regex_scope.
Infix "∣" := Alt (at level 42, right associativity) : regex_scope.

(** Character classes of the patterns. *)
Definition cls_digit : charset := is_digit.                       (* \d *)
Definition cls_space : charset := is_space.                       (* \s *)
Definition cls_dot : charset := fun a => negb (Ascii.eqb a newline). (* . *)
Definition cls_digit_space : charset := fun a => is_digit a || is_space a.
Definition cls_digit_comma : charset := fun a => is_digit a || Ascii.eqb a ",".
Definition cls_upper_space : charset := fun a => in_range 65 90 a || is_space a.
Definition cls_range (lo hi : ascii) : charset := in_range (code lo) (code hi).

(** A match object: where the match ended, and the groups. *)
Definition match_obj : Type := cursor * captures.

(** [m.group(i)]; [None] when the group took no part in the match. *)
Fixpoint lookup_group (i : nat) (g : captures) : option (list ascii) :=
  match g with
  | [] => None
  | (j, w) :: g' => if Nat.eqb i j then Some w else lookup_group i g'
  end.
Definition group (m : match_obj) (i : nat) : option string :=
  unchars <$> lookup_group i (snd m).

(** [re.match]: the first success at the start of the subject. *)
Definition re_match (r : regex) (s : string) : option match_obj :=
  head (run r (Cursor None (chars s)) []).

(** [re.search]: the first success at the leftmost position that has one. *)
Fixpoint search_from (r : regex) (pv : option ascii) (s : list ascii)
  : option match_obj :=
  match head (run r (Cursor pv s) []) with
  | Some m => Some m
  | None =>
      match s with
      | [] => None
      | a :: s' => search_from r (Some a) s'
      end
  end.
Definition re_search (r : regex) (s : string) : option match_obj :=
  search_from r None (chars s).

(** [re.findall]: successive matches that do not overlap.  [skip] counts the
    characters of the last match still to step over; after an empty match
    the scan moves on by one character. *)
Fixpoint findall_from (r : regex) (pv : option ascii) (s : list ascii)
    (skip : nat) {struct s} : list match_obj :=
  match skip with
  | S k =>
      match s with
      | [] => []
      | a :: s' => findall_from r (Some a) s' k
      end
  | O =>
      match head (run r (Cursor pv s) []) with
      | Some m =>
          m :: match s with
               | [] => []
               | a :: s' =>
                   findall_from r (Some a) s'
                     (pred (length s - length (rest (fst m))))
               end
      | None =>
          match s with
          | [] => []
          | a :: s' => findall_from r (Some a) s' 0
          end
      end
  end.
Definition re_findall (r : regex) (s : string) : list match_obj :=
  findall_from r None (chars s) 0.

(** The tuple [re.findall] gives for a match of a pattern with two groups:
    a group that took no part reads as the empty string. *)
Definition groups2 (m : match_obj) : string * string :=
  (default "" (group m 1), default "" (group m 2)).

(** ** [datetime.strptime] and [strftime] for the two formats of the code *)

Record datetime : Type := Datetime {
  year : nat; month : nat; day : nat;
  hour : nat; minute : nat; second : nat
}.

(** [int(s)] on a string of decimal digits. *)
Definition digit_value (a : ascii) : nat := nat_of_ascii a - 48.
Definition int_of_digits (s : list ascii) : nat :=
  fold_left (fun n a => 10 * n + digit_value a) s 0.

Definition is_leap (y : nat) : bool :=
  Nat.eqb (y mod 4) 0 && (negb (Nat.eqb (y mod 100) 0) || Nat.eqb (y mod 400) 0).

Definition days_in_month (y m : nat) : nat :=
  match m with
  | 2 => if is_leap y then 29 else 28
  | 4 | 6 | 9 | 11 => 30
  | _ => 31
  end.

(** The pattern [_strptime] compiles ["%Y%m%d%H%M%S"] to; the named groups
    Y, m, d, H, M, S are numbered 1 to 6.
<<
    (?P<Y>\d\d\d\d)(?P<m>1[0-2]|0[1-9]|[1-9])
    (?P<d>3[0-1]|[1-2]\d|0[1-9]|[1-9]| [1-9])(?P<H>2[0-3]|[0-1]\d|\d)
    (?P<M>[0-5]\d|\d)(?P<S>6[0-1]|[0-5]\d|\d)
>> *)
Definition d09 : regex := Chars cls_digit.
Definition rng (lo hi : ascii) : regex := Chars (cls_range lo hi).

Definition strptime_regex : regex :=
  (Group 1 (d09 ⋅ d09 ⋅ d09 ⋅ d09)
   ⋅ Group 2 ((lit "1" ⋅ rng "0" "2") ∣ (lit "0" ⋅ rng "1" "9") ∣ rng "1" "9")
   ⋅ Group 3 ((lit "3" ⋅ rng "0" "1") ∣ (rng "1" "2" ⋅ d09)
              ∣ (lit "0" ⋅ rng "1" "9") ∣ rng "1" "9" ∣ (lit " " ⋅ rng "1" "9"))
   ⋅ Group 4 ((lit "2" ⋅ rng "0" "3") ∣ (rng "0" "1" ⋅ d09) ∣ d09)
   ⋅ Group 5 ((rng "0" "5" ⋅ d09) ∣ d09)
   ⋅ Group 6 ((lit "6" ⋅ rng "0" "1") ∣ (rng "0" "5" ⋅ d09) ∣ d09))%re.

Definition int_field (g : captures) (i : nat) : nat :=
  int_of_digits (lstrip (from_option id [] (lookup_group i g))).

(** [datetime.strptime(data, "%Y%m%d%H%M%S")].  Every way it fails is a
    [ValueError]: no match, text left over, or a field the [datetime]
    constructor rejects (year 0, a day the month does not have, second 60
    or 61). *)
Definition strptime (data : string) : outcome datetime :=
  match re_match strptime_regex data with
  | None => Raise (Exn ValueError "time data does not match format")
  | Some (c, g) =>
      match rest c with
      | _ :: _ => Raise (Exn ValueError "unconverted data remains")
      | [] =>
          let d := Datetime (int_field g 1) (int_field g 2) (int_field g 3)
                            (int_field g 4) (int_field g 5) (int_field g 6) in
          if Nat.eqb (year d) 0
          then Raise (Exn ValueError "year 0 is out of range")
          else if negb (Nat.leb (day d) (days_in_month (year d) (month d)))
          then Raise (Exn ValueError "day is out of range for month")
          else if negb (Nat.leb (second d) 59)
          then Raise (Exn ValueError "second must be in 0..59")
          else Ret d
      end
  end.

(** Decimal digits, zero-filled to a width. *)
Definition zfill (w : nat) (n : nat) : string :=
  let s := str_of_nat n in
  unchars (replicate (w - String.length s) "0"%char) +:+ s.

(** [d.strftime("%Y-%m-%d %H:%M:%S")]; the year is printed by the C library,
    which (glibc) does not pad it. *)
Definition strftime (d : datetime) : string :=
  str_of_nat (year d) +:+ "-" +:+ zfill 2 (month d) +:+ "-" +:+ zfill 2 (day d)
  +:+ " " +:+ zfill 2 (hour d) +:+ ":" +:+ zfill 2 (minute d)
  +:+ ":" +:+ zfill 2 (second d).

(** ** [format_pdf_date] *)

(** Converts a date in PDF format (e.g. D:20250731144353-05'00) to
    YYYY-MM-DD HH:MM:SS. *)
Definition format_pdf_date (pdf_date : string) : outcome string :=
  let pdf_date :=
    if startswith pdf_date "D:" then slice_from 2 pdf_date else pdf_date in
  try_except_ValueError
    (date_obj ← strptime (slice_to 14 pdf_date);
     let formatted_date := strftime date_obj in
     let timezone :=
       if Nat.ltb 14 (String.length pdf_date) then slice_from 14 pdf_date else "" in
     let timezone_replaced := replace_char "'" ":" timezone in
     mret (if truthy (VStr timezone)
           then formatted_date +:+ timezone_replaced
           else formatted_date))
    (mret pdf_date).

(** ** [extract_metadata] *)

Definition DEFAULT_FONTS_BANK_OF_AMERICAN : list string :=
  [ "AAAAAH+ConnectionsIta_CZEX0AC0";
    "AAAAAB+ITC_Franklin_Gothic_Book_CZEX0080";
    "AAAAAD+HigherStandards_CZEX0660";
    "AAAAAL+ConnectionsBold_CZEX0AA0";
    "AAAAAJ+Connections_Medium_CZEX0A80";
    "AAAAAF+Connections_CZEX0A60" ].

Definition edit_softwares : list string :=
  ["Acrobat"; "Photoshop"; "Word"; "GIMP"; "Illustrator"].

(** [metadata.get(k, 'Unknown')] on the mapping of raw property strings. *)
Definition meta_get (metadata : gmap string string) (k : string) : string :=
  default "Unknown" (metadata !! k).

(** The error-shaped value every detector returns from its handler. *)
Definition error_dict (prefix : string) (e : exn) : value :=
  VDict [("error", VStr (prefix +:+ exn_str e))].

(** Extract metadata *)
Definition extract_metadata (metadata : gmap string string) : outcome value :=
  try_except
    (let creation_date := meta_get metadata "creationDate" in
     let mod_date := meta_get metadata "modDate" in
     let producer := meta_get metadata "producer" in
     let creator := meta_get metadata "creator" in
     let author := meta_get metadata "author" in
     let edited_by_dates :=
       negb (String.eqb mod_date creation_date)
       && negb (String.eqb mod_date "Unknown") in
     let edited_by_software :=
       existsb (fun software =>
                  contains (lower (producer +:+ creator)) (lower software))
               edit_softwares in
     mret (VDict
       [ ("metadata", VDict
            [ ("creation_date", VStr creation_date);
              ("modification_date", VStr mod_date);
              ("producer", VStr producer);
              ("creator", VStr creator);
              ("author", VStr author) ]);
         ("analysis_editions", VDict
            [ ("edited_by_dates", VBool edited_by_dates);
              ("edited_by_software", VBool edited_by_software) ]) ]))
    (fun e => mret (error_dict "Error running ExifTool: " e)).

(** [extract_metadata] on what a caller can hand it besides a mapping of
    strings: [None], which has no [get], or a dict in which the value of a
    property is a string or [None].  [x != y] holds between [None] and a
    string, and [producer + creator] raises [TypeError] unless both are
    strings. *)
Definition opt_str (x : option string) : value :=
  match x with
  | Some s => VStr s
  | None => VNone
  end.

Definition opt_get (metadata : gmap string (option string)) (k : string)
  : option string :=
  default (Some "Unknown") (metadata !! k).

Definition opt_eqb (x y : option string) : bool :=
  match x, y with
  | Some a, Some b => String.eqb a b
  | None, None => true
  | _, _ => false
  end.

Definition double_quote : string := String (ascii_of_N 34) "".

Definition str_add (x y : option string) : outcome string :=
  match x, y with
  | Some a, Some b => mret (a +:+ b)
  | Some _, None =>
      Raise (Exn TypeError
               ("can only concatenate str (not " +:+ double_quote
                +:+ "NoneType" +:+ double_quote +:+ ") to str"))
  | None, Some _ =>
      Raise (Exn TypeError
               "unsupported operand type(s) for +: 'NoneType' and 'str'")
  | None, None =>
      Raise (Exn TypeError
               "unsupported operand type(s) for +: 'NoneType' and 'NoneType'")
  end.

Definition extract_metadata_any
    (metadata : option (gmap string (option string))) : outcome value :=
  try_except
    (m ← match metadata with
         | Some m => mret m
         | None =>
             Raise (Exn AttributeError
                      "'NoneType' object has no attribute 'get'")
         end;
     let creation_date := opt_get m "creationDate" in
     let mod_date := opt_get m "modDate" in
     let producer := opt_get m "producer" in
     let creator := opt_get m "creator" in
     let author := opt_get m "author" in
     let edited_by_dates :=
       negb (opt_eqb mod_date creation_date)
       && negb (opt_eqb mod_date (Some "Unknown")) in
     both ← str_add producer creator;
     let edited_by_software :=
       existsb (fun software => contains (lower both) (lower software))
               edit_softwares in
     mret (VDict
       [ ("metadata", VDict
            [ ("creation_date", opt_str creation_date);
              ("modification_date", opt_str mod_date);
              ("producer", opt_str producer);
              ("creator", opt_str creator);
              ("author", opt_str author) ]);
         ("analysis_editions", VDict
            [ ("edited_by_dates", VBool edited_by_dates);
              ("edited_by_software", VBool edited_by_software) ]) ]))
    (fun e => mret (error_dict "Error running ExifTool: " e)).

(** ** [parse_pdf_low_level] *)

(** One entry of pdfplumber's [page.chars]: a dict with a fixed set of keys,
    each present or not. *)
Record pchar : Type := PChar {
  c_fontname : option string;
  c_x0 : option Q; c_top : option Q; c_x1 : option Q; c_bottom : option Q;
  c_text : option string;
  c_width : option Q; c_height : option Q
}.

(** What pdfplumber exposes of a page: its characters, the ["type"] entry of
    each value of [page.objects.get("xobject", {})], and
    [page.extract_text()]. *)
Record plumber_page : Type := PlumberPage {
  page_chars : list pchar;
  page_xobject_types : list (option string);
  page_text : option string
}.

(** A document as pdfplumber opens it; [pdf.metadata] maps property names to
    raw property strings. *)
Record plumber_pdf : Type := PlumberPdf {
  pdf_pages : list plumber_page;
  pdf_metadata : gmap string string
}.

(** [char.get(k, 0)] for a coordinate. *)
Definition num_get (x : option Q) : value :=
  match x with
  | Some q => VFloat q
  | None => VInt 0
  end.

Definition char_font (c : pchar) : string := default "unknown" (c_fontname c).

Definition whitelisted (font : string) : bool :=
  existsb (String.eqb font) DEFAULT_FONTS_BANK_OF_AMERICAN.

(** The dict appended for a character in an unexpected font.  In the source
    the comment string after ["bbox": bbox,] is a string literal followed by
    the literal ["text"]: the two are concatenated into one key. *)
Definition region_of (page_num : nat) (c : pchar) : value :=
  let bbox := VTuple [num_get (c_x0 c); num_get (c_top c);
                      num_get (c_x1 c); num_get (c_bottom c)] in
  VDict
    [ ("page", VInt (Z.of_nat page_num));
      ("fontname", VStr (char_font c));
      ("bbox", bbox);
      ("(x0, top, x1, bottom) - coordinates in PDFtext",
         VStr (default "" (c_text c)));
      ("width", num_get (c_width c));
      ("height", num_get (c_height c)) ].

(** The state of the scan: the set of fonts and the regions so far. *)
Definition scan_state : Type := gset string * list value.

(** [for char in page.chars: ...] *)
Definition scan_char (page_num : nat) (st : scan_state) (c : pchar)
  : scan_state :=
  let font := char_font c in
  let fonts := {[ font ]} ∪ fst st in
  if negb (whitelisted font)
  then (fonts, snd st ++ [region_of page_num c])
  else (fonts, snd st).

(** [for page_num, page in enumerate(pdf.pages, 1): if page.chars: ...] *)
Fixpoint scan_pages (page_num : nat) (pages : list plumber_page)
    (st : scan_state) : scan_state :=
  match pages with
  | [] => st
  | page :: pages' =>
      let st' :=
        if nonempty (page_chars page)
        then fold_left (scan_char page_num) (page_chars page) st
        else st in
      scan_pages (S page_num) pages' st'
  end.

Definition suspicious_type (t : option string) : bool :=
  match t with
  | Some t => existsb (String.eqb t) ["/JavaScript"; "/OpenAction"]
  | None => false
  end.

(** Use pdfplumber to inspect internal structure and identify suspicious
    font positions.  The argument is what [pdfplumber.open(pdf_path)]
    yields. *)
Definition parse_pdf_low_level (pdfplumber_open : outcome plumber_pdf)
  : outcome value :=
  try_except
    (pdf ← pdfplumber_open;
     let '(fonts, suspicious_regions) := scan_pages 1 (pdf_pages pdf) (∅, []) in
     let revisions :=
       if bool_decide (pdf_metadata pdf ≠ ∅)
       then from_option String.length 0
                        (pdf_metadata pdf !! "XMP:VersionHistory")
       else 0 in
     let suspicious_objects :=
       existsb (fun page => existsb suspicious_type (page_xobject_types page))
               (pdf_pages pdf) in
     let num_suspicious_chars := length suspicious_regions in
     mret (VDict
       [ ("revisions", VInt (Z.of_nat revisions));
         ("font_count", VInt (Z.of_nat (size fonts)));
         ("fonts_used", VList (VStr <$> elements fonts));
         ("suspicious_regions", VList suspicious_regions);
         ("suspicious_objects", VBool suspicious_objects);
         ("note", VStr
            (str_of_nat (size fonts)
             +:+ " fonts detected; multiple fonts may indicate manipulation."
             +:+ "Found " +:+ str_of_nat num_suspicious_chars
             +:+ " occurrences of suspicious fonts at specific positions."
             +:+ (if nonempty suspicious_regions || suspicious_objects
                  then "Suspicious objects found"
                  else "No suspicious objects")
             +:+ ".")) ]))
    (fun e => mret (error_dict "Error running pdfplumber: " e)).

(** ** [highlight_suspicious_fonts] *)

(** PyMuPDF's [Rect]: [(x0, y0, x1, y1)]. *)
Record rect : Type := Rect { rx0 : Q; ry0 : Q; rx1 : Q; ry1 : Q }.

Definition num_of (v : value) : outcome Q :=
  match v with
  | VInt n => mret (inject_Z n)
  | VFloat q => mret q
  | _ => Raise (Exn TypeError "must be real number")
  end.

(** [fitz.Rect(v)] for a sequence of four numbers. *)
Definition fitz_Rect (v : value) : outcome rect :=
  match v with
  | VTuple [a; b; c; d] | VList [a; b; c; d] =>
      x0 ← num_of a; y0 ← num_of b; x1 ← num_of c; y1 ← num_of d;
      mret (Rect x0 y0 x1 y1)
  | _ => Raise (Exn ValueError "Rect: bad seq len")
  end.

(** PyMuPDF's [Rect.is_valid]: [x0 <= x1 and y0 <= y1]. *)
Definition is_valid (r : rect) : bool :=
  Qle_bool (rx0 r) (rx1 r) && Qle_bool (ry0 r) (ry1 r).

(** PyMuPDF's [Rect.is_empty]: the rectangle has no area. *)
Definition is_empty (r : rect) : bool :=
  Qle_bool (rx1 r) (rx0 r) || Qle_bool (ry1 r) (ry0 r).

(** [for x in v]. *)
Definition iterate (v : value) : outcome (list value) :=
  match v with
  | VList vs | VTuple vs => mret vs
  | VNone => Raise (Exn TypeError "'NoneType' object is not iterable")
  | _ => Raise (Exn TypeError "object is not iterable")
  end.

Section Overlay.
(** A page of a PyMuPDF document, and [page.add_highlight_annot(bbox)],
    which returns the page with the annotation or raises. *)
Context {page : Type}.
Variable add_highlight_annot : page -> rect -> outcome page.

(** [doc[i]]: an index from the end when negative, [IndexError] naming the
    index past the last page. *)
Definition doc_index (doc : list page) (i : Z) : outcome nat :=
  let n := Z.of_nat (length doc) in
  if (i <? n)%Z && (0 <? n)%Z
  then mret (Z.to_nat (i mod n))
  else Raise (Exn IndexError ("page " +:+ str_of_Z i +:+ " not in document")).

(** The body of the loop over the regions. *)
Definition highlight_region (doc : list page) (region : value)
  : outcome (list page) :=
  p ← value_item region "page";
  page_num ← match p with
             | VInt n => mret (n - 1)%Z
             | _ => Raise (Exn TypeError "unsupported operand type(s) for -")
             end;
  b ← value_item region "bbox";
  bbox ← fitz_Rect b;
  if is_valid bbox
  then
    i ← doc_index doc page_num;
    match doc !! i with
    | Some pg =>
        pg' ← add_highlight_annot pg bbox;
        mret (<[i := pg']> doc)
    | None =>
        Raise (Exn IndexError
                 ("page " +:+ str_of_Z page_num +:+ " not in document"))
    end
  else mret doc.

(** Creates a copy of the PDF with highlights in the suspicious regions.
    [fitz_open] is what [fitz.open(pdf_path)] yields; the result is the
    document saved under [output_path]. *)
Definition highlight_suspicious_fonts (fitz_open : outcome (list page))
    (suspicious_regions : value) : outcome (list page) :=
  doc ← fitz_open;
  regions ← iterate suspicious_regions;
  foldM highlight_region doc regions.
End Overlay.

(** ** The statement extractor *)

(** [float(s)] on the decimal literals the patterns can capture: an optional
    sign, digits, and an optional point followed by digits, with at least one
    digit.  Other spellings [float] accepts (exponents, [inf], [nan],
    surrounding blanks, underscores) are outside the model and reported as
    [ValueError]. *)
Definition Z_of_digits (s : list ascii) : Z :=
  fold_left (fun n a => 10 * n + Z.of_N (code a) - 48)%Z s 0%Z.

Fixpoint span_digits (s : list ascii) : list ascii * list ascii :=
  match s with
  | a :: s' =>
      if is_digit a
      then let '(ds, r) := span_digits s' in (a :: ds, r)
      else ([], s)
  | [] => ([], [])
  end.

Definition decimal (neg : bool) (ip fp : list ascii) : Q :=
  let q := Qred (Qmake (Z_of_digits (ip ++ fp))
                       (Z.to_pos (10 ^ Z.of_nat (length fp)))) in
  if neg then Qopp q else q.

Definition split_sign (l : list ascii) : bool * list ascii :=
  match l with
  | a :: t =>
      if Ascii.eqb a "-" then (true, t)
      else if Ascii.eqb a "+" then (false, t)
      else (false, a :: t)
  | [] => (false, [])
  end.

Definition py_float (s : string) : outcome Q :=
  let bad := Raise (Exn ValueError "could not convert string to float") in
  let '(neg, t) := split_sign (chars s) in
  let '(ip, t1) := span_digits t in
  match t1 with
  | [] => if nonempty ip then mret (decimal neg ip []) else bad
  | a :: t2 =>
      if Ascii.eqb a "."
      then
        let '(fp, t3) := span_digits t2 in
        match t3 with
        | [] =>
            if nonempty ip || nonempty fp
            then mret (decimal neg ip fp) else bad
        | _ :: _ => bad
        end
      else bad
  end.

(** [[\d,]+\.\d{2}], the amount every figure pattern captures. *)
Definition amount_re : regex :=
  (Plus true cls_digit_comma ⋅ lit "." ⋅ Twice d09)%re.

(** [r"Account (?:number:|#)\s*([\d\s]+)"] *)
Definition default_account : regex :=
  (lit "Account " ⋅ (lit "number:" ∣ lit "#") ⋅ Star true cls_space
   ⋅ Group 1 (Plus true cls_digit_space))%re.

(** Search for an account number in a bank statement text: the account
    number as a string, or None if not found. *)
(** [m.group(i)] followed by a string method: an [AttributeError] when the
    group took no part in the match. *)
Definition group_str (m : match_obj) (i : nat) : outcome string :=
  match group m i with
  | Some s => mret s
  | None => Raise (Exn AttributeError "'NoneType' object has no attribute")
  end.

(** Search for an account number in a bank statement text: the account
    number as a string, or None if not found. *)
Definition extract_account_number (full_text : string) : outcome value :=
  match re_search default_account full_text with
  | Some m =>
      g ← group_str m 1;
      let account_number := strip g in
      mret (VStr account_number)
  | None => mret VNone
  end.

Definition find_value (default : regex) (text : string) (negative : bool)
  : outcome value :=
  match re_search default text with
  | Some m =>
      g ← group_str m 1;
      let value_str := remove_char "," g in
      value_float ← py_float value_str;
      mret (VFloat (if negative then Qopp value_float else value_float))
  | None => mret (VFloat 0)
  end.

(** The patterns of the summary figures, in the order of the source. *)
Definition ws1 : regex := Plus true cls_space.                 (* \s+ *)
Definition lazy_dots : regex := Star false cls_dot.            (* .*? *)

(** [r"Beginning balance on .*? \$([\d,]+\.\d{2})"] *)
Definition pat_initial_balance : regex :=
  (lit "Beginning balance on " ⋅ lazy_dots ⋅ lit " $" ⋅ Group 1 amount_re)%re.
(** [r"Deposits and other (?:additions|credits)\s+([\d,]+\.\d{2})"] *)
Definition pat_deposits_additions : regex :=
  (lit "Deposits and other " ⋅ (lit "additions" ∣ lit "credits") ⋅ ws1
   ⋅ Group 1 amount_re)%re.
(** [r"ATM and debit card subtractions\s+-([\d,]+\.\d{2})"] *)
Definition pat_card_withdrawals : regex :=
  (lit "ATM and debit card subtractions" ⋅ ws1 ⋅ lit "-" ⋅ Group 1 amount_re)%re.
(** [r"Other subtractions\s+-([\d,]+\.\d{2})"] *)
Definition pat_other_subtractions : regex :=
  (lit "Other subtractions" ⋅ ws1 ⋅ lit "-" ⋅ Group 1 amount_re)%re.
(** [r"Withdrawals and other debits\s+-([\d,]+\.\d{2})"] *)
Definition pat_withdrawals_debits : regex :=
  (lit "Withdrawals and other debits" ⋅ ws1 ⋅ lit "-" ⋅ Group 1 amount_re)%re.
(** [r"Service fees\s+-([\d,]+\.\d{2})"] *)
Definition pat_service_fees : regex :=
  (lit "Service fees" ⋅ ws1 ⋅ lit "-" ⋅ Group 1 amount_re)%re.
(** [r"Ending balance on .*? \$([\d,]+\.\d{2})"] *)
Definition pat_final_balance : regex :=
  (lit "Ending balance on " ⋅ lazy_dots ⋅ lit " $" ⋅ Group 1 amount_re)%re.
(** [r"Total deposits and other (?:additions|credits)\s+\$([\d,]+\.\d{2})"] *)
Definition pat_total_deposits : regex :=
  (lit "Total deposits and other " ⋅ (lit "additions" ∣ lit "credits") ⋅ ws1
   ⋅ lit "$" ⋅ Group 1 amount_re)%re.
(** [r"Total ATM and debit card subtractions\s+-\$([\d,]+\.\d{2})"] *)
Definition pat_total_card : regex :=
  (lit "Total ATM and debit card subtractions" ⋅ ws1 ⋅ lit "-$"
   ⋅ Group 1 amount_re)%re.
(** [r"Total (?:other subtractions|withdrawals and other debits)\s+-\$([\d,]+\.\d{2})"] *)
Definition pat_total_other : regex :=
  (lit "Total " ⋅ (lit "other subtractions" ∣ lit "withdrawals and other debits")
   ⋅ ws1 ⋅ lit "-$" ⋅ Group 1 amount_re)%re.

(** [r"^([A-Z\s]+)\nAccount summary"] with [re.MULTILINE] *)
Definition default_name : regex :=
  (Bol ⋅ Group 1 (Plus true cls_upper_space)
   ⋅ lit (String newline "Account summary"))%re.

(** [r"^(\d{2}/\d{2}/\d{2})\s+.*?\s+(-?[\d,]+\.\d{2})$"] with [re.MULTILINE] *)
Definition default_transaction : regex :=
  (Bol ⋅ Group 1 (Twice d09 ⋅ lit "/" ⋅ Twice d09 ⋅ lit "/" ⋅ Twice d09)
   ⋅ ws1 ⋅ lazy_dots ⋅ ws1 ⋅ Group 2 (Opt (lit "-") ⋅ amount_re) ⋅ Eol)%re.

(** [for date, value_str in matches: ...] *)
Definition transaction_of (dv : string * string) : outcome value :=
  let '(date, value_str) := dv in
  value_float ← py_float (remove_char "," value_str);
  mret (VDict [("date", VStr date); ("value", VFloat value_float)]).

Fixpoint mapM {A B} (f : A -> outcome B) (l : list A) : outcome (list B) :=
  match l with
  | [] => mret []
  | a :: l' => b ← f a; bs ← mapM f l'; mret (b :: bs)
  end.

(** Extracts information from a bank statement, makes the cardholder name
    dynamic and structures the result. *)
Definition structure_extract_in_json (full_text : string) : outcome value :=
  account_holder ←
    match re_search default_name full_text with
    | Some m => s ← group_str m 1; mret (VStr (strip s))
    | None => mret (VStr "Name not found")
    end;
  account_number ← extract_account_number full_text;
  initial_balance ← find_value pat_initial_balance full_text false;
  deposits_additions ← find_value pat_deposits_additions full_text false;
  card_withdrawals ← find_value pat_card_withdrawals full_text true;
  other_withdrawals ←
    (a ← find_value pat_other_subtractions full_text true;
     if truthy a then mret a
     else find_value pat_withdrawals_debits full_text true);
  service_fees ← find_value pat_service_fees full_text true;
  final_balance ← find_value pat_final_balance full_text false;
  let account_summary := VDict
    [ ("account_number", account_number);
      ("initial_balance", initial_balance);
      ("deposits_additions", deposits_additions);
      ("card_withdrawals", card_withdrawals);
      ("other_withdrawals", other_withdrawals);
      ("service_fees", service_fees);
      ("final_balance", final_balance) ] in
  total_deposits_additions ← find_value pat_total_deposits full_text false;
  total_card_withdrawals ← find_value pat_total_card full_text true;
  total_other_withdrawals ← find_value pat_total_other full_text true;
  let total_transactions := VDict
    [ ("total_deposits_additions", total_deposits_additions);
      ("total_card_withdrawals", total_card_withdrawals);
      ("total_other_withdrawals", total_other_withdrawals) ] in
  let matches := groups2 <$> re_findall default_transaction full_text in
  transactions_list ← mapM transaction_of matches;
  mret (VDict
    [ ("account_holder", account_holder);
      ("account_summary", account_summary);
      ("total_transactions", total_transactions);
      ("transactions", VList transactions_list) ]).

(** Extracts key information from a PDF bank statement.  The argument is
    what [pdfplumber.open(pdf_path)] yields. *)
Definition extract_bank_statement (pdfplumber_open : outcome plumber_pdf)
  : outcome value :=
  try_except
    (pdf ← pdfplumber_open;
     let full_text :=
       fold_left (fun acc page => acc +:+ default "" (page_text page))
                 (pdf_pages pdf) "" in
     structure_extract_in_json full_text)
    (fun e => mret (error_dict "Error processing PDF: " e)).

(** ** [analyze_image] *)

(** The names bound at module level by the imports, the assignments and the
    function definitions of [main.py]. *)
Definition module_globals : list string :=
  [ "fitz"; "pdfplumber"; "io"; "os"; "subprocess"; "json"; "re";
    "Dict"; "List"; "Optional"; "Tuple";
    "FastAPI"; "UploadFile"; "File"; "HTTPException";
    "PdfReader"; "datetime";
    "app"; "DEFAULT_FONTS_BANK_OF_AMERICAN";
    "analyze_image"; "extract_metadata"; "format_pdf_date";
    "parse_pdf_low_level"; "highlight_suspicious_fonts";
    "extract_account_number"; "structure_extract_in_json";
    "extract_bank_statement"; "analyze_pdf" ].

(** Evaluating a global name inside a function body: [NameError] when the
    module does not bind it (none of the names used is a builtin). *)
Definition load_global (name : string) : outcome unit :=
  if existsb (String.eqb name) module_globals
  then mret tt
  else Raise (Exn NameError ("name '" +:+ name +:+ "' is not defined")).

(** The operations of OpenCV and NumPy the body of [analyze_image] calls. *)
Class Imaging : Type := {
  image : Type;
  (** [cv2.imdecode(np.frombuffer(data, np.uint8), cv2.IMREAD_COLOR)];
      [None] when the bytes do not decode. *)
  cv2_imdecode : list byte -> option image;
  (** [cv2.imwrite(tmp.name, img, [cv2.IMWRITE_JPEG_QUALITY, quality])]
      followed by [cv2.imread(tmp.name)]. *)
  jpeg_roundtrip : image -> Z -> option image;
  cv2_absdiff : image -> image -> image;
  (** [np.uint8(diff * scale)] *)
  np_uint8_times : image -> Z -> image;
  (** [cv2.cvtColor(ela, cv2.COLOR_BGR2GRAY)] *)
  cv2_gray : image -> image;
  np_std : image -> Q;
  shape : image -> list Z
}.

(** Advanced analysis with ELA using OpenCV. *)
Definition analyze_image `{Imaging} (image_data : list byte)
    (quality scale : Z) : outcome value :=
  try_except
    (_ ← load_global "np";
     let nparr := image_data in
     _ ← load_global "cv2";
     match cv2_imdecode nparr with
     | None => mret (VDict [("error", VStr "Unable to load image")])
     | Some img =>
         _ ← load_global "tempfile";
         _ ← load_global "cv2";
         let compressed := jpeg_roundtrip img quality in
         _ ← load_global "os";
         match compressed with
         | None => mret (VDict [("error", VStr "Error recompressing image")])
         | Some compressed =>
             _ ← load_global "cv2";
             let diff := cv2_absdiff img compressed in
             _ ← load_global "np";
             let ela := np_uint8_times diff scale in
             _ ← load_global "cv2";
             let ela_gray := cv2_gray ela in
             _ ← load_global "np";
             let std_dev := np_std ela_gray in
             let possible_manipulation := negb (Qle_bool std_dev 20) in
             mret (VDict
               [ ("image_stats", VDict
                    [ ("ela_std_dev", VFloat std_dev);
                      ("ela_shape", VList (VInt <$> shape ela));
                      ("format", VStr "JPEG") ]);
                 ("possible_manipulation", VBool possible_manipulation);
                 ("manipulation_note",
                    VStr (if possible_manipulation
                          then "High deviation in ELA indicates editing"
                          else "Uniform ELA")) ])
         end
     end)
    (fun e => mret (error_dict "Error in ELA analysis: " e)).

(** ** [analyze_pdf] *)

(** [sorted(v)] for a list of strings; a list holding anything else is
    outside the model and reported as [TypeError]. *)
Fixpoint insert_sorted (x : string) (l : list string) : list string :=
  match l with
  | [] => [x]
  | y :: l' => if String.leb x y then x :: l else y :: insert_sorted x l'
  end.
Definition sorted (l : list string) : list string := foldr insert_sorted [] l.

Definition as_str (v : value) : outcome string :=
  match v with
  | VStr s => mret s
  | _ => Raise (Exn TypeError "'<' not supported between instances")
  end.
Definition py_sorted (v : value) : outcome (list string) :=
  vs ← iterate v; ss ← mapM as_str vs; mret (sorted ss).

(** [any(f(x) for x in xs)] *)
Fixpoint py_any {A} (f : A -> outcome value) (l : list A) : outcome bool :=
  match l with
  | [] => mret false
  | a :: l' => v ← f a; if truthy v then mret true else py_any f l'
  end.

(** What PyMuPDF exposes of a page: for each image listed by
    [page.get_images(full=True)], the result of
    [doc.extract_image(xref)["image"]]; and the highlights the page
    carries. *)
Record fitz_page : Type := FitzPage {
  page_images : list (outcome (list byte));
  page_highlights : list rect
}.

Record fitz_document : Type := FitzDocument {
  fitz_metadata : gmap string string;
  fitz_pages : list fitz_page
}.

(** An uploaded file: its name, and what each library makes of its bytes
    ([fitz.open(stream=content, filetype="pdf")], which is also what
    [fitz.open("temp.pdf")] yields, and [pdfplumber.open("temp.pdf")]). *)
Record upload : Type := Upload {
  filename : string;
  fitz_open : outcome fitz_document;
  pdfplumber_open : outcome plumber_pdf
}.

(** [format_pdf_date(metadata_orig.get(k))]: [None] has no [startswith]. *)
Definition format_pdf_date_of (x : option string) : outcome string :=
  match x with
  | Some s => format_pdf_date s
  | None =>
      Raise (Exn AttributeError
               "'NoneType' object has no attribute 'startswith'")
  end.

Definition summary_edit : string := "Possible edit detected".
Definition summary_clean : string := "No obvious edits detected.".

Section Endpoint.
Context `{Imaging}.
Variable add_highlight_annot : fitz_page -> rect -> outcome fitz_page.

(** [for img_index, img in enumerate(images): ...] on one page. *)
Fixpoint analyze_page_images (page_num img_index : nat)
    (images : list (outcome (list byte))) (image_analysis : list value)
  : outcome (list value) :=
  match images with
  | [] => mret image_analysis
  | extract :: images' =>
      image_data ← extract;
      image_result ← analyze_image image_data 95 15;
      analyze_page_images page_num (S img_index) images'
        (image_analysis ++
           [VDict [ ("page", VInt (Z.of_nat page_num + 1));
                    ("image_index", VInt (Z.of_nat img_index));
                    ("analysis", image_result) ]])
  end.

(** [for page_num in range(len(doc)): ...] *)
Fixpoint analyze_doc_images (page_num : nat) (pages : list fitz_page)
    (image_analysis : list value) : outcome (list value) :=
  match pages with
  | [] => mret image_analysis
  | page :: pages' =>
      image_analysis' ←
        analyze_page_images page_num 0 (page_images page) image_analysis;
      analyze_doc_images (S page_num) pages' image_analysis'
  end.

(** [img["analysis"].get("possible_manipulation", False)] *)
Definition image_flag (img : value) : outcome value :=
  a ← value_item img "analysis";
  value_get a "possible_manipulation" (VBool false).

(** The verdict dict [possible_edits]. *)
Definition possible_edits_of (metadata_extracted low_level_analysis : value)
    (image_analysis : list value) : outcome value :=
  ae ← value_item metadata_extracted "analysis_editions";
  edited_by_dates ← value_item ae "edited_by_dates";
  ae ← value_item metadata_extracted "analysis_editions";
  edited_by_software ← value_item ae "edited_by_software";
  image_analysis_summary ← py_any image_flag image_analysis;
  low_level_analysis_summary ←
    value_get low_level_analysis "suspicious_objects" (VBool false);
  cond ←
    (if truthy edited_by_dates then mret true
     else if truthy edited_by_software then mret true
     else
       any_image ← py_any image_flag image_analysis;
       if any_image : bool then mret true
       else
         fontes_used ← value_get low_level_analysis "fontes_used" (VList []);
         used ← py_sorted fontes_used;
         mret (bool_decide (sorted DEFAULT_FONTS_BANK_OF_AMERICAN ≠ used))
     : outcome bool);
  mret (VDict
    [ ("edited_by_dates", edited_by_dates);
      ("edited_by_software", edited_by_software);
      ("image_analysis_summary", VBool image_analysis_summary);
      ("low_level_analysis_summary", low_level_analysis_summary);
      ("summary", VStr (if cond : bool then summary_edit else summary_clean)) ]).

(** The body of the [try] for one file; the handler turns any exception
    into an HTTP 500 for the request. *)
Definition analyze_file (file : upload) : outcome value :=
  try_except
    (pdf ← fitz_open file;
     let metadata_orig := fitz_metadata pdf in
     metadata_extracted ← extract_metadata metadata_orig;
     creation_date ← format_pdf_date_of (metadata_orig !! "creationDate");
     mod_date ← format_pdf_date_of (metadata_orig !! "modDate");
     let producer := opt_str (metadata_orig !! "producer") in
     let creator := opt_str (metadata_orig !! "creator") in
     let author := opt_str (metadata_orig !! "author") in
     doc ← fitz_open file;
     image_analysis ← analyze_doc_images 0 (fitz_pages doc) [];
     low_level_analysis ← parse_pdf_low_level (pdfplumber_open file);
     let analysed_file_name := "analyzed_" +:+ filename file in
     suspicious_regions ←
       value_get low_level_analysis "suspicious_regions" VNone;
     _ ← highlight_suspicious_fonts add_highlight_annot
           (d ← fitz_open file; mret (fitz_pages d)) suspicious_regions;
     result ← extract_bank_statement (pdfplumber_open file);
     possible_edits ←
       possible_edits_of metadata_extracted low_level_analysis image_analysis;
     mret (VDict
       [ ("metadata", VDict
            [ ("file_name", VStr (filename file));
              ("analysed_file_name", VStr analysed_file_name);
              ("creation_date", VStr creation_date);
              ("modification_date", VStr mod_date);
              ("producer", producer);
              ("creator", creator);
              ("author", author) ]);
         ("low_level_analysis", low_level_analysis);
         ("analysis_editions", possible_edits);
         ("bank_result", result);
         ("image_analysis", VList image_analysis) ]))
    (fun e =>
       Raise (Exn (HTTPException 500) ("Error processing PDF: " +:+ exn_str e))).

(** One iteration of [for file in files]. *)
Definition analyze_step (final_result : list value) (file : upload)
  : outcome (list value) :=
  if negb (endswith (filename file) ".pdf")
  then Raise (Exn (HTTPException 400) "Only PDF files are supported.")
  else
    record ← analyze_file file;
    mret (final_result ++ [record]).

(** The handler of [POST /analyze-pdf]: the list of records, or the
    exception the request ends with. *)
Definition analyze_pdf (files : list upload) : outcome (list value) :=
  foldM analyze_step [] files.
End Endpoint.

(** ** Sample inputs *)

Definition nl : string := String newline "".

Definition sample_text : string :=
  "JOHN DOE" +:+ nl +:+ "Account summary" +:+ nl +:+
  "Account number: 1234 5678 9012" +:+ nl +:+
  "Beginning balance on July 1, 2025 $1,234.56" +:+ nl +:+
  "Deposits and other credits 2,000.00" +:+ nl +:+
  "ATM and debit card subtractions -150.25" +:+ nl +:+
  "Other subtractions -0.00" +:+ nl +:+
  "Service fees -12.00" +:+ nl +:+
  "Ending balance on July 31, 2025 $3,072.31" +:+ nl +:+
  "07/02/25 COFFEE SHOP -4.50" +:+ nl +:+
  "07/03/25 PAYROLL 2,000.00" +:+ nl.

(** A character of the page at [(x, y)] in a given font. *)
Definition glyph (font : string) (x y : Z) : pchar :=
  PChar (Some font) (Some (inject_Z x)) (Some (inject_Z y))
        (Some (inject_Z (x + 6))) (Some (inject_Z (y + 10)))
        (Some "a") (Some (inject_Z 6)) (Some (inject_Z 10)).

(** A page that uses each expected font once. *)
Definition clean_page : plumber_page :=
  PlumberPage
    (imap (fun i font => glyph font (Z.of_nat (10 * i)) 20)
          DEFAULT_FONTS_BANK_OF_AMERICAN)
    [] (Some sample_text).

Definition clean_metadata : gmap string string :=
  {[ "creationDate" := "D:20250731144353-05'00";
     "modDate" := "D:20250731144353-05'00";
     "producer" := "pdf-lib";
     "creator" := "Statement generator";
     "author" := "" ]}.

(** A statement whose dates agree, whose producer is no editing tool, with
    no image and only the expected fonts. *)
Definition clean_upload : upload :=
  Upload "statement.pdf"
    (Ret (FitzDocument clean_metadata [FitzPage [] []]))
    (Ret (PlumberPdf [clean_page] ∅)).

(** An upload that is not a PDF by name. *)
Definition text_upload : upload :=
  Upload "notes.txt"
    (Raise (Exn LibraryError "cannot open broken document"))
    (Raise (Exn LibraryError "No /Root object! - Is this really a PDF?")).

(** A codec that decodes every byte string and measures no deviation. *)
Definition plain_imaging : Imaging := {|
  image := list byte;
  cv2_imdecode := fun data => Some data;
  jpeg_roundtrip := fun img _ => Some img;
  cv2_absdiff := fun a _ => a;
  np_uint8_times := fun a _ => a;
  cv2_gray := fun a => a;
  np_std := fun _ => 0%Q;
  shape := fun a => [Z.of_nat (length a)]
|}.

(** PyMuPDF's [page.add_highlight_annot(rect)]: a rectangle without area is
    refused with [ValueError], any other is added to the highlights of the
    page. *)
Definition append_highlight (pg : fitz_page) (r : rect) : outcome fitz_page :=
  if is_empty r
  then Raise (Exn ValueError "bad quads entry")
  else Ret (FitzPage (page_images pg) (page_highlights pg ++ [r])).

(** A statement with a withdrawal line and no line of service fees. *)
Definition short_statement : string :=
  "Other subtractions -25.00" +:+ nl +:+ "Ending balance on 07/31 $1,000.10".

(** A document with one character in a font that is not expected. *)
Definition forged_glyph : pchar := glyph "Helvetica" 72 90.
Definition forged_pdf : plumber_pdf :=
  PlumberPdf
    [ clean_page;
      PlumberPage (page_chars clean_page ++ forged_glyph :: page_chars clean_page)
                  [] None ]
    ∅.

(** A scanned document: two pages without characters. *)
Definition scanned_pdf : plumber_pdf :=
  PlumberPdf [PlumberPage [] [] None; PlumberPage [] [] (Some "")] ∅.

(** A character without width or height, in a font that is not expected. *)
Definition flat_glyph : pchar :=
  PChar (Some "Helvetica") (Some 5%Q) (Some 5%Q) (Some 5%Q) (Some 5%Q)
        (Some "") (Some 0%Q) (Some 0%Q).

(** An image of four bytes, and an upload that embeds it. *)
Definition some_image : list byte := [x89; x50; x4e; x47].
Definition image_upload : upload :=
  Upload "scan.pdf"
    (Ret (FitzDocument clean_metadata [FitzPage [Ret some_image] []]))
    (Ret (PlumberPdf [clean_page] ∅)).

(** An upload named as a PDF that PyMuPDF cannot open. *)
Definition broken_upload : upload :=
  Upload "broken.pdf"
    (Raise (Exn LibraryError "Failed to open stream"))
    (Raise (Exn LibraryError "No /Root object! - Is this really a PDF?")).

(** An upload PyMuPDF opens and pdfplumber does not. *)
Definition unparsed_upload : upload :=
  Upload "unparsed.pdf"
    (Ret (FitzDocument clean_metadata [FitzPage [] []]))
    (Raise (Exn LibraryError "No /Root object! - Is this really a PDF?")).

(** ** Vocabulary of the properties *)

(** The words a pattern can consume; the anchors consume nothing. *)
Fixpoint lang (r : regex) (w : list ascii) : Prop :=
  match r with
  | Eps | Bol | Eol => w = []
  | Chars p => exists a, w = [a] /\ p a = true
  | Cat r1 r2 => exists w1 w2, w = w1 ++ w2 /\ lang r1 w1 /\ lang r2 w2
  | Alt r1 r2 => lang r1 w \/ lang r2 w
  | Star _ p => Forall (fun a => p a = true) w
  | Group _ r1 => lang r1 w
  end.

(** Every success of [r] leaves group [i] set to a word that satisfies [Q]. *)
Definition captured (r : regex) (i : nat) (Q : list ascii -> Prop) : Prop :=
  forall c g c' g',
    In (c', g') (run r c g) ->
    exists w, lookup_group i g' = Some w /\ Q w.

(** [r] leaves group [i] as it found it. *)
Definition keeps (r : regex) (i : nat) : Prop :=
  forall c g c' g',
    In (c', g') (run r c g) -> lookup_group i g' = lookup_group i g.

Fixpoint no_group (i : nat) (r : regex) : bool :=
  match r with
  | Eps | Chars _ | Star _ _ | Bol | Eol => true
  | Cat r1 r2 | Alt r1 r2 => no_group i r1 && no_group i r2
  | Group j r1 => negb (Nat.eqb i j) && no_group i r1
  end.

(** A word of decimal digits. *)
Definition digits (l : list ascii) : Prop := Forall (fun a => is_digit a = true) l.

(** What [find_value] and the transaction loop make of a captured amount. *)
Definition amount_word (w : list ascii) : Prop :=
  exists q, py_float (remove_char "," (unchars w)) = Ret q /\ (0 <= q)%Q.

Definition signed_amount_word (w : list ascii) : Prop :=
  exists q, py_float (remove_char "," (unchars w)) = Ret q.

(** ** Reading the results *)

(** [record[k1][k2]] on nested dicts, when both keys are there. *)
Definition field2 (record : value) (k1 k2 : string) : option value :=
  match record with
  | VDict d =>
      match dict_get k1 d with
      | Some (VDict d') => dict_get k2 d'
      | _ => None
      end
  | _ => None
  end.

(** [record[k]] when the key is there. *)
Definition field1 (record : value) (k : string) : option value :=
  match record with
  | VDict d => dict_get k d
  | _ => None
  end.

(** The regions a scan is expected to emit for the pages numbered from
    [page_num]: one per character in an unexpected font, in page order and,
    within a page, in character order. *)
Definition suspicious (c : pchar) : bool := negb (whitelisted (char_font c)).

Fixpoint regions_from (page_num : nat) (pages : list plumber_page)
  : list value :=
  match pages with
  | [] => []
  | page :: pages' =>
      map (region_of page_num) (List.filter suspicious (page_chars page))
      ++ regions_from (S page_num) pages'
  end.

(** [region] is a dict whose ["page"] is the integer [p] and whose ["bbox"]
    makes the rectangle [r]. *)
Definition region_box (region : value) (p : Z) (r : rect) : Prop :=
  value_item region "page" = Ret (VInt p) /\
  (b ← value_item region "bbox"; fitz_Rect b) = Ret r.

(** The rectangle of a character, with 0 for a coordinate it lacks. *)
Definition char_rect (c : pchar) : rect :=
  Rect (default 0%Q (c_x0 c)) (default 0%Q (c_top c))
       (default 0%Q (c_x1 c)) (default 0%Q (c_bottom c)).

(** What [analyze_image] returns when the name [np] is looked up. *)
Definition ela_error : value :=
  VDict [("error", VStr "Error in ELA analysis: name 'np' is not defined")].

(** An entry of [image_analysis] whose analysis is that error. *)
Definition error_entry (v : value) : Prop :=
  exists p i, v = VDict [("page", p); ("image_index", i); ("analysis", ela_error)].

(** Group 1 of the leftmost match of [pat], if there is one. *)
Definition group1 (pat : regex) (text : string) : option string :=
  from_option (fun m => group m 1) None (re_search pat text).

(** The six summary figures and the patterns each is read with. *)
Definition figure_patterns : list (string * list regex) :=
  [ ("initial_balance", [pat_initial_balance]);
    ("deposits_additions", [pat_deposits_additions]);
    ("card_withdrawals", [pat_card_withdrawals]);
    ("other_withdrawals", [pat_other_subtractions; pat_withdrawals_debits]);
    ("service_fees", [pat_service_fees]);
    ("final_balance", [pat_final_balance]) ].

(** The capture of group 1 of the leftmost match of [pat] reads as the
    amount [q]. *)
Definition magnitude (pat : regex) (text : string) (q : Q) : Prop :=
  exists m w,
    re_search pat text = Some m /\ group m 1 = Some w /\
    py_float (remove_char "," w) = Ret q /\ (0 <= q)%Q.

(** Containment that does not see letter case, said without [str.lower]:
    the letters A-Z paired with a-z, two characters that are equal or the two
    cases of one letter, and a text that holds a word equal to the needle up
    to the case of its letters. *)
Definition letter_pairs : list (ascii * ascii) :=
  combine (chars "ABCDEFGHIJKLMNOPQRSTUVWXYZ")
          (chars "abcdefghijklmnopqrstuvwxyz").

Definition same_letter (a b : ascii) : bool :=
  Ascii.eqb a b
  || existsb (fun ul => (Ascii.eqb a (fst ul) && Ascii.eqb b (snd ul))
                        || (Ascii.eqb a (snd ul) && Ascii.eqb b (fst ul)))
             letter_pairs.

Definition same_word (w s : string) : Prop :=
  Forall2 (fun a b => same_letter a b = true) (chars w) (chars s).

Definition occurs_ignoring_case (needle hay : string) : Prop :=
  exists w, occurs w hay /\ same_word w needle.

(** A letter of the alphabet of A-Z and a-z. *)
Definition is_letter (a : ascii) : bool :=
  existsb (fun ul => Ascii.eqb a (fst ul) || Ascii.eqb a (snd ul)) letter_pairs.

(** ** Vocabulary of the further properties *)

(** The least number of characters a success of a pattern consumes. *)
Fixpoint min_len (r : regex) : nat :=
  match r with
  | Eps | Bol | Eol | Star _ _ => 0
  | Chars _ => 1
  | Cat r1 r2 => min_len r1 + min_len r2
  | Alt r1 r2 => Nat.min (min_len r1) (min_len r2)
  | Group _ r1 => min_len r1
  end.

(** All the characters of a document, page after page. *)
Definition all_chars (pages : list plumber_page) : list pchar :=
  concat (page_chars <$> pages).

(** Metadata of a file saved by an editing tool, and the same with the
    tool named in other letter case and under the other key. *)
Definition acrobat_metadata : gmap string string :=
  {[ "producer" := "Adobe ACROBAT Pro 11"; "modDate" := "D:20240102000000" ]}.
Definition acrobat_metadata' : gmap string string :=
  {[ "producer" := "adobe acrobat pro 11"; "modDate" := "D:20240102000000" ]}.

(** The entries of [image_analysis] for the images of a page, and of the
    pages of a document numbered from [page_num]: the page number counts
    from 1, the index of an image from 0 within its page. *)
Fixpoint page_entries (page_num img_index : nat)
    (images : list (outcome (list byte))) : list value :=
  match images with
  | [] => []
  | _ :: images' =>
      VDict [ ("page", VInt (Z.of_nat page_num + 1));
              ("image_index", VInt (Z.of_nat img_index));
              ("analysis", ela_error) ]
      :: page_entries page_num (S img_index) images'
  end.

Fixpoint doc_entries (page_num : nat) (pages : list fitz_page) : list value :=
  match pages with
  | [] => []
  | page :: pages' =>
      page_entries page_num 0 (page_images page)
      ++ doc_entries (S page_num) pages'
  end.

(** The image extractions of a document that raised. *)
Definition failed_extraction (pages : list fitz_page) : Prop :=
  exists page e, In page pages /\ In (Raise e) (page_images page).

(** A document of two pages with three images, and one whose second image
    cannot be extracted. *)
Definition three_images : fitz_document :=
  FitzDocument clean_metadata
    [ FitzPage [Ret some_image; Ret some_image] [];
      FitzPage [Ret some_image] [] ].
Definition three_images_upload : upload :=
  Upload "images.pdf" (Ret three_images) (Ret (PlumberPdf [clean_page] ∅)).
Definition bad_image_upload : upload :=
  Upload "bad_image.pdf"
    (Ret (FitzDocument clean_metadata
            [FitzPage [Ret some_image; Raise (Exn ValueError "bad xref")] []]))
    (Ret (PlumberPdf [clean_page] ∅)).

(** An upload without dates: PyMuPDF gives the empty string for a property
    the document does not have. *)
Definition undated_upload : upload :=
  Upload "undated.pdf"
    (Ret (FitzDocument
            {[ "creationDate" := ""; "modDate" := ""; "producer" := "pdf-lib";
               "creator" := ""; "author" := "" ]}
            [FitzPage [] []]))
    (Ret (PlumberPdf [clean_page] ∅)).

(** An upload with a character without width or height in a font that is not
    expected, before a character with area in such a font. *)
Definition flat_upload : upload :=
  Upload "flat.pdf"
    (Ret (FitzDocument clean_metadata [FitzPage [] []]))
    (Ret (PlumberPdf [PlumberPage [flat_glyph; forged_glyph] [] None] ∅)).

(** A word without white space at either end, as [str.strip] leaves it. *)
Definition trimmed (w : list ascii) : Prop :=
  (forall a, head w = Some a -> is_space a = false) /\
  (forall a, last w = Some a -> is_space a = false).

(** A pattern without [^] and [$]. *)
Fixpoint anchor_free (r : regex) : bool :=
  match r with
  | Bol | Eol => false
  | Eps | Chars _ | Star _ _ => true
  | Cat r1 r2 | Alt r1 r2 => anchor_free r1 && anchor_free r2
  | Group _ r1 => anchor_free r1
  end.

(** One of the two phrases of the account number occurs in the text with a
    digit or a white space character right after it. *)
Definition number_follows (text : string) : Prop :=
  exists anchor a,
    (anchor = "Account number:" \/ anchor = "Account #") /\
    cls_digit_space a = true /\
    occurs (anchor +:+ String a "") text.

(** The words of [\d{2}/\d{2}/\d{2}]. *)
Definition date_word (w : list ascii) : Prop :=
  exists d1 d2 d3 d4 d5 d6,
    w = [d1; d2; "/"%char; d3; d4; "/"%char; d5; d6] /\
    digits [d1; d2; d3; d4; d5; d6].

(** The text of the pages put end to end, a page without text giving
    nothing. *)
Definition joined_text (pages : list plumber_page) : string :=
  unchars (concat ((fun page => chars (default "" (page_text page))) <$> pages)).

(** * Properties *)

(** ** The model at work *)

(** Greedy and lazy repetition, and the leftmost match of [re.search]. *)
Example run_greedy_first :
  from_option (fun m => group m 1) None
    (re_match (Group 1 (Star true cls_digit) ⋅ Star true cls_digit)%re "123")
  = Some "123".
Proof. reflexivity. Qed.

Example run_lazy_first :
  from_option (fun m => group m 1) None
    (re_match (Group 1 (Star false cls_digit) ⋅ Star true cls_digit)%re "123")
  = Some "".
Proof. reflexivity. Qed.

Example search_leftmost :
  from_option (fun m => group m 1) None
    (re_search (lit "b" ⋅ Group 1 (Chars cls_digit))%re "b_b1b2")
  = Some "1".
Proof. reflexivity. Qed.

Example search_no_match : re_search pat_service_fees "Service fees 12.00" = None.
Proof. vm_compute. reflexivity. Qed.

Example search_lazy_dots :
  group1 pat_initial_balance
         "Beginning balance on July 1, 2025 $1,234.56 and $9.99"
  = Some "1,234.56".
Proof. vm_compute. reflexivity. Qed.

Example search_dot_stops_at_newline :
  group1 pat_initial_balance
         ("Beginning balance on July 1" +:+ nl +:+ " $1,234.56")
  = None.
Proof. vm_compute. reflexivity. Qed.

Example search_commas_only :
  group1 pat_service_fees ("Service fees" +:+ nl +:+ " -,.125") = Some ",.12".
Proof. vm_compute. reflexivity. Qed.

Example search_case_sensitive :
  group1 pat_other_subtractions
         "Total other subtractions -$5.00 Other subtractions -1,2,3.456"
  = Some "1,2,3.45".
Proof. vm_compute. reflexivity. Qed.

Example search_second_occurrence :
  group1 pat_deposits_additions
         "Deposits and other credits 12.3 Deposits and other additions 7.00"
  = Some "7.00".
Proof. vm_compute. reflexivity. Qed.

Example search_account_blanks :
  group1 default_account ("Account #" +:+ nl +:+ " 12 34 x") = Some "12 34 ".
Proof. vm_compute. reflexivity. Qed.

Example search_account_gives_back :
  group1 default_account "Account number: " = Some " ".
Proof. vm_compute. reflexivity. Qed.

Example search_account_no_digit :
  group1 default_account "Account number:x" = None.
Proof. vm_compute. reflexivity. Qed.

Example search_name_lines :
  group1 default_name
         ("x" +:+ nl +:+ "JOHN" +:+ nl +:+ nl +:+ "DOE " +:+ nl +:+ "Account summary")
  = Some ("JOHN" +:+ nl +:+ nl +:+ "DOE ").
Proof. vm_compute. reflexivity. Qed.

Example search_name_mixed_case :
  group1 default_name ("Mr JOHN" +:+ nl +:+ "Account summary") = None.
Proof. vm_compute. reflexivity. Qed.

Example findall_lines :
  groups2 <$> re_findall default_transaction
    ("01/02/03 a  -1.00 2.00" +:+ nl +:+ "xx 01/02/03 b 3.00" +:+ nl +:+
     "04/05/06" +:+ nl +:+ "7.00" +:+ nl +:+ "08/09/10   11.00")
  = [("01/02/03", "2.00"); ("08/09/10", "11.00")].
Proof. vm_compute. reflexivity. Qed.

Example findall_trailing_blank :
  groups2 <$> re_findall default_transaction
    ("01/02/03 a 1.00 " +:+ nl +:+ "01/02/03  2.00")
  = [("01/02/03", "2.00")].
Proof. vm_compute. reflexivity. Qed.

Example sorted_whitelist :
  sorted DEFAULT_FONTS_BANK_OF_AMERICAN
  = [ "AAAAAB+ITC_Franklin_Gothic_Book_CZEX0080";
      "AAAAAD+HigherStandards_CZEX0660";
      "AAAAAF+Connections_CZEX0A60";
      "AAAAAH+ConnectionsIta_CZEX0AC0";
      "AAAAAJ+Connections_Medium_CZEX0A80";
      "AAAAAL+ConnectionsBold_CZEX0AA0" ].
Proof. vm_compute. reflexivity. Qed.

(** [strptime] backtracks into a one-digit month, and rejects a day the
    month does not have. *)
Example strptime_short_month :
  strptime "2025731144353" = Ret (Datetime 2025 7 31 14 43 53).
Proof. vm_compute. reflexivity. Qed.

Example strptime_february_30 :
  strptime "20250230000000"
  = Raise (Exn ValueError "day is out of range for month").
Proof. vm_compute. reflexivity. Qed.

Example format_pdf_date_no_zone :
  format_pdf_date "20240229235959" = Ret "2024-02-29 23:59:59".
Proof. vm_compute. reflexivity. Qed.

Example format_pdf_date_thirteen_digits :
  format_pdf_date "2025010100000" = Ret "2025-01-01 00:00:00".
Proof. vm_compute. reflexivity. Qed.

Example format_pdf_date_leap_second :
  format_pdf_date "20251231235960" = Ret "20251231235960".
Proof. vm_compute. reflexivity. Qed.

Example format_pdf_date_year_999 :
  format_pdf_date "09990101000000" = Ret "999-01-01 00:00:00".
Proof. vm_compute. reflexivity. Qed.

Example format_pdf_date_blanks :
  format_pdf_date "2025 1 1 1 1 1" = Ret "2025 1 1 1 1 1".
Proof. vm_compute. reflexivity. Qed.

(** A malformed string loses its prefix "D:". *)
Example format_pdf_date_prefix_dropped : format_pdf_date "D:abc" = Ret "abc".
Proof. vm_compute. reflexivity. Qed.

Example extract_sample_text :
  structure_extract_in_json sample_text
  = Ret (VDict
      [ ("account_holder", VStr "JOHN DOE");
        ("account_summary", VDict
           [ ("account_number", VStr "1234 5678 9012");
             ("initial_balance", VFloat (30864 # 25));
             ("deposits_additions", VFloat 2000);
             ("card_withdrawals", VFloat (Qopp (601 # 4)));
             ("other_withdrawals", VFloat 0);
             ("service_fees", VFloat (Qopp 12));
             ("final_balance", VFloat (307231 # 100)) ]);
        ("total_transactions", VDict
           [ ("total_deposits_additions", VFloat 0);
             ("total_card_withdrawals", VFloat 0);
             ("total_other_withdrawals", VFloat 0) ]);
        ("transactions", VList
           [ VDict [("date", VStr "07/02/25"); ("value", VFloat (Qopp (9 # 2)))];
             VDict [("date", VStr "07/03/25"); ("value", VFloat 2000)] ]) ]).
Proof. vm_compute. reflexivity. Qed.

Example scan_scanned_pdf :
  parse_pdf_low_level (Ret scanned_pdf)
  = Ret (VDict
      [ ("revisions", VInt 0); ("font_count", VInt 0);
        ("fonts_used", VList []); ("suspicious_regions", VList []);
        ("suspicious_objects", VBool false);
        ("note", VStr ("0 fonts detected; multiple fonts may indicate manipulation."
                       +:+ "Found 0 occurrences of suspicious fonts at specific positions."
                       +:+ "No suspicious objects.")) ]).
Proof. vm_compute. reflexivity. Qed.

(** A failure of pdfplumber is captured by the scan and then met by the
    overlay pass, which iterates over [None]. *)
Example scan_failure_ends_request :
  analyze_pdf (H := plain_imaging) append_highlight [unparsed_upload]
  = Raise (Exn (HTTPException 500)
             "Error processing PDF: 'NoneType' object is not iterable").
Proof. vm_compute. reflexivity. Qed.

(** ** Strings and lists of characters *)

Lemma chars_app (s1 s2 : string) : chars (s1 +:+ s2) = chars s1 ++ chars s2.
Proof. induction s1 as [|a s1 IH]; simpl; [reflexivity | now rewrite IH]. Qed.

Lemma unchars_app (l1 l2 : list ascii) :
  unchars (l1 ++ l2) = unchars l1 +:+ unchars l2.
Proof. induction l1 as [|a l1 IH]; simpl; [reflexivity | now rewrite IH]. Qed.

Lemma chars_unchars (l : list ascii) : chars (unchars l) = l.
Proof. apply list_ascii_of_string_of_list_ascii. Qed.

Lemma unchars_chars (s : string) : unchars (chars s) = s.
Proof. apply string_of_list_ascii_of_string. Qed.

Lemma is_prefix_spec (p s : list ascii) :
  is_prefix p s = true <-> exists t, s = p ++ t.
Proof.
  revert s. induction p as [|a p IH]; intros s; simpl.
  - split; [intros _; now exists s | reflexivity].
  - destruct s as [|b s].
    + split; [discriminate | intros [t Ht]; discriminate].
    + rewrite andb_true_iff, IH. split.
      * intros [Hab [t ->]]. apply Ascii.eqb_eq in Hab as ->. now exists t.
      * intros [t Ht]. injection Ht as -> ->. split; [apply Ascii.eqb_refl | now exists t].
Qed.

Lemma is_infix_spec (needle hay : list ascii) :
  is_infix needle hay = true <-> exists pre post, hay = pre ++ needle ++ post.
Proof.
  induction hay as [|b hay IH]; simpl.
  - rewrite orb_false_r, is_prefix_spec. split.
    + intros [t Ht]. now exists [], t.
    + intros [pre [post Hp]]. destruct pre; [now exists post | discriminate].
  - rewrite orb_true_iff, is_prefix_spec, IH. split.
    + intros [[t Ht] | [pre [post Hp]]].
      * now exists [], t.
      * exists (b :: pre), post. now rewrite Hp.
    + intros [pre [post Hp]]. destruct pre as [|a pre]; simpl in Hp.
      * left. now exists post.
      * right. injection Hp as -> ->. now exists pre, post.
Qed.

Lemma occurs_chars (needle hay : string) :
  occurs needle hay <->
  exists pre post, chars hay = pre ++ chars needle ++ post.
Proof.
  split.
  - intros [pre [post ->]]. exists (chars pre), (chars post).
    now rewrite !chars_app.
  - intros [pre [post Hp]]. exists (unchars pre), (unchars post).
    rewrite <- (unchars_chars hay), Hp, !unchars_app.
    now rewrite unchars_chars.
Qed.

Lemma contains_occurs (hay needle : string) :
  contains hay needle = true <-> occurs needle hay.
Proof. unfold contains. now rewrite is_infix_spec, occurs_chars. Qed.

(** ** The matcher *)

Lemma run_star_sound (greedy : bool) (p : charset) (g : captures) :
  forall s pv c' g',
    In (c', g')
       ((fix loop (pv : option ascii) (s : list ascii) {struct s} :=
           let stop := (Cursor pv s, g) in
           match s with
           | a :: s' =>
               if p a
               then if greedy then loop (Some a) s' ++ [stop]
                    else stop :: loop (Some a) s'
               else [stop]
           | [] => [stop]
           end) pv s) ->
    g' = g /\ exists w, Forall (fun a => p a = true) w /\ s = w ++ rest c'.
Proof.
  induction s as [|a s IH]; intros pv c' g' Hin.
  - destruct Hin as [[= <- <-] | []]. split; [easy | now exists []].
  - assert (Hstop : (Cursor pv (a :: s), g) = (c', g') ->
              g' = g /\ exists w, Forall (fun a => p a = true) w
                                  /\ a :: s = w ++ rest c').
    { intros [= <- <-]. split; [easy | now exists []]. }
    assert (Hmore : p a = true ->
              In (c', g') ((fix loop (pv : option ascii) (s : list ascii) {struct s} :=
                 let stop := (Cursor pv s, g) in
                 match s with
                 | a :: s' =>
                     if p a
                     then if greedy then loop (Some a) s' ++ [stop]
                          else stop :: loop (Some a) s'
                     else [stop]
                 | [] => [stop]
                 end) (Some a) s) ->
              g' = g /\ exists w, Forall (fun a => p a = true) w
                                  /\ a :: s = w ++ rest c').
    { intros Hp Hin'. destruct (IH _ _ _ Hin') as [-> [w [Hw ->]]].
      split; [easy | exists (a :: w)]. split; [now constructor | easy]. }
    simpl in Hin. destruct (p a) eqn:Hp.
    + destruct greedy.
      * apply in_app_or in Hin as [Hin | [Hin | []]]; auto.
      * destruct Hin as [Hin | Hin]; auto.
    + destruct Hin as [Hin | []]; auto.
Qed.

(** Every success of [run] consumed a word of the pattern. *)
Lemma run_sound (r : regex) :
  forall c g c' g',
    In (c', g') (run r c g) ->
    exists w, lang r w /\ rest c = w ++ rest c'.
Proof.
  induction r as [|p|r1 IH1 r2 IH2|r1 IH1 r2 IH2|greedy p|i r1 IH1| |];
    intros c g c' g' Hin; simpl in Hin.
  - destruct Hin as [[= <- <-] | []]. now exists [].
  - destruct (rest c) as [|a s] eqn:Hc; [easy|].
    destruct (p a) eqn:Hp; [|easy].
    destruct Hin as [[= <- <-] | []]. exists [a]. simpl. eauto.
  - apply in_flat_map in Hin as [[c1 g1] [H1 H2]]. simpl in H2.
    destruct (IH1 _ _ _ _ H1) as [w1 [L1 E1]].
    destruct (IH2 _ _ _ _ H2) as [w2 [L2 E2]].
    exists (w1 ++ w2). split; [simpl; eauto |].
    rewrite E1, E2. now rewrite app_assoc.
  - apply in_app_or in Hin as [Hin | Hin].
    + destruct (IH1 _ _ _ _ Hin) as [w [L E]]. exists w. simpl. auto.
    + destruct (IH2 _ _ _ _ Hin) as [w [L E]]. exists w. simpl. auto.
  - apply run_star_sound in Hin as [_ [w [Hw E]]]. now exists w.
  - apply in_map_iff in Hin as [[c1 g1] [[= <- <-] H1]].
    apply (IH1 _ _ _ _ H1).
  - destruct (prev c) as [a|].
    + destruct (Ascii.eqb a newline); [|easy].
      destruct Hin as [[= <- <-] | []]. now exists [].
    + destruct Hin as [[= <- <-] | []]. now exists [].
  - destruct (rest c) as [|a s] eqn:Hc.
    + destruct Hin as [[= <- <-] | []]. now exists [].
    + destruct (Ascii.eqb a newline); [|easy].
      destruct Hin as [[= <- <-] | []]. now exists [].
Qed.

Lemma lang_lit_chars (l w : list ascii) :
  lang (foldr (fun a r => Cat (Chars (Ascii.eqb a)) r) Eps l) w -> w = l.
Proof.
  revert w. induction l as [|a l IH]; intros w; simpl.
  - easy.
  - intros [w1 [w2 [-> [[b [-> Hb]] H2]]]].
    apply Ascii.eqb_eq in Hb as <-. simpl. f_equal. now apply IH.
Qed.

Lemma lang_lit (s : string) (w : list ascii) : lang (lit s) w -> w = chars s.
Proof. apply lang_lit_chars. Qed.

(** A success of a pattern that begins with a literal starts at an
    occurrence of the literal. *)
Lemma run_lit_prefix (s : string) (r : regex) c g c' g' :
  In (c', g') (run (Cat (lit s) r) c g) ->
  exists t, rest c = chars s ++ t.
Proof.
  intros Hin. apply run_sound in Hin as [w [[w1 [w2 [-> [H1 _]]]] E]].
  apply lang_lit in H1 as ->. exists (w2 ++ rest c').
  now rewrite E, app_assoc.
Qed.

(** [re.search] answers with a success at some position of the subject. *)
Lemma search_from_inv (r : regex) (s : list ascii) :
  forall pv m,
    search_from r pv s = Some m ->
    exists pre post pv', s = pre ++ post /\ In m (run r (Cursor pv' post) []).
Proof.
  induction s as [|a s IH]; intros pv m; simpl.
  - destruct (run r (Cursor pv []) []) as [|m0 l] eqn:E; simpl; [easy|].
    intros [= <-]. exists [], [], pv. rewrite E. split; [easy | now left].
  - destruct (run r (Cursor pv (a :: s)) []) as [|m0 l] eqn:E; simpl.
    + intros Hs. destruct (IH _ _ Hs) as [pre [post [pv' [-> Hin]]]].
      now exists (a :: pre), post, pv'.
    + intros [= <-]. exists [], (a :: s), pv. rewrite E. split; [easy | now left].
Qed.

Lemma re_search_inv (r : regex) (text : string) (m : match_obj) :
  re_search r text = Some m ->
  exists pre post pv',
    chars text = pre ++ post /\ In m (run r (Cursor pv' post) []).
Proof. apply search_from_inv. Qed.

Lemma findall_from_inv (r : regex) (s : list ascii) :
  forall pv skip m,
    In m (findall_from r pv s skip) ->
    exists post pv', In m (run r (Cursor pv' post) []).
Proof.
  induction s as [|a s IH]; intros pv skip m; simpl.
  - destruct skip; [|easy].
    destruct (run r (Cursor pv []) []) as [|m0 l] eqn:E; simpl; [easy|].
    intros [<- | []]. exists [], pv. rewrite E. now left.
  - destruct skip as [|k]; [|apply IH].
    destruct (run r (Cursor pv (a :: s)) []) as [|m0 l] eqn:E; simpl.
    + apply IH.
    + intros [<- | Hin]; [|now apply IH in Hin].
      exists (a :: s), pv. rewrite E. now left.
Qed.

(** No match without the literal the pattern begins with. *)
Lemma search_lit_occurs (a : string) (r : regex) (text : string) m :
  re_search (Cat (lit a) r) text = Some m -> occurs a text.
Proof.
  intros Hs. apply re_search_inv in Hs as [pre [post [pv' [E Hin]]]].
  destruct m as [c' g']. apply run_lit_prefix in Hin as [t Ht]. simpl in Ht.
  apply occurs_chars. exists pre, t. now rewrite E, Ht.
Qed.

(** The same for a literal followed by a choice of two literals. *)
Lemma search_lit_alt_occurs (a b1 b2 : string) (r : regex) (text : string) m :
  re_search (Cat (lit a) (Cat (Alt (lit b1) (lit b2)) r)) text = Some m ->
  occurs (a +:+ b1) text \/ occurs (a +:+ b2) text.
Proof.
  intros Hs. apply re_search_inv in Hs as [pre [post [pv' [E Hin]]]].
  destruct m as [c' g']. apply run_sound in Hin as [w [Hw Ew]]. simpl in Ew.
  destruct Hw as [w1 [w2 [-> [H1 [w3 [w4 [-> [H3 _]]]]]]]].
  apply lang_lit in H1 as ->.
  destruct H3 as [H3 | H3]; apply lang_lit in H3 as ->; [left | right];
    apply occurs_chars; exists pre, (w4 ++ rest c');
    rewrite E, Ew, chars_app, <- !app_assoc; reflexivity.
Qed.

(** ** Groups *)

Lemma no_group_keeps (i : nat) (r : regex) : no_group i r = true -> keeps r i.
Proof.
  induction r as [|p|r1 IH1 r2 IH2|r1 IH1 r2 IH2|greedy p|j r1 IH1| |];
    simpl; intros Hn c g c' g' Hin; simpl in Hin.
  - now destruct Hin as [[= <- <-] | []].
  - destruct (rest c) as [|a s]; [easy|]. destruct (p a); [|easy].
    now destruct Hin as [[= <- <-] | []].
  - apply andb_true_iff in Hn as [Hn1 Hn2].
    apply in_flat_map in Hin as [[c1 g1] [H1 H2]]. simpl in H2.
    rewrite (IH2 Hn2 _ _ _ _ H2). apply (IH1 Hn1 _ _ _ _ H1).
  - apply andb_true_iff in Hn as [Hn1 Hn2].
    apply in_app_or in Hin as [Hin | Hin];
      [apply (IH1 Hn1 _ _ _ _ Hin) | apply (IH2 Hn2 _ _ _ _ Hin)].
  - now apply run_star_sound in Hin as [-> _].
  - apply andb_true_iff in Hn as [Hij Hn1].
    apply in_map_iff in Hin as [[c1 g1] [[= <- <-] H1]]. simpl.
    apply negb_true_iff in Hij. rewrite Hij. apply (IH1 Hn1 _ _ _ _ H1).
  - destruct (prev c) as [a|].
    + destruct (Ascii.eqb a newline); [|easy].
      now destruct Hin as [[= <- <-] | []].
    + now destruct Hin as [[= <- <-] | []].
  - destruct (rest c) as [|a s].
    + now destruct Hin as [[= <- <-] | []].
    + destruct (Ascii.eqb a newline); [|easy].
      now destruct Hin as [[= <- <-] | []].
Qed.

Lemma consumed_app (c c' : cursor) (w : list ascii) :
  rest c = w ++ rest c' -> consumed c c' = w.
Proof.
  intros E. unfold consumed. rewrite E, length_app.
  replace (length w + length (rest c') - length (rest c')) with (length w) by lia.
  now rewrite take_app_length.
Qed.

Lemma captured_group (i : nat) (r : regex) (Q : list ascii -> Prop) :
  (forall w, lang r w -> Q w) -> captured (Group i r) i Q.
Proof.
  intros HQ c g c' g' Hin. simpl in Hin.
  apply in_map_iff in Hin as [[c1 g1] [[= <- <-] H1]]. simpl.
  rewrite Nat.eqb_refl. eexists; split; [reflexivity|].
  apply run_sound in H1 as [w [Lw E]].
  rewrite (consumed_app _ _ _ E). now apply HQ.
Qed.

Lemma captured_cat_r (i : nat) (r1 r2 : regex) Q :
  captured r2 i Q -> captured (Cat r1 r2) i Q.
Proof.
  intros H2 c g c' g' Hin. simpl in Hin.
  apply in_flat_map in Hin as [[c1 g1] [_ Hin]]. eapply H2, Hin.
Qed.

Lemma captured_cat_l (i : nat) (r1 r2 : regex) Q :
  captured r1 i Q -> no_group i r2 = true -> captured (Cat r1 r2) i Q.
Proof.
  intros H1 Hn c g c' g' Hin. simpl in Hin.
  apply in_flat_map in Hin as [[c1 g1] [Hin1 Hin2]]. simpl in Hin2.
  rewrite (no_group_keeps _ _ Hn _ _ _ _ Hin2). eapply H1, Hin1.
Qed.

Lemma captured_search (r : regex) (i : nat) Q (text : string) m :
  captured r i Q -> re_search r text = Some m ->
  exists w, group m i = Some (unchars w) /\ Q w.
Proof.
  intros Hc Hs. apply re_search_inv in Hs as [pre [post [pv' [_ Hin]]]].
  destruct m as [c' g']. apply Hc in Hin as [w [Hw HQ]].
  exists w. unfold group. simpl. now rewrite Hw.
Qed.

(** ** Amounts *)

Lemma span_digits_app (ds t : list ascii) :
  digits ds ->
  match t with [] => True | a :: _ => is_digit a = false end ->
  span_digits (ds ++ t) = (ds, t).
Proof.
  intros Hd Ht. induction Hd as [|a ds Ha Hd IH]; simpl.
  - destruct t as [|a t]; simpl; [reflexivity | now rewrite Ht].
  - now rewrite Ha, IH.
Qed.

Lemma span_digits_all (ds : list ascii) : digits ds -> span_digits ds = (ds, []).
Proof.
  intros Hd. rewrite <- (app_nil_r ds) at 1. now apply span_digits_app.
Qed.

Lemma fold_digits_nonneg (l : list ascii) :
  digits l ->
  forall n : Z, (0 <= n)%Z ->
  (0 <= fold_left (fun n a => 10 * n + Z.of_N (code a) - 48) l n)%Z.
Proof.
  intros Hd. induction Hd as [|a l Ha Hd IH]; intros n Hn; simpl.
  - exact Hn.
  - apply IH. unfold is_digit, in_range in Ha.
    apply andb_true_iff in Ha as [Ha _]. apply N.leb_le in Ha. lia.
Qed.

Lemma Z_of_digits_nonneg (l : list ascii) : digits l -> (0 <= Z_of_digits l)%Z.
Proof. intros Hd. now apply fold_digits_nonneg. Qed.

Lemma decimal_nonneg (ip fp : list ascii) :
  digits (ip ++ fp) -> (0 <= decimal false ip fp)%Q.
Proof.
  intros Hd. unfold decimal. rewrite Qred_correct.
  unfold Qle. simpl. pose proof (Z_of_digits_nonneg _ Hd). lia.
Qed.

Lemma digit_not_sign (a : ascii) :
  is_digit a = true -> Ascii.eqb a "-" = false /\ Ascii.eqb a "+" = false.
Proof.
  intros Ha. split; apply Ascii.eqb_neq; intros ->; discriminate Ha.
Qed.

Lemma digit_not_comma (a : ascii) :
  is_digit a = true -> Ascii.eqb a "," = false.
Proof. intros Ha. apply Ascii.eqb_neq; intros ->; discriminate Ha. Qed.

(** [float] reads an unsigned amount [ip.fp] as the decimal it spells. *)
Lemma py_float_unsigned (ip fp : list ascii) :
  digits ip -> digits fp -> fp <> [] ->
  py_float (unchars (ip ++ "."%char :: fp)) = Ret (decimal false ip fp).
Proof.
  intros Hi Hf Hne. unfold py_float. rewrite chars_unchars.
  assert (Hs : split_sign (ip ++ "."%char :: fp) = (false, ip ++ "."%char :: fp)).
  { destruct Hi as [|a ip Ha Hi]; [reflexivity|]. simpl.
    destruct (digit_not_sign _ Ha) as [-> ->]. reflexivity. }
  rewrite Hs, (span_digits_app ip ("."%char :: fp) Hi) by reflexivity.
  simpl. rewrite (span_digits_all fp Hf).
  destruct fp; [easy|]. now rewrite orb_true_r.
Qed.

(** And a signed one as its opposite. *)
Lemma py_float_minus (ip fp : list ascii) :
  digits ip -> digits fp -> fp <> [] ->
  py_float (unchars ("-"%char :: ip ++ "."%char :: fp))
  = Ret (Qopp (decimal false ip fp)).
Proof.
  intros Hi Hf Hne. unfold py_float. rewrite chars_unchars. simpl.
  rewrite (span_digits_app ip ("."%char :: fp) Hi) by reflexivity.
  simpl. rewrite (span_digits_all fp Hf).
  destruct fp; [easy|]. now rewrite orb_true_r.
Qed.

(** The words of [[\d,]+\.\d{2}]: digits and commas, a point, two digits. *)
Lemma lang_amount (w : list ascii) :
  lang amount_re w ->
  exists xs d1 d2,
    w = xs ++ ["."%char; d1; d2] /\
    Forall (fun a => cls_digit_comma a = true) xs /\
    is_digit d1 = true /\ is_digit d2 = true.
Proof.
  intros [w1 [w2 [-> [H1 [w3 [w4 [-> [H3 H4]]]]]]]].
  destruct H1 as [u1 [u2 [-> [[a [-> Ha]] Hu2]]]].
  apply lang_lit in H3 as ->.
  destruct H4 as [v1 [v2 [-> [[d1 [-> Hd1]] [d2 [-> Hd2]]]]]].
  exists (a :: u2), d1, d2. simpl in Hu2. repeat split; auto.
Qed.

Lemma remove_commas (xs : list ascii) :
  Forall (fun a => cls_digit_comma a = true) xs ->
  digits (List.filter (fun c => negb (Ascii.eqb c ",")) xs).
Proof.
  intros Hx. induction Hx as [|a xs Ha Hx IH]; simpl; [constructor|].
  destruct (Ascii.eqb a ",") eqn:E; simpl; [exact IH|].
  constructor; [|exact IH].
  unfold cls_digit_comma in Ha. now rewrite E, orb_false_r in Ha.
Qed.

Lemma remove_char_amount (xs : list ascii) (d1 d2 : ascii) :
  is_digit d1 = true -> is_digit d2 = true ->
  remove_char "," (unchars (xs ++ ["."%char; d1; d2]))
  = unchars (List.filter (fun c => negb (Ascii.eqb c ",")) xs
             ++ "."%char :: [d1; d2]).
Proof.
  intros H1 H2. unfold remove_char. rewrite chars_unchars, List.filter_app.
  simpl. now rewrite (digit_not_comma _ H1), (digit_not_comma _ H2).
Qed.

Lemma amount_re_word (w : list ascii) : lang amount_re w -> amount_word w.
Proof.
  intros Hw. apply lang_amount in Hw as [xs [d1 [d2 [-> [Hx [H1 H2]]]]]].
  pose proof (remove_commas _ Hx) as Hd.
  assert (H12 : digits [d1; d2]) by (repeat constructor; assumption).
  eexists. split.
  - rewrite remove_char_amount by assumption.
    now apply py_float_unsigned.
  - apply decimal_nonneg. now apply Forall_app.
Qed.

Lemma signed_amount_re_word (w : list ascii) :
  lang (Cat (Opt (lit "-")) amount_re) w -> signed_amount_word w.
Proof.
  intros [w1 [w2 [-> [H1 H2]]]].
  apply lang_amount in H2 as [xs [d1 [d2 [-> [Hx [Hd1 Hd2]]]]]].
  pose proof (remove_commas _ Hx) as Hd.
  assert (H12 : digits [d1; d2]) by (repeat constructor; assumption).
  destruct H1 as [H1 | ->].
  - apply lang_lit in H1 as ->. simpl.
    eexists. unfold remove_char. rewrite chars_unchars. simpl.
    rewrite List.filter_app. simpl.
    rewrite (digit_not_comma _ Hd1), (digit_not_comma _ Hd2). simpl.
    now apply py_float_minus.
  - simpl. eexists. rewrite remove_char_amount by assumption.
    now apply py_float_unsigned.
Qed.

(** ** [find_value] *)

Lemma Qopp_nonpos (q : Q) : (0 <= q)%Q -> (Qopp q <= 0)%Q.
Proof. intros Hq. apply (Qopp_le_compat 0 q Hq). Qed.

Lemma find_value_spec (pat : regex) (text : string) (negative : bool) :
  captured pat 1 amount_word ->
  exists v,
    find_value pat text negative = Ret (VFloat v) /\
    (re_search pat text = None -> v = 0%Q) /\
    (forall q, magnitude pat text q ->
               v = if negative then Qopp q else q) /\
    (negative = true -> (v <= 0)%Q).
Proof.
  intros Hc. unfold find_value, magnitude.
  destruct (re_search pat text) as [m|] eqn:Hs.
  - destruct (captured_search _ _ _ _ _ Hc Hs) as [w [Hg [q [Hq Hpos]]]].
    unfold group_str. rewrite Hg. simpl. rewrite Hq. simpl.
    eexists; split; [reflexivity|]. split; [discriminate|]. split.
    + intros q' [m' [w' [[= <-] [Hg' [Hq' _]]]]].
      rewrite Hg in Hg'. injection Hg' as <-. rewrite Hq in Hq'.
      now injection Hq' as <-.
    + intros ->. now apply Qopp_nonpos.
  - exists 0%Q. split; [reflexivity|]. split; [reflexivity|]. split.
    + now intros q [m [w [Hm _]]].
    + intros _. apply Qle_refl.
Qed.

Ltac captured_last :=
  repeat apply captured_cat_r; apply captured_group; apply amount_re_word.

Lemma captured_initial_balance : captured pat_initial_balance 1 amount_word.
Proof. unfold pat_initial_balance. captured_last. Qed.
Lemma captured_deposits_additions : captured pat_deposits_additions 1 amount_word.
Proof. unfold pat_deposits_additions. captured_last. Qed.
Lemma captured_card_withdrawals : captured pat_card_withdrawals 1 amount_word.
Proof. unfold pat_card_withdrawals. captured_last. Qed.
Lemma captured_other_subtractions : captured pat_other_subtractions 1 amount_word.
Proof. unfold pat_other_subtractions. captured_last. Qed.
Lemma captured_withdrawals_debits : captured pat_withdrawals_debits 1 amount_word.
Proof. unfold pat_withdrawals_debits. captured_last. Qed.
Lemma captured_service_fees : captured pat_service_fees 1 amount_word.
Proof. unfold pat_service_fees. captured_last. Qed.
Lemma captured_final_balance : captured pat_final_balance 1 amount_word.
Proof. unfold pat_final_balance. captured_last. Qed.
Lemma captured_total_deposits : captured pat_total_deposits 1 amount_word.
Proof. unfold pat_total_deposits. captured_last. Qed.
Lemma captured_total_card : captured pat_total_card 1 amount_word.
Proof. unfold pat_total_card. captured_last. Qed.
Lemma captured_total_other : captured pat_total_other 1 amount_word.
Proof. unfold pat_total_other. captured_last. Qed.

Lemma captured_account : captured default_account 1 (fun _ => True).
Proof.
  unfold default_account. repeat apply captured_cat_r. now apply captured_group.
Qed.

Lemma captured_name : captured default_name 1 (fun _ => True).
Proof.
  unfold default_name. apply captured_cat_r.
  apply captured_cat_l; [now apply captured_group | reflexivity].
Qed.

Lemma captured_transaction_date : captured default_transaction 1 (fun _ => True).
Proof.
  unfold default_transaction. apply captured_cat_r.
  apply captured_cat_l; [now apply captured_group | reflexivity].
Qed.

Lemma captured_transaction_value :
  captured default_transaction 2 signed_amount_word.
Proof.
  unfold default_transaction. do 5 apply captured_cat_r.
  apply captured_cat_l; [|reflexivity].
  apply captured_group, signed_amount_re_word.
Qed.

(** ** The extractor never raises *)

Lemma group_str_captured (r : regex) (i : nat) Q (text : string) m :
  captured r i Q -> re_search r text = Some m ->
  exists w, group_str m i = Ret (unchars w) /\ Q w.
Proof.
  intros Hc Hs. destruct (captured_search _ _ _ _ _ Hc Hs) as [w [Hg HQ]].
  exists w. unfold group_str. now rewrite Hg.
Qed.

Lemma extract_account_number_spec (full_text : string) :
  exists v,
    extract_account_number full_text = Ret v /\
    (re_search default_account full_text = None -> v = VNone) /\
    (forall m, re_search default_account full_text = Some m ->
               exists s, v = VStr s).
Proof.
  unfold extract_account_number.
  destruct (re_search default_account full_text) as [m|] eqn:Hs.
  - destruct (group_str_captured _ _ _ _ _ captured_account Hs) as [w [-> _]].
    simpl. eexists; split; [reflexivity|]. split; [discriminate | eauto].
  - exists VNone. split; [reflexivity|]. split; [reflexivity | discriminate].
Qed.

Lemma account_holder_spec (full_text : string) :
  exists v,
    match re_search default_name full_text with
    | Some m => s ← group_str m 1; mret (VStr (strip s))
    | None => mret (VStr "Name not found")
    end = Ret v /\
    (re_search default_name full_text = None -> v = VStr "Name not found").
Proof.
  destruct (re_search default_name full_text) as [m|] eqn:Hs.
  - destruct (group_str_captured _ _ _ _ _ captured_name Hs) as [w [-> _]].
    simpl. eexists; split; [reflexivity | discriminate].
  - eexists; split; [reflexivity | reflexivity].
Qed.

Lemma mapM_ret {A B} (f : A -> outcome B) (l : list A) :
  (forall a, In a l -> exists b, f a = Ret b) ->
  exists bs, mapM f l = Ret bs.
Proof.
  induction l as [|a l IH]; intros Hf; simpl.
  - now exists [].
  - destruct (Hf a (or_introl eq_refl)) as [b ->]. simpl.
    destruct IH as [bs ->]; [intros a' Ha'; apply Hf; now right|].
    simpl. now exists (b :: bs).
Qed.

Lemma transaction_of_ret (full_text : string) (dv : string * string) :
  In dv (groups2 <$> re_findall default_transaction full_text) ->
  exists v, transaction_of dv = Ret v.
Proof.
  intros Hin. apply in_map_iff in Hin as [m [<- Hin]].
  apply findall_from_inv in Hin as [post [pv' Hin]].
  destruct m as [c' g'].
  destruct (captured_transaction_value _ _ _ _ Hin) as [w2 [H2 [q Hq]]].
  unfold transaction_of, groups2, group. simpl.
  rewrite H2. simpl. rewrite Hq. simpl. eauto.
Qed.

(** The record [structure_extract_in_json] builds, figure by figure. *)
Lemma structure_extract_in_json_spec (full_text : string) :
  exists holder acct ib dep cw a b sf fb totals txs,
    structure_extract_in_json full_text =
      Ret (VDict
        [ ("account_holder", holder);
          ("account_summary", VDict
             [ ("account_number", acct);
               ("initial_balance", VFloat ib);
               ("deposits_additions", VFloat dep);
               ("card_withdrawals", VFloat cw);
               ("other_withdrawals",
                  VFloat (if truthy (VFloat a) then a else b));
               ("service_fees", VFloat sf);
               ("final_balance", VFloat fb) ]);
          ("total_transactions", totals);
          ("transactions", txs) ]) /\
    (re_search default_name full_text = None ->
     holder = VStr "Name not found") /\
    extract_account_number full_text = Ret acct /\
    find_value pat_initial_balance full_text false = Ret (VFloat ib) /\
    find_value pat_deposits_additions full_text false = Ret (VFloat dep) /\
    find_value pat_card_withdrawals full_text true = Ret (VFloat cw) /\
    find_value pat_other_subtractions full_text true = Ret (VFloat a) /\
    find_value pat_withdrawals_debits full_text true = Ret (VFloat b) /\
    find_value pat_service_fees full_text true = Ret (VFloat sf) /\
    find_value pat_final_balance full_text false = Ret (VFloat fb).
Proof.
  unfold structure_extract_in_json.
  destruct (account_holder_spec full_text) as [holder [-> Hh]].
  destruct (extract_account_number_spec full_text) as [acct [Ha _]].
  destruct (find_value_spec _ full_text false captured_initial_balance)
    as [ib [Hib _]].
  destruct (find_value_spec _ full_text false captured_deposits_additions)
    as [dep [Hdep _]].
  destruct (find_value_spec _ full_text true captured_card_withdrawals)
    as [cw [Hcw _]].
  destruct (find_value_spec _ full_text true captured_other_subtractions)
    as [a [Hoa _]].
  destruct (find_value_spec _ full_text true captured_withdrawals_debits)
    as [b [Hob _]].
  destruct (find_value_spec _ full_text true captured_service_fees)
    as [sf [Hsf _]].
  destruct (find_value_spec _ full_text false captured_final_balance)
    as [fb [Hfb _]].
  destruct (find_value_spec _ full_text false captured_total_deposits)
    as [t1 [Ht1 _]].
  destruct (find_value_spec _ full_text true captured_total_card)
    as [t2 [Ht2 _]].
  destruct (find_value_spec _ full_text true captured_total_other)
    as [t3 [Ht3 _]].
  destruct (mapM_ret transaction_of
              (groups2 <$> re_findall default_transaction full_text)
              (transaction_of_ret full_text)) as [txs Htx].
  rewrite Ha, Hib, Hdep, Hcw, Hoa. cbn [mbind outcome_bind].
  exists holder, acct, ib, dep, cw, a, b, sf, fb.
  destruct (truthy (VFloat a)) eqn:Ta; cbn [mbind outcome_bind mret outcome_ret];
    rewrite ?Hob, Hsf, Hfb, Ht1, Ht2, Ht3; cbn [mbind outcome_bind];
    rewrite Htx; cbn [mbind outcome_bind mret outcome_ret];
    eexists _, _; (split; [reflexivity|]); repeat split; assumption.
Qed.

(** ** The summary figures *)

Lemma not_occurs (needle hay : string) :
  contains hay needle = false -> ~ occurs needle hay.
Proof.
  intros Hc Ho. apply contains_occurs in Ho. congruence.
Qed.

Lemma absent_no_match (a : string) (r : regex) (text : string) :
  ~ occurs a text -> re_search (Cat (lit a) r) text = None.
Proof.
  intros Ha. destruct (re_search (Cat (lit a) r) text) as [m|] eqn:Hs; [|easy].
  now apply search_lit_occurs in Hs.
Qed.

Lemma absent_alt_no_match (a b1 b2 : string) (r : regex) (text : string) :
  ~ occurs (a +:+ b1) text -> ~ occurs (a +:+ b2) text ->
  re_search (Cat (lit a) (Cat (Alt (lit b1) (lit b2)) r)) text = None.
Proof.
  intros H1 H2.
  destruct (re_search (Cat (lit a) (Cat (Alt (lit b1) (lit b2)) r)) text)
    as [m|] eqn:Hs; [|easy].
  apply search_lit_alt_occurs in Hs as [Hs | Hs]; contradiction.
Qed.

Lemma find_value_props (pat : regex) (text : string) (negative : bool) (v : Q) :
  captured pat 1 amount_word ->
  find_value pat text negative = Ret (VFloat v) ->
  (re_search pat text = None -> v = 0%Q) /\
  (forall q, magnitude pat text q -> v = if negative then Qopp q else q) /\
  (negative = true -> (v <= 0)%Q).
Proof.
  intros Hc Hv. destruct (find_value_spec pat text negative Hc) as [v' [Hv' Hp]].
  rewrite Hv in Hv'. now injection Hv' as <-.
Qed.

Lemma truthy_float_zero : truthy (VFloat 0) = false.
Proof. reflexivity. Qed.

Lemma truthy_float_opp (q : Q) :
  ~ (q == 0)%Q -> truthy (VFloat (Qopp q)) = true.
Proof.
  intros Hq. simpl. apply negb_true_iff.
  destruct (Qeq_bool (Qopp q) 0) eqn:E; [|reflexivity].
  apply Qeq_bool_iff in E. exfalso. apply Hq.
  rewrite <- (Qopp_involutive q), E. reflexivity.
Qed.

(** C7.  For every text, the record is built (no key is missing and nothing
    is raised); each of the six summary figures is 0.00 when its anchor
    phrase does not occur in the text; and the card-withdrawal,
    other-withdrawal and service-fee figures are the opposite of the amount
    read from the match, hence never positive.  For [other_withdrawals] the
    amount is that of "Other subtractions" unless that figure is missing or
    zero, and then that of "Withdrawals and other debits". *)
Theorem summary_figures_default_and_sign (full_text : string) :
  exists record ib dep cw ow sf fb,
    structure_extract_in_json full_text = Ret record /\
    field2 record "account_summary" "initial_balance" = Some (VFloat ib) /\
    field2 record "account_summary" "deposits_additions" = Some (VFloat dep) /\
    field2 record "account_summary" "card_withdrawals" = Some (VFloat cw) /\
    field2 record "account_summary" "other_withdrawals" = Some (VFloat ow) /\
    field2 record "account_summary" "service_fees" = Some (VFloat sf) /\
    field2 record "account_summary" "final_balance" = Some (VFloat fb) /\
    (~ occurs "Beginning balance on " full_text -> ib = 0%Q) /\
    (~ occurs "Deposits and other additions" full_text ->
     ~ occurs "Deposits and other credits" full_text -> dep = 0%Q) /\
    (~ occurs "ATM and debit card subtractions" full_text -> cw = 0%Q) /\
    (~ occurs "Other subtractions" full_text ->
     ~ occurs "Withdrawals and other debits" full_text -> ow = 0%Q) /\
    (~ occurs "Service fees" full_text -> sf = 0%Q) /\
    (~ occurs "Ending balance on " full_text -> fb = 0%Q) /\
    (forall q, magnitude pat_card_withdrawals full_text q -> cw = Qopp q) /\
    (forall q, magnitude pat_service_fees full_text q -> sf = Qopp q) /\
    (forall q, magnitude pat_other_subtractions full_text q ->
               ~ (q == 0)%Q -> ow = Qopp q) /\
    (forall q, magnitude pat_withdrawals_debits full_text q ->
               re_search pat_other_subtractions full_text = None \/
               magnitude pat_other_subtractions full_text 0 ->
               ow = Qopp q) /\
    (cw <= 0)%Q /\ (ow <= 0)%Q /\ (sf <= 0)%Q.
Proof.
  destruct (structure_extract_in_json_spec full_text)
    as (holder & acct & ib & dep & cw & a & b & sf & fb & totals & txs
        & Hrec & _ & _ & Hib & Hdep & Hcw & Ha & Hb & Hsf & Hfb).
  destruct (find_value_props _ _ _ _ captured_initial_balance Hib) as [Zib _].
  destruct (find_value_props _ _ _ _ captured_deposits_additions Hdep) as [Zdep _].
  destruct (find_value_props _ _ _ _ captured_card_withdrawals Hcw)
    as (Zcw & Mcw & Ncw).
  destruct (find_value_props _ _ _ _ captured_other_subtractions Ha)
    as (Za & Ma & Na).
  destruct (find_value_props _ _ _ _ captured_withdrawals_debits Hb)
    as (Zb & Mb & Nb).
  destruct (find_value_props _ _ _ _ captured_service_fees Hsf)
    as (Zsf & Msf & Nsf).
  destruct (find_value_props _ _ _ _ captured_final_balance Hfb) as [Zfb _].
  eexists; exists ib, dep, cw, (if truthy (VFloat a) then a else b), sf, fb.
  split; [exact Hrec|]. do 6 (split; [reflexivity|]).
  split; [intros H; apply Zib, absent_no_match, H|].
  split; [intros H1 H2; apply Zdep; now apply absent_alt_no_match|].
  split; [intros H; apply Zcw, absent_no_match, H|].
  split.
  { intros H1 H2. rewrite (Za (absent_no_match _ _ _ H1)), truthy_float_zero.
    apply Zb, absent_no_match, H2. }
  split; [intros H; apply Zsf, absent_no_match, H|].
  split; [intros H; apply Zfb, absent_no_match, H|].
  split; [exact Mcw|]. split; [exact Msf|].
  split.
  { intros q Hq Hne. rewrite (Ma q Hq), (truthy_float_opp q Hne). reflexivity. }
  split.
  { intros q Hq [Hnone | Hzero].
    - rewrite (Za Hnone), truthy_float_zero. now apply Mb.
    - rewrite (Ma _ Hzero). simpl. now apply Mb. }
  split; [now apply Ncw|]. split; [|now apply Nsf].
  destruct (truthy (VFloat a)); [now apply Na | now apply Nb].
Qed.

(** At [short_statement] the service fees default to 0.00 and the other
    withdrawals are the opposite of the 25.00 on the line. *)
Lemma summary_figures_default_and_sign_witness :
  exists record,
    structure_extract_in_json short_statement = Ret record /\
    field2 record "account_summary" "service_fees" = Some (VFloat 0) /\
    field2 record "account_summary" "other_withdrawals"
    = Some (VFloat (Qopp 25)).
Proof.
  destruct (summary_figures_default_and_sign short_statement)
    as (record & ib & dep & cw & ow & sf & fb & Hrec & _ & _ & _ & How & Hsf
        & _ & _ & _ & _ & _ & Zsf & _ & _ & _ & Mow & _).
  exists record. split; [exact Hrec|]. split.
  - rewrite Hsf, Zsf; [reflexivity|]. apply not_occurs. vm_compute. reflexivity.
  - rewrite How. f_equal. f_equal. apply Mow.
    + eexists _, _. split; [vm_compute; reflexivity|].
      split; [vm_compute; reflexivity|].
      split; [vm_compute; reflexivity|]. unfold Qle; simpl; lia.
    + intros E. unfold Qeq in E. simpl in E. lia.
Defined.

(** ** The account number *)

(** C10.  A text that contains neither "Account number:" nor "Account #"
    has no match of the account pattern; and whenever that pattern has no
    match, [extract_account_number] returns None and the record holds None
    under [account_number], while in the same record the holder falls back
    to "Name not found" when the name pattern has no match and each of the
    six summary figures is a number, 0.00 when its patterns have no
    match. *)
Theorem account_number_none_when_unmatched (full_text : string) :
  (~ occurs "Account number:" full_text -> ~ occurs "Account #" full_text ->
   re_search default_account full_text = None) /\
  (re_search default_account full_text = None ->
   extract_account_number full_text = Ret VNone /\
   exists record holder,
     structure_extract_in_json full_text = Ret record /\
     field2 record "account_summary" "account_number" = Some VNone /\
     field1 record "account_holder" = Some holder /\
     (re_search default_name full_text = None ->
      holder = VStr "Name not found") /\
     Forall (fun kp =>
               (exists q, field2 record "account_summary" (fst kp)
                          = Some (VFloat q)) /\
               (Forall (fun pat => re_search pat full_text = None) (snd kp) ->
                field2 record "account_summary" (fst kp) = Some (VFloat 0)))
            figure_patterns).
Proof.
  split.
  { intros H1 H2. unfold default_account.
    apply absent_alt_no_match; assumption. }
  intros Hnone.
  destruct (extract_account_number_spec full_text) as [v [Hv [Hn _]]].
  rewrite (Hn Hnone) in Hv. split; [exact Hv|].
  destruct (structure_extract_in_json_spec full_text)
    as (holder & acct & ib & dep & cw & a & b & sf & fb & totals & txs
        & Hrec & Hh & Hacct & Hib & Hdep & Hcw & Ha & Hb & Hsf & Hfb).
  rewrite Hv in Hacct. injection Hacct as <-.
  destruct (find_value_props _ _ _ _ captured_initial_balance Hib) as [Zib _].
  destruct (find_value_props _ _ _ _ captured_deposits_additions Hdep) as [Zdep _].
  destruct (find_value_props _ _ _ _ captured_card_withdrawals Hcw) as [Zcw _].
  destruct (find_value_props _ _ _ _ captured_other_subtractions Ha) as [Za _].
  destruct (find_value_props _ _ _ _ captured_withdrawals_debits Hb) as [Zb _].
  destruct (find_value_props _ _ _ _ captured_service_fees Hsf) as [Zsf _].
  destruct (find_value_props _ _ _ _ captured_final_balance Hfb) as [Zfb _].
  eexists; exists holder. split; [exact Hrec|].
  split; [reflexivity|]. split; [reflexivity|]. split; [exact Hh|].
  unfold figure_patterns.
  repeat (constructor; [split; [eexists; reflexivity | simpl; intros Hp]|]).
  - apply Forall_cons_1 in Hp as [Hp _]. now rewrite (Zib Hp).
  - apply Forall_cons_1 in Hp as [Hp _]. now rewrite (Zdep Hp).
  - apply Forall_cons_1 in Hp as [Hp _]. now rewrite (Zcw Hp).
  - apply Forall_cons_1 in Hp as [Hp1 Hp2].
    apply Forall_cons_1 in Hp2 as [Hp2 _].
    now rewrite (Za Hp1), (Zb Hp2).
  - apply Forall_cons_1 in Hp as [Hp _]. now rewrite (Zsf Hp).
  - apply Forall_cons_1 in Hp as [Hp _]. now rewrite (Zfb Hp).
  - constructor.
Qed.

(** [short_statement] names no account: the number is None. *)
Lemma account_number_none_when_unmatched_witness :
  extract_account_number short_statement = Ret VNone.
Proof.
  destruct (account_number_none_when_unmatched short_statement) as [Habs Hnone].
  apply Hnone. apply Habs; apply not_occurs; vm_compute; reflexivity.
Defined.

(** ** [format_pdf_date] *)

Lemma strptime_raises (data : string) (e : exn) :
  strptime data = Raise e -> exn_cls e = ValueError.
Proof.
  unfold strptime. destruct (re_match strptime_regex data) as [[c g]|].
  - destruct (rest c); [|now intros [= <-]].
    repeat match goal with
           | |- context [if ?b then _ else _] => destruct b
           end; now intros [= <-].
  - now intros [= <-].
Qed.

Lemma format_pdf_date_total (pdf_date : string) :
  exists r, format_pdf_date pdf_date = Ret r.
Proof.
  unfold format_pdf_date.
  set (d := if startswith pdf_date "D:" then slice_from 2 pdf_date else pdf_date).
  destruct (strptime (slice_to 14 d)) as [date_obj | e] eqn:E; simpl.
  - eauto.
  - rewrite (strptime_raises _ _ E). simpl. eauto.
Qed.

(** C2, amended.  The timestamp of the example is normalised to
    "2025-07-31 14:43:53-05:00"; a string that does not begin with "D:" and
    whose first fourteen characters [strptime] rejects is returned
    unchanged; and no string makes [format_pdf_date] raise. *)
Theorem format_pdf_date_spec :
  format_pdf_date "D:20250731144353-05'00" = Ret "2025-07-31 14:43:53-05:00" /\
  (forall s : string,
     startswith s "D:" = false ->
     (forall d, strptime (slice_to 14 s) <> Ret d) ->
     format_pdf_date s = Ret s) /\
  (forall s : string, exists r, format_pdf_date s = Ret r).
Proof.
  split; [vm_compute; reflexivity|]. split; [|apply format_pdf_date_total].
  intros s Hs Hd. unfold format_pdf_date. rewrite Hs.
  destruct (strptime (slice_to 14 s)) as [d | e] eqn:E.
  - now destruct (Hd d).
  - simpl. now rewrite (strptime_raises _ _ E).
Qed.

(** A string that is no timestamp comes back as it is. *)
Lemma format_pdf_date_spec_witness :
  format_pdf_date "31 July 2025" = Ret "31 July 2025".
Proof.
  destruct format_pdf_date_spec as (_ & Hsame & _).
  apply Hsame; [reflexivity|]. intros d. vm_compute. discriminate.
Defined.

(** The minutes of the example are 43: the result is not the string with
    14:53:53.  And a malformed string that begins with "D:" does not come
    back unchanged. *)
Lemma format_pdf_date_example_differs :
  format_pdf_date "D:20250731144353-05'00" <> Ret "2025-07-31 14:53:53-05:00" /\
  format_pdf_date "D:abc" <> Ret "D:abc".
Proof. split; vm_compute; discriminate. Qed.

(** ** [extract_metadata] *)

(** Every character is one of the 256. *)
Lemma all_ascii (a : ascii) : In a (map ascii_of_nat (seq 0 256)).
Proof.
  apply in_map_iff. exists (nat_of_ascii a). split; [apply ascii_nat_embedding|].
  apply in_seq. pose proof (nat_ascii_bounded a). lia.
Qed.

(** For a letter, [str.lower] identifies exactly the two cases of it. *)
Lemma lower_char_same_letter (a b : ascii) :
  is_letter b = true ->
  lower_char a = lower_char b <-> same_letter a b = true.
Proof.
  intros Hb.
  assert (Hall : forallb (fun b =>
                   forallb (fun a =>
                     implb (is_letter b)
                       (Bool.eqb (Ascii.eqb (lower_char a) (lower_char b))
                                 (same_letter a b)))
                     (map ascii_of_nat (seq 0 256)))
                   (map ascii_of_nat (seq 0 256)) = true)
    by (vm_compute; reflexivity).
  rewrite forallb_forall in Hall. specialize (Hall b (all_ascii b)).
  rewrite forallb_forall in Hall. specialize (Hall a (all_ascii a)).
  rewrite Hb in Hall. apply Bool.eqb_prop in Hall. rewrite <- Hall.
  symmetry. apply Ascii.eqb_eq.
Qed.

Lemma lower_same_word (w s : string) :
  Forall (fun b => is_letter b = true) (chars s) ->
  lower w = lower s <-> same_word w s.
Proof.
  intros Hs. unfold lower, same_word. split.
  - intros E.
    assert (E' : map lower_char (chars w) = map lower_char (chars s))
      by (rewrite <- (chars_unchars (map _ (chars w))), E;
          apply chars_unchars).
    clear E. revert E' Hs. generalize (chars s) as l. generalize (chars w) as k.
    induction k as [|a k IH]; intros [|b l] E Hl; try discriminate E;
      constructor.
    + injection E as Eab _. inversion Hl; subst.
      now apply lower_char_same_letter.
    + injection E as _ E. inversion Hl; subst. now apply IH.
  - intros Hw. f_equal. revert Hs.
    induction Hw as [|a b k l Hab _ IH]; intros Hl; [reflexivity|].
    inversion Hl; subst. simpl. f_equal; [|now apply IH].
    now apply lower_char_same_letter.
Qed.

(** A lower-cased needle occurs in a lower-cased text exactly when the text
    holds a word with the same lower-casing. *)
Lemma occurs_lower (needle hay : string) :
  occurs (lower needle) (lower hay) <->
  exists w, occurs w hay /\ lower w = lower needle.
Proof.
  rewrite occurs_chars. unfold lower at 1 2. rewrite !chars_unchars. split.
  - intros (pre & post & E).
    apply map_eq_app in E as (l1 & l23 & Eh & _ & E).
    apply map_eq_app in E as (l2 & l3 & -> & E2 & _).
    exists (unchars l2). split.
    + apply occurs_chars. exists l1, l3. now rewrite chars_unchars.
    + unfold lower. now rewrite chars_unchars, E2.
  - intros (w & Ho & Ew). apply occurs_chars in Ho as (pre & post & ->).
    exists (map lower_char pre), (map lower_char post).
    rewrite !map_app. do 2 f_equal.
    unfold lower in Ew.
    rewrite <- (chars_unchars (map _ (chars w))), Ew. apply chars_unchars.
Qed.

Lemma edit_softwares_letters (software : string) :
  In software edit_softwares ->
  Forall (fun b => is_letter b = true) (chars software).
Proof.
  intros Hin. cbn in Hin.
  repeat (destruct Hin as [<- | Hin]; [repeat constructor|]).
  destruct Hin.
Qed.

(** C4.  For every metadata mapping the populated record is returned, a
    missing key being read as "Unknown"; [edited_by_dates] is the conjunction
    of [modDate <> creationDate] and [modDate <> "Unknown"], hence false when
    the two dates are equal; and [edited_by_software] holds exactly when the
    concatenation of producer and creator holds the name of one of the five
    tools up to the case of its letters. *)
Theorem extract_metadata_flags (metadata : gmap string string) :
  let creation_date := default "Unknown" (metadata !! "creationDate") in
  let mod_date := default "Unknown" (metadata !! "modDate") in
  let producer := default "Unknown" (metadata !! "producer") in
  let creator := default "Unknown" (metadata !! "creator") in
  exists record by_dates by_software,
    extract_metadata metadata = Ret record /\
    field2 record "analysis_editions" "edited_by_dates"
      = Some (VBool by_dates) /\
    field2 record "analysis_editions" "edited_by_software"
      = Some (VBool by_software) /\
    field2 record "metadata" "creation_date" = Some (VStr creation_date) /\
    field2 record "metadata" "modification_date" = Some (VStr mod_date) /\
    (by_dates = true <-> mod_date <> creation_date /\ mod_date <> "Unknown") /\
    (mod_date = creation_date -> by_dates = false) /\
    (by_software = true <->
     exists software,
       In software ["Acrobat"; "Photoshop"; "Word"; "GIMP"; "Illustrator"] /\
       occurs_ignoring_case software (producer +:+ creator)).
Proof.
  intros creation_date mod_date producer creator.
  eexists _, _, _. split; [reflexivity|].
  do 4 (split; [reflexivity|]).
  unfold meta_get. fold creation_date mod_date producer creator.
  split; [|split].
  - rewrite andb_true_iff, !negb_true_iff.
    split; intros [H1 H2]; split;
      first [ now apply String.eqb_neq | now apply String.eqb_neq in H1
            | now apply String.eqb_neq in H2 ].
  - intros ->. now rewrite String.eqb_refl.
  - rewrite existsb_exists. split.
    + intros [sw [Hin Hc]]. exists sw. split; [exact Hin|].
      apply contains_occurs, occurs_lower in Hc as (w & Ho & Ew).
      exists w. split; [exact Ho|].
      now apply lower_same_word; [apply edit_softwares_letters|].
    + intros [sw [Hin (w & Ho & Hw)]]. exists sw. split; [exact Hin|].
      apply contains_occurs, occurs_lower. exists w. split; [exact Ho|].
      now apply lower_same_word; [apply edit_softwares_letters|].
Qed.

(** A file saved by Acrobat, named in capitals by the producer alone, with a
    modification date and no creation date: both flags are true. *)
Lemma extract_metadata_flags_witness :
  exists record,
    extract_metadata acrobat_metadata = Ret record /\
    field2 record "analysis_editions" "edited_by_dates" = Some (VBool true) /\
    field2 record "analysis_editions" "edited_by_software"
    = Some (VBool true).
Proof.
  destruct (extract_metadata_flags acrobat_metadata)
    as (record & bd & bs & Hrec & Hbd & Hbs & _ & _ & Hdates & _ & Hsoft).
  exists record. split; [exact Hrec|].
  rewrite Hbd, Hbs. split; do 2 f_equal.
  - apply Hdates. split; vm_compute; discriminate.
  - apply Hsoft. exists "Acrobat". split; [now left|].
    exists "ACROBAT". split.
    + exists "Adobe ", " Pro 11Unknown". vm_compute. reflexivity.
    + repeat constructor.
Defined.

(** ** [parse_pdf_low_level] *)

Lemma scan_chars_regions (page_num : nat) (cs : list pchar) (st : scan_state) :
  snd (fold_left (scan_char page_num) cs st)
  = snd st ++ map (region_of page_num) (List.filter suspicious cs).
Proof.
  revert st. induction cs as [|c cs IH]; intros st; simpl.
  - now rewrite app_nil_r.
  - rewrite IH. unfold scan_char, suspicious.
    destruct (negb (whitelisted (char_font c))); simpl.
    + now rewrite <- app_assoc.
    + reflexivity.
Qed.

Lemma scan_pages_regions (pages : list plumber_page) :
  forall page_num st,
    snd (scan_pages page_num pages st) = snd st ++ regions_from page_num pages.
Proof.
  induction pages as [|page pages IH]; intros page_num st; simpl.
  - now rewrite app_nil_r.
  - rewrite IH. destruct (page_chars page) as [|c cs] eqn:E.
    + reflexivity.
    + cbn [nonempty]. rewrite scan_chars_regions. now rewrite <- app_assoc.
Qed.

Lemma regions_from_app (pages1 pages2 : list plumber_page) :
  forall page_num,
    regions_from page_num (pages1 ++ pages2)
    = regions_from page_num pages1
      ++ regions_from (page_num + length pages1) pages2.
Proof.
  induction pages1 as [|page pages1 IH]; intros page_num; simpl.
  - now rewrite Nat.add_0_r.
  - rewrite IH, <- app_assoc.
    now replace (S page_num + length pages1) with (page_num + S (length pages1))
      by lia.
Qed.

Lemma filter_none (cs : list pchar) :
  Forall (fun c => whitelisted (char_font c) = true) cs ->
  List.filter suspicious cs = [].
Proof.
  intros Hcs. induction Hcs as [|c cs Hc Hcs IH]; simpl; [reflexivity|].
  unfold suspicious at 1. now rewrite Hc.
Qed.

Lemma regions_from_clean (pages : list plumber_page) :
  Forall (fun page =>
            Forall (fun c => whitelisted (char_font c) = true) (page_chars page))
         pages ->
  forall page_num, regions_from page_num pages = [].
Proof.
  intros Hp. induction Hp as [|page pages Hpage Hp IH]; intros n; simpl.
  - reflexivity.
  - now rewrite (filter_none _ Hpage), IH.
Qed.

Lemma scan_pages_blank (pages : list plumber_page) :
  Forall (fun page => page_chars page = []) pages ->
  forall page_num st, scan_pages page_num pages st = st.
Proof.
  intros Hp. induction Hp as [|page pages Hpage Hp IH]; intros n st; simpl.
  - reflexivity.
  - rewrite Hpage. simpl. apply IH.
Qed.

(** The populated record of a document that opens. *)
Lemma parse_pdf_low_level_regions (pdf : plumber_pdf) :
  exists record fonts,
    parse_pdf_low_level (Ret pdf) = Ret record /\
    fonts = fst (scan_pages 1 (pdf_pages pdf) (∅, [])) /\
    field1 record "suspicious_regions"
      = Some (VList (regions_from 1 (pdf_pages pdf))) /\
    field1 record "fonts_used" = Some (VList (VStr <$> elements fonts)) /\
    field1 record "font_count" = Some (VInt (Z.of_nat (size fonts))).
Proof.
  unfold parse_pdf_low_level. cbn [try_except mbind outcome_bind].
  pose proof (scan_pages_regions (pdf_pages pdf) 1 (∅, [])) as Hr.
  destruct (scan_pages 1 (pdf_pages pdf) (∅, [])) as [fonts regions].
  simpl in Hr. subst regions.
  eexists _, fonts. split; [reflexivity|]. split; [reflexivity|].
  split; [reflexivity|]. split; reflexivity.
Qed.

(** C6.  A document in which every character uses an expected font yields
    no suspicious region.  A document with exactly one character in another
    font yields exactly one region, on that character's page, and its [bbox]
    is the character's [(x0, top, x1, bottom)].  A page without characters
    leaves the font set and the regions as they were, and a document of such
    pages yields the populated record with no font and no region. *)
Theorem font_scan_regions :
  (forall pdf : plumber_pdf,
     Forall (fun page =>
               Forall (fun c => whitelisted (char_font c) = true)
                      (page_chars page))
            (pdf_pages pdf) ->
     exists record,
       parse_pdf_low_level (Ret pdf) = Ret record /\
       field1 record "suspicious_regions" = Some (VList [])) /\
  (forall (before after : list plumber_page) (page : plumber_page)
          (cs1 cs2 : list pchar) (c : pchar) (meta : gmap string string)
          (x0 top x1 bottom : Q),
     Forall (fun page =>
               Forall (fun c => whitelisted (char_font c) = true)
                      (page_chars page))
            (before ++ after) ->
     page_chars page = cs1 ++ c :: cs2 ->
     Forall (fun c => whitelisted (char_font c) = true) (cs1 ++ cs2) ->
     whitelisted (char_font c) = false ->
     c_x0 c = Some x0 -> c_top c = Some top ->
     c_x1 c = Some x1 -> c_bottom c = Some bottom ->
     exists record region,
       parse_pdf_low_level (Ret (PlumberPdf (before ++ page :: after) meta))
         = Ret record /\
       field1 record "suspicious_regions" = Some (VList [region]) /\
       field1 region "page" = Some (VInt (Z.of_nat (S (length before)))) /\
       field1 region "bbox"
         = Some (VTuple [VFloat x0; VFloat top; VFloat x1; VFloat bottom])) /\
  (forall (page : plumber_page) (pages : list plumber_page)
          (page_num : nat) (st : scan_state),
     page_chars page = [] ->
     scan_pages page_num (page :: pages) st = scan_pages (S page_num) pages st) /\
  (forall pdf : plumber_pdf,
     Forall (fun page => page_chars page = []) (pdf_pages pdf) ->
     exists record,
       parse_pdf_low_level (Ret pdf) = Ret record /\
       field1 record "fonts_used" = Some (VList []) /\
       field1 record "font_count" = Some (VInt 0) /\
       field1 record "suspicious_regions" = Some (VList [])).
Proof.
  split; [|split; [|split]].
  - intros pdf Hclean.
    destruct (parse_pdf_low_level_regions pdf) as (record & fonts & Hrec & _ & Hr & _).
    exists record. split; [exact Hrec|].
    now rewrite Hr, (regions_from_clean _ Hclean).
  - intros before after page cs1 cs2 c meta x0 top x1 bottom
           Hothers Hpage Hcs Hc Hx0 Htop Hx1 Hbottom.
    destruct (parse_pdf_low_level_regions (PlumberPdf (before ++ page :: after) meta))
      as (record & fonts & Hrec & _ & Hr & _).
    exists record, (region_of (S (length before)) c).
    split; [exact Hrec|]. simpl in Hr.
    apply Forall_app in Hothers as [Hb Ha]. apply Forall_app in Hcs as [H1 H2].
    rewrite Hr, regions_from_app, (regions_from_clean _ Hb). simpl.
    rewrite (regions_from_clean _ Ha), Hpage, List.filter_app. simpl.
    unfold suspicious at 2. rewrite Hc. simpl.
    rewrite (filter_none _ H1), (filter_none _ H2). simpl.
    split; [reflexivity|]. split; [reflexivity|].
    unfold region_of. simpl. now rewrite Hx0, Htop, Hx1, Hbottom.
  - intros page pages page_num st Hpage. simpl. now rewrite Hpage.
  - intros pdf Hblank.
    destruct (parse_pdf_low_level_regions pdf)
      as (record & fonts & Hrec & Hfonts & Hr & Hused & Hcount).
    exists record. split; [exact Hrec|].
    rewrite (scan_pages_blank _ Hblank) in Hfonts. simpl in Hfonts. subst fonts.
    rewrite Hused, Hcount, Hr.
    rewrite (regions_from_clean (pdf_pages pdf)); [easy|].
    eapply Forall_impl; [exact Hblank|]. intros pg ->. constructor.
Qed.

(** The forged document has one region, with the box of the forged glyph. *)
Lemma font_scan_regions_witness :
  exists record region,
    parse_pdf_low_level (Ret forged_pdf) = Ret record /\
    field1 record "suspicious_regions" = Some (VList [region]) /\
    field1 region "page" = Some (VInt 2) /\
    field1 region "bbox"
      = Some (VTuple [VFloat 72; VFloat 90; VFloat 78; VFloat 100]).
Proof.
  destruct font_scan_regions as (_ & Hone & _).
  apply (Hone [clean_page] [] _ (page_chars clean_page) (page_chars clean_page)
              forged_glyph ∅ 72%Q 90%Q 78%Q 100%Q);
    try reflexivity; vm_compute; repeat constructor.
Defined.

(** ** [highlight_suspicious_fonts] *)

Lemma region_of_box (page_num : nat) (c : pchar) :
  region_box (region_of page_num c) (Z.of_nat page_num) (char_rect c).
Proof.
  split; [reflexivity|]. unfold region_of, char_rect. simpl.
  destruct (c_x0 c), (c_top c), (c_x1 c), (c_bottom c); reflexivity.
Qed.

Lemma is_valid_spec (r : rect) :
  is_valid r = true <-> (rx0 r <= rx1 r)%Q /\ (ry0 r <= ry1 r)%Q.
Proof. unfold is_valid. now rewrite andb_true_iff, !Qle_bool_iff. Qed.

Section OverlayFacts.
Context {page : Type}.
Variable add_highlight_annot : page -> rect -> outcome page.

Lemma highlight_region_skip (doc : list page) region p r :
  region_box region p r -> is_valid r = false ->
  highlight_region add_highlight_annot doc region = Ret doc.
Proof.
  intros [Hp Hb] Hv. unfold highlight_region. rewrite Hp. simpl.
  destruct (value_item region "bbox") as [b|e]; [|discriminate Hb].
  simpl in *. rewrite Hb. simpl. now rewrite Hv.
Qed.

Lemma highlight_region_draw (doc : list page) region p r pg :
  region_box region p r -> is_valid r = true ->
  (1 <= p <= Z.of_nat (length doc))%Z ->
  doc !! Z.to_nat (p - 1) = Some pg ->
  highlight_region add_highlight_annot doc region
  = (pg' ← add_highlight_annot pg r;
     mret (<[Z.to_nat (p - 1) := pg']> doc)).
Proof.
  intros [Hp Hb] Hv Hrange Hpg. unfold highlight_region. rewrite Hp. simpl.
  destruct (value_item region "bbox") as [b|e]; [|discriminate Hb].
  simpl in *. rewrite Hb. simpl. rewrite Hv. unfold doc_index.
  replace ((p - 1 <? Z.of_nat (length doc))%Z) with true
    by (symmetry; apply Z.ltb_lt; lia).
  replace ((0 <? Z.of_nat (length doc))%Z) with true
    by (symmetry; apply Z.ltb_lt; lia).
  simpl. rewrite Z.mod_small by lia. now rewrite Hpg.
Qed.

(** The pass tests the box of each region with PyMuPDF's
    [Rect.is_valid], that is [x0 <= x1] and [y0 <= y1].  A region whose box
    fails the test is stepped over and the pass goes on with the document
    as it was; a region whose box passes has the highlight requested on
    page [page - 1] of the opened copy, and the pass goes on with the page
    replaced; a list of regions whose boxes all fail leaves the copy
    without a highlight.  The regions the font scan emits are of the
    expected form. *)
Theorem overlay_pass (doc : list page) (regions : list value) :
  (forall region p r,
     region_box region p r ->
     (is_valid r = true <-> (rx0 r <= rx1 r)%Q /\ (ry0 r <= ry1 r)%Q) /\
     (is_valid r = false ->
      highlight_suspicious_fonts add_highlight_annot (Ret doc)
        (VList (region :: regions))
      = highlight_suspicious_fonts add_highlight_annot (Ret doc)
          (VList regions)) /\
     (is_valid r = true ->
      forall pg,
        (1 <= p <= Z.of_nat (length doc))%Z ->
        doc !! Z.to_nat (p - 1) = Some pg ->
        highlight_suspicious_fonts add_highlight_annot (Ret doc)
          (VList (region :: regions))
        = (pg' ← add_highlight_annot pg r;
           highlight_suspicious_fonts add_highlight_annot
             (Ret (<[Z.to_nat (p - 1) := pg']> doc)) (VList regions)))) /\
  (Forall (fun region =>
             exists p r, region_box region p r /\ is_valid r = false)
          regions ->
   highlight_suspicious_fonts add_highlight_annot (Ret doc) (VList regions)
   = Ret doc) /\
  (forall page_num c,
     region_box (region_of page_num c) (Z.of_nat page_num) (char_rect c)).
Proof.
  split; [|split].
  - intros region p r Hbox. split; [apply is_valid_spec|]. split.
    + intros Hv. unfold highlight_suspicious_fonts. simpl.
      now rewrite (highlight_region_skip doc region p r Hbox Hv).
    + intros Hv pg Hrange Hpg. unfold highlight_suspicious_fonts. simpl.
      rewrite (highlight_region_draw doc region p r pg Hbox Hv Hrange Hpg).
      now destruct (add_highlight_annot pg r).
  - intros Hall. unfold highlight_suspicious_fonts. simpl.
    induction Hall as [|region regions [p [r [Hbox Hv]]] Hall IH]; simpl.
    + reflexivity.
    + now rewrite (highlight_region_skip doc region p r Hbox Hv).
  - apply region_of_box.
Qed.
End OverlayFacts.

(** A box turned inside out is stepped over. *)
Lemma overlay_pass_witness :
  highlight_suspicious_fonts append_highlight (Ret [FitzPage [] []])
    (VList [VDict [("page", VInt 1);
                   ("bbox", VTuple [VFloat 9; VFloat 9; VFloat 4; VFloat 4])]])
  = Ret [FitzPage [] []].
Proof.
  destruct (overlay_pass append_highlight [FitzPage [] []]
              [VDict [("page", VInt 1);
                      ("bbox", VTuple [VFloat 9; VFloat 9; VFloat 4; VFloat 4])]])
    as (_ & Hskip & _).
  apply Hskip. repeat constructor.
  exists 1%Z, (Rect 9 9 4 4). repeat split.
Defined.

Lemma overlay_skips (doc : list fitz_page) (skipped regions : list value) :
  Forall (fun region =>
            exists p r, region_box region p r /\ is_valid r = false) skipped ->
  foldM (highlight_region append_highlight) doc (skipped ++ regions)
  = foldM (highlight_region append_highlight) doc regions.
Proof.
  induction 1 as [|region skipped (p & r & Hbox & Hv) _ IH]; [reflexivity|].
  cbn [app foldM].
  now rewrite (highlight_region_skip append_highlight doc region p r Hbox Hv).
Qed.

(** C8 (the code departs from it).  The only test of the pass is PyMuPDF's
    [Rect.is_valid], which a box without area passes.  Such a box is not
    stepped over: the highlight is requested for it, PyMuPDF refuses it with
    [ValueError], and the pass ends there, whatever boxes were stepped over
    before it and whatever regions come after it; no copy is written. *)
Theorem overlay_aborts_on_empty_box (doc : list fitz_page)
    (skipped rest : list value) (region : value) (p : Z) (r : rect) :
  Forall (fun region =>
            exists p r, region_box region p r /\ is_valid r = false) skipped ->
  region_box region p r ->
  is_empty r = true -> is_valid r = true ->
  (1 <= p <= Z.of_nat (length doc))%Z ->
  highlight_suspicious_fonts append_highlight (Ret doc)
    (VList (skipped ++ region :: rest))
  = Raise (Exn ValueError "bad quads entry").
Proof.
  intros Hskipped Hbox He Hv Hp. unfold highlight_suspicious_fonts.
  cbn [mbind outcome_bind iterate mret outcome_ret].
  rewrite (overlay_skips doc skipped (region :: rest) Hskipped). cbn [foldM].
  assert (Hlt : Z.to_nat (p - 1) < length doc) by lia.
  destruct (lookup_lt_is_Some_2 doc _ Hlt) as [pg Hpg].
  rewrite (highlight_region_draw append_highlight doc region p r pg
             Hbox Hv Hp Hpg).
  unfold append_highlight. now rewrite He.
Qed.

(** The character without width or height: its box passes the test and has
    no area, the pass ends on it before the region with area is reached,
    and the request of a document that has it ends with HTTP 500. *)
Lemma overlay_aborts_on_empty_box_witness :
  is_valid (char_rect flat_glyph) = true /\
  is_empty (char_rect flat_glyph) = true /\
  highlight_suspicious_fonts append_highlight (Ret [FitzPage [] []])
    (VList [region_of 1 flat_glyph; region_of 1 forged_glyph])
  = Raise (Exn ValueError "bad quads entry") /\
  analyze_pdf (H := plain_imaging) append_highlight [flat_upload]
  = Raise (Exn (HTTPException 500) "Error processing PDF: bad quads entry").
Proof.
  split; [reflexivity|]. split; [reflexivity|].
  split; [|vm_compute; reflexivity].
  apply (overlay_aborts_on_empty_box [FitzPage [] []] []
           [region_of 1 forged_glyph] (region_of 1 flat_glyph) 1
           (char_rect flat_glyph)).
  - constructor.
  - apply (region_of_box 1 flat_glyph).
  - reflexivity.
  - reflexivity.
  - simpl. lia.
Defined.

(** ** The detectors capture their failures *)

Lemma analyze_image_error `{Imaging} (image_data : list byte) (quality scale : Z) :
  analyze_image image_data quality scale = Ret ela_error.
Proof. reflexivity. Qed.

Lemma extract_metadata_total (metadata : gmap string string) :
  exists v, extract_metadata metadata = Ret v.
Proof. eexists. reflexivity. Qed.

(** On a mapping of strings the two readings of [extract_metadata] agree. *)
Lemma extract_metadata_any_strings (m : gmap string string) :
  extract_metadata_any (Some (Some <$> m)) = extract_metadata m.
Proof.
  unfold extract_metadata_any, extract_metadata, opt_get, meta_get.
  cbn [try_except mbind outcome_bind mret outcome_ret].
  rewrite !lookup_fmap.
  destruct (m !! "creationDate"), (m !! "modDate"), (m !! "producer"),
    (m !! "creator"), (m !! "author"); reflexivity.
Qed.

(** Whatever it is given, [extract_metadata] returns: the error dict for
    [None] and for a producer or creator that is [None]. *)
Lemma extract_metadata_any_total
    (metadata : option (gmap string (option string))) :
  exists v,
    extract_metadata_any metadata = Ret v /\
    (metadata = None ->
     v = error_dict "Error running ExifTool: "
           (Exn AttributeError "'NoneType' object has no attribute 'get'")) /\
    (forall m, metadata = Some m ->
       opt_get m "producer" = None \/ opt_get m "creator" = None ->
       exists e, exn_cls e = TypeError /\
                 v = error_dict "Error running ExifTool: " e) /\
    (forall m : gmap string string,
       metadata = Some (Some <$> m) -> extract_metadata m = Ret v).
Proof.
  destruct metadata as [m|].
  - unfold extract_metadata_any.
    cbn [try_except mbind outcome_bind mret outcome_ret].
    destruct (opt_get m "producer") as [producer|] eqn:Ep,
             (opt_get m "creator") as [creator|] eqn:Ec;
      cbn [str_add try_except mbind outcome_bind mret outcome_ret];
      (eexists; split; [reflexivity|]; split; [discriminate|]; split;
       [intros m' [= <-] Hnone |
        intros m' [= ->]; rewrite <- extract_metadata_any_strings;
        unfold extract_metadata_any;
        cbn [try_except mbind outcome_bind mret outcome_ret];
        rewrite ?Ep, ?Ec; reflexivity]).
    + rewrite Ep, Ec in Hnone. destruct Hnone; discriminate.
    + eexists. split; [|reflexivity]. reflexivity.
    + eexists. split; [|reflexivity]. reflexivity.
    + eexists. split; [|reflexivity]. reflexivity.
  - eexists. split; [reflexivity|]. split; [reflexivity|].
    split; discriminate.
Qed.

(** A producer that is [None] beside a creator that names a tool: the
    handler answers, and no flag is computed. *)
Lemma extract_metadata_any_none_producer :
  extract_metadata_any
    (Some {[ "producer" := None; "creator" := Some "Microsoft Word" ]})
  = Ret (VDict
      [("error",
        VStr ("Error running ExifTool: "
              +:+ "unsupported operand type(s) for +: 'NoneType' and 'str'"))]).
Proof. vm_compute. reflexivity. Qed.

Lemma parse_pdf_low_level_total (opened : outcome plumber_pdf) :
  exists d,
    parse_pdf_low_level opened = Ret (VDict d) /\
    dict_get "fontes_used" d = None /\
    (forall e, opened = Raise e ->
               VDict d = error_dict "Error running pdfplumber: " e).
Proof.
  destruct opened as [pdf|e].
  - unfold parse_pdf_low_level. cbn [try_except mbind outcome_bind].
    destruct (scan_pages 1 (pdf_pages pdf) (∅, [])) as [fonts regions].
    eexists. split; [reflexivity|]. split; [reflexivity | discriminate].
  - eexists. split; [reflexivity|]. split; [reflexivity|].
    now intros e' [= <-].
Qed.

Lemma extract_bank_statement_total (opened : outcome plumber_pdf) :
  exists v,
    extract_bank_statement opened = Ret v /\
    (forall e, opened = Raise e ->
               v = error_dict "Error processing PDF: " e).
Proof.
  destruct opened as [pdf|e].
  - unfold extract_bank_statement. cbn [try_except mbind outcome_bind].
    destruct (structure_extract_in_json_spec
                (fold_left (fun acc page => acc +:+ default "" (page_text page))
                           (pdf_pages pdf) ""))
      as (holder & acct & ib & dep & cw & a & b & sf & fb & totals & txs
          & -> & _).
    eexists. split; [reflexivity | discriminate].
  - eexists. split; [reflexivity|]. now intros e' [= <-].
Qed.

(** ** The records of [analyze_pdf] *)

Lemma foldM_app {A B} (f : B -> A -> outcome B) (l1 l2 : list A) (b : B) :
  foldM f b (l1 ++ l2) = (b' ← foldM f b l1; foldM f b' l2).
Proof.
  revert b. induction l1 as [|a l1 IH]; intros b; simpl; [reflexivity|].
  destruct (f b a) as [b'|e]; simpl; [apply IH | reflexivity].
Qed.

Ltac bind_inv H :=
  match type of H with
  | mbind _ ?m = Ret _ =>
      let E := fresh "E" in
      destruct m eqn:E; cbn [mbind outcome_bind] in H; [|discriminate H]
  end.

Section EndpointFacts.
Context `{Imaging}.
Variable add_highlight_annot : fitz_page -> rect -> outcome fitz_page.

Lemma analyze_page_images_entries (images : list (outcome (list byte))) :
  forall page_num img_index acc ia,
    Forall error_entry acc ->
    analyze_page_images page_num img_index images acc = Ret ia ->
    Forall error_entry ia.
Proof.
  induction images as [|extract images IH]; intros n i acc ia Hacc Hia;
    simpl in Hia.
  - now injection Hia as <-.
  - bind_inv Hia. eapply IH; [|exact Hia].
    apply Forall_app. split; [exact Hacc|].
    constructor; [|constructor]. now eexists _, _.
Qed.

Lemma analyze_doc_images_entries (pages : list fitz_page) :
  forall page_num acc ia,
    Forall error_entry acc ->
    analyze_doc_images page_num pages acc = Ret ia ->
    Forall error_entry ia.
Proof.
  induction pages as [|page pages IH]; intros n acc ia Hacc Hia; simpl in Hia.
  - now injection Hia as <-.
  - bind_inv Hia. eapply IH; [|exact Hia].
    eapply analyze_page_images_entries; eassumption.
Qed.

Lemma py_any_error_entries (ia : list value) :
  Forall error_entry ia -> py_any image_flag ia = Ret false.
Proof.
  intros Hia. induction Hia as [|v ia [p [i ->]] Hia IH]; simpl.
  - reflexivity.
  - exact IH.
Qed.

(** With no image flagged and no key ["fontes_used"] in the scan result,
    the verdict is always the same. *)
Lemma possible_edits_of_spec (metadata_extracted : value)
    (d : list (string * value)) (ia : list value) (pe : value) :
  Forall error_entry ia ->
  dict_get "fontes_used" d = None ->
  possible_edits_of metadata_extracted (VDict d) ia = Ret pe ->
  field1 pe "summary" = Some (VStr summary_edit) /\
  field1 pe "image_analysis_summary" = Some (VBool false).
Proof.
  intros Hia Hd Hpe. unfold possible_edits_of in Hpe.
  rewrite (py_any_error_entries ia Hia) in Hpe.
  bind_inv Hpe. bind_inv Hpe. bind_inv Hpe.
  cbn [mbind outcome_bind value_get mret outcome_ret] in Hpe.
  rewrite Hd in Hpe. cbn [from_option id] in Hpe.
  repeat match type of Hpe with
         | context [if truthy ?x then _ else _] => destruct (truthy x)
         end;
    cbn [mbind outcome_bind mret outcome_ret] in Hpe;
    injection Hpe as <-; split; reflexivity.
Qed.

(** The steps behind a record. *)
Lemma analyze_file_inv (file : upload) (record : value) :
  analyze_file add_highlight_annot file = Ret record ->
  exists pdf metadata_extracted creation_date mod_date image_analysis
         low_level_analysis suspicious_regions doc' result possible_edits,
    fitz_open file = Ret pdf /\
    extract_metadata (fitz_metadata pdf) = Ret metadata_extracted /\
    format_pdf_date_of (fitz_metadata pdf !! "creationDate") = Ret creation_date /\
    format_pdf_date_of (fitz_metadata pdf !! "modDate") = Ret mod_date /\
    analyze_doc_images 0 (fitz_pages pdf) [] = Ret image_analysis /\
    parse_pdf_low_level (pdfplumber_open file) = Ret low_level_analysis /\
    value_get low_level_analysis "suspicious_regions" VNone
      = Ret suspicious_regions /\
    highlight_suspicious_fonts add_highlight_annot (Ret (fitz_pages pdf))
      suspicious_regions = Ret doc' /\
    extract_bank_statement (pdfplumber_open file) = Ret result /\
    possible_edits_of metadata_extracted low_level_analysis image_analysis
      = Ret possible_edits /\
    record = VDict
      [ ("metadata", VDict
           [ ("file_name", VStr (filename file));
             ("analysed_file_name", VStr ("analyzed_" +:+ filename file));
             ("creation_date", VStr creation_date);
             ("modification_date", VStr mod_date);
             ("producer", opt_str (fitz_metadata pdf !! "producer"));
             ("creator", opt_str (fitz_metadata pdf !! "creator"));
             ("author", opt_str (fitz_metadata pdf !! "author")) ]);
        ("low_level_analysis", low_level_analysis);
        ("analysis_editions", possible_edits);
        ("bank_result", result);
        ("image_analysis", VList image_analysis) ].
Proof.
  intros Hr. unfold analyze_file, try_except in Hr.
  match type of Hr with
  | match ?body with _ => _ end = _ => destruct body as [v|e] eqn:Hb
  end; [|discriminate Hr].
  injection Hr as ->.
  destruct (fitz_open file) as [pdf|] eqn:Hopen; [|discriminate Hb].
  cbn [mbind outcome_bind mret outcome_ret] in Hb.
  repeat bind_inv Hb. injection Hb as <-.
  eexists pdf, _, _, _, _, _, _, _, _, _.
  repeat (split; [first [eassumption | reflexivity]|]). reflexivity.
Qed.

Lemma analyze_file_record (file : upload) (record : value) :
  analyze_file add_highlight_annot file = Ret record ->
  field2 record "analysis_editions" "summary" = Some (VStr summary_edit) /\
  field2 record "analysis_editions" "image_analysis_summary"
    = Some (VBool false).
Proof.
  intros Hr. unfold analyze_file, try_except in Hr.
  match type of Hr with
  | match ?body with _ => _ end = _ => destruct body as [v|e] eqn:Hb
  end; [|discriminate Hr].
  injection Hr as ->.
  destruct (parse_pdf_low_level_total (pdfplumber_open file))
    as (d & Hlow & Hd & _).
  rewrite Hlow in Hb. repeat bind_inv Hb. injection Hb as <-.
  match goal with
  | Hia : analyze_doc_images _ _ _ = Ret _,
    Hpe : possible_edits_of _ _ _ = Ret _ |- _ =>
      pose proof (analyze_doc_images_entries _ _ _ _
                    (List.Forall_nil error_entry) Hia) as Hent;
      destruct (possible_edits_of_spec _ _ _ _ Hent Hd Hpe) as [Hs Hi]
  end.
  unfold field2. cbn [dict_get String.eqb Ascii.eqb Bool.eqb].
  match type of Hs with
  | field1 ?pe _ = _ => destruct pe; try discriminate Hs
  end.
  split; assumption.
Qed.

Lemma analyze_steps_records (files : list upload) :
  forall acc records,
    foldM (analyze_step add_highlight_annot) acc files = Ret records ->
    exists new,
      records = acc ++ new /\
      Forall2 (fun file record =>
                 endswith (filename file) ".pdf" = true /\
                 analyze_file add_highlight_annot file = Ret record)
              files new.
Proof.
  induction files as [|file files IH]; intros acc records Hr; simpl in Hr.
  - injection Hr as <-. exists []. split; [now rewrite app_nil_r | constructor].
  - bind_inv Hr. unfold analyze_step in E.
    destruct (endswith (filename file) ".pdf") eqn:Hname; simpl in E;
      [|discriminate E].
    bind_inv E. injection E as <-.
    destruct (IH _ _ Hr) as [new [-> Hnew]].
    exists (a0 :: new). split; [now rewrite <- app_assoc|].
    constructor; [split; assumption | exact Hnew].
Qed.

Lemma analyze_pdf_records (files : list upload) (records : list value) :
  analyze_pdf add_highlight_annot files = Ret records ->
  Forall2 (fun file record =>
             endswith (filename file) ".pdf" = true /\
             analyze_file add_highlight_annot file = Ret record)
          files records.
Proof.
  intros Hr. apply analyze_steps_records in Hr as [new [-> Hnew]]. exact Hnew.
Qed.

(** Whatever the document, the summary of a returned record is the
    message of a possible edit. *)
Lemma summary_never_clean (files : list upload) (records : list value) :
  analyze_pdf add_highlight_annot files = Ret records ->
  Forall (fun record =>
            field2 record "analysis_editions" "summary"
            = Some (VStr summary_edit))
         records.
Proof.
  intros Hr. apply analyze_pdf_records in Hr.
  induction Hr as [|file record files records [_ Hf] Hr IH]; constructor.
  - now apply analyze_file_record in Hf.
  - exact IH.
Qed.
End EndpointFacts.

Section BatchFacts.
Context `{Imaging}.
Variable add_highlight_annot : fitz_page -> rect -> outcome fitz_page.

Lemma analyze_file_raises (file : upload) (e : exn) :
  analyze_file add_highlight_annot file = Raise e ->
  exn_cls e = HTTPException 500.
Proof.
  unfold analyze_file, try_except.
  match goal with
  | |- match ?body with _ => _ end = _ -> _ => destruct body
  end; [discriminate | now intros [= <-]].
Qed.

(** C9.  [analyze_image] looks up [np] first; the module binds neither
    [np] nor [cv2] nor [tempfile], so the lookup raises [NameError], the
    handler catches it, and the value returned for every byte string and
    every codec is the dict whose only key is ["error"].  Hence no entry of
    [image_analysis] carries [possible_manipulation], and the
    [image_analysis_summary] of every record [analyze_pdf] returns is
    false. *)
Theorem analyze_image_always_errors :
  (forall name, In name ["np"; "cv2"; "tempfile"] ->
     load_global name
     = Raise (Exn NameError ("name '" +:+ name +:+ "' is not defined"))) /\
  (forall (image_data : list byte) (quality scale : Z),
     exists kvs,
       analyze_image image_data quality scale = Ret (VDict kvs) /\
       dict_keys kvs = ["error"] /\
       dict_get "image_stats" kvs = None /\
       dict_get "possible_manipulation" kvs = None) /\
  (forall (files : list upload) (records : list value),
     analyze_pdf add_highlight_annot files = Ret records ->
     Forall (fun record =>
               field2 record "analysis_editions" "image_analysis_summary"
               = Some (VBool false))
            records).
Proof.
  split; [|split].
  - intros name [<- | [<- | [<- | []]]]; reflexivity.
  - intros image_data quality scale. eexists.
    split; [apply analyze_image_error|]. repeat split.
  - intros files records Hr. apply analyze_pdf_records in Hr.
    induction Hr as [|file record files records [_ Hf] Hr IH]; constructor.
    + now apply analyze_file_record in Hf.
    + exact IH.
Qed.

(** C3, amended.  Each detector returns a value whatever happens inside it:
    [analyze_image] its error dict for every byte string;
    [extract_metadata] for every argument, the error dict when the argument
    is [None] or the producer or the creator is [None], and the populated
    record on a mapping of strings;
    the font scan and the statement extractor the error dict when pdfplumber
    fails to open the document.  A batch that returns has, position by
    position, the record of each file, which names the file, and only files
    named [.pdf].  A file with another name ends the request with HTTP 400,
    and an exception raised while a file is processed ends it with
    HTTP 500; in both cases no record is returned and the files after it
    are not processed. *)
Theorem batch_failure_handling :
  (forall (image_data : list byte) (quality scale : Z),
     analyze_image image_data quality scale
     = Ret (VDict [("error",
                    VStr "Error in ELA analysis: name 'np' is not defined")])) /\
  (forall metadata : option (gmap string (option string)),
     exists v,
       extract_metadata_any metadata = Ret v /\
       (metadata = None ->
        v = error_dict "Error running ExifTool: "
              (Exn AttributeError
                 "'NoneType' object has no attribute 'get'")) /\
       (forall m, metadata = Some m ->
          opt_get m "producer" = None \/ opt_get m "creator" = None ->
          exists e, exn_cls e = TypeError /\
                    v = error_dict "Error running ExifTool: " e) /\
       (forall m : gmap string string,
          metadata = Some (Some <$> m) -> extract_metadata m = Ret v)) /\
  (forall opened : outcome plumber_pdf,
     exists v,
       parse_pdf_low_level opened = Ret v /\
       forall e, opened = Raise e ->
                 v = error_dict "Error running pdfplumber: " e) /\
  (forall opened : outcome plumber_pdf,
     exists v,
       extract_bank_statement opened = Ret v /\
       forall e, opened = Raise e ->
                 v = error_dict "Error processing PDF: " e) /\
  (forall (files : list upload) (records : list value),
     analyze_pdf add_highlight_annot files = Ret records ->
     Forall2 (fun file record =>
                endswith (filename file) ".pdf" = true /\
                analyze_file add_highlight_annot file = Ret record /\
                field2 record "metadata" "file_name"
                = Some (VStr (filename file)))
             files records) /\
  (forall (done rest : list upload) (file : upload) (records : list value),
     analyze_pdf add_highlight_annot done = Ret records ->
     endswith (filename file) ".pdf" = false ->
     analyze_pdf add_highlight_annot (done ++ file :: rest)
     = Raise (Exn (HTTPException 400) "Only PDF files are supported.")) /\
  (forall (done rest : list upload) (file : upload) (records : list value)
          (e : exn),
     analyze_pdf add_highlight_annot done = Ret records ->
     endswith (filename file) ".pdf" = true ->
     analyze_file add_highlight_annot file = Raise e ->
     analyze_pdf add_highlight_annot (done ++ file :: rest) = Raise e /\
     exn_cls e = HTTPException 500).
Proof.
  split; [|split; [|split; [|split; [|split; [|split]]]]].
  - intros. apply analyze_image_error.
  - apply extract_metadata_any_total.
  - intros opened.
    destruct (parse_pdf_low_level_total opened) as (d & Hd & _ & He).
    now exists (VDict d).
  - apply extract_bank_statement_total.
  - intros files records Hr. apply analyze_pdf_records in Hr.
    induction Hr as [|file record files records [Hn Hf] Hr IH];
      constructor; [|exact IH].
    split; [exact Hn|]. split; [exact Hf|].
    apply analyze_file_inv in Hf
      as (pdf & me & cd & md & ia & low & sr & doc' & res & pe & Hrest).
    destruct Hrest as (_ & _ & _ & _ & _ & _ & _ & _ & _ & _ & ->).
    reflexivity.
  - intros done rest file records Hd Hn. unfold analyze_pdf in *.
    rewrite foldM_app, Hd. cbn [mbind outcome_bind foldM].
    assert (Hstep : analyze_step add_highlight_annot records file
                    = Raise (Exn (HTTPException 400)
                               "Only PDF files are supported."))
      by (unfold analyze_step; now rewrite Hn).
    now rewrite Hstep.
  - intros done rest file records e Hd Hn He. unfold analyze_pdf in *.
    rewrite foldM_app, Hd. cbn [mbind outcome_bind foldM].
    assert (Hstep : analyze_step add_highlight_annot records file = Raise e)
      by (unfold analyze_step; now rewrite Hn, He).
    rewrite Hstep. split; [reflexivity|].
    eapply analyze_file_raises, He.
Qed.
End BatchFacts.

(** An upload with one image: the flag of its record is false. *)
Lemma analyze_image_always_errors_witness :
  exists records,
    analyze_pdf (H := plain_imaging) append_highlight [image_upload]
    = Ret records /\
    length records = 1 /\
    Forall (fun record =>
              field2 record "analysis_editions" "image_analysis_summary"
              = Some (VBool false))
           records.
Proof.
  eexists. split; [vm_compute; reflexivity|]. split; [reflexivity|].
  destruct (analyze_image_always_errors (H := plain_imaging) append_highlight)
    as (_ & _ & Hflag).
  apply (Hflag [image_upload]). vm_compute. reflexivity.
Defined.

(** After a statement that was processed, a text file ends the request. *)
Lemma batch_failure_handling_witness :
  analyze_pdf (H := plain_imaging) append_highlight
    ([clean_upload] ++ text_upload :: [clean_upload])
  = Raise (Exn (HTTPException 400) "Only PDF files are supported.").
Proof.
  destruct (batch_failure_handling (H := plain_imaging) append_highlight)
    as (_ & _ & _ & _ & _ & Hname & _).
  eapply Hname; [vm_compute; reflexivity | reflexivity].
Defined.

(** A batch of one sound statement returns its record; put a file of another
    type after it or before it, or a file PyMuPDF cannot open before it, and
    the request returns no record at all. *)
Lemma wrong_type_aborts_batch :
  (exists record,
     analyze_pdf (H := plain_imaging) append_highlight [clean_upload]
     = Ret [record]) /\
  analyze_pdf (H := plain_imaging) append_highlight [clean_upload; text_upload]
  = Raise (Exn (HTTPException 400) "Only PDF files are supported.") /\
  analyze_pdf (H := plain_imaging) append_highlight [text_upload; clean_upload]
  = Raise (Exn (HTTPException 400) "Only PDF files are supported.") /\
  analyze_pdf (H := plain_imaging) append_highlight [broken_upload; clean_upload]
  = Raise (Exn (HTTPException 500)
             "Error processing PDF: Failed to open stream").
Proof.
  split; [eexists; vm_compute; reflexivity|].
  repeat split; vm_compute; reflexivity.
Qed.

(** C1 (the code departs from it).  On a statement whose dates agree, whose
    producer is no editing tool, that has no image and whose fonts are
    exactly the expected ones, every signal is false and the sorted fonts in
    use equal the sorted expected list; the verdict reads the key
    ["fontes_used"], which the scan result does not have, compares the
    expected list with the empty list and reports a possible edit. *)
Theorem clean_statement_reported_as_edited :
  exists record low used,
    analyze_pdf (H := plain_imaging) append_highlight [clean_upload]
    = Ret [record] /\
    field2 record "analysis_editions" "edited_by_dates" = Some (VBool false) /\
    field2 record "analysis_editions" "edited_by_software"
      = Some (VBool false) /\
    field2 record "analysis_editions" "image_analysis_summary"
      = Some (VBool false) /\
    field1 record "low_level_analysis" = Some low /\
    field1 low "fonts_used" = Some used /\
    py_sorted used = Ret (sorted DEFAULT_FONTS_BANK_OF_AMERICAN) /\
    field1 low "fontes_used" = None /\
    field2 record "analysis_editions" "summary"
      = Some (VStr "Possible edit detected").
Proof.
  eexists _, _, _. split; [vm_compute; reflexivity|].
  do 4 (split; [reflexivity|]). split; [vm_compute; reflexivity|].
  split; [vm_compute; reflexivity|]. split; reflexivity.
Qed.

(** C5 (the code departs from it).  With a codec that decodes the bytes, the
    value returned for an image is still the error dict: it has no
    [possible_manipulation]. *)
Theorem decodable_image_yields_error :
  cv2_imdecode (Imaging := plain_imaging) some_image = Some some_image /\
  analyze_image (H := plain_imaging) some_image 95 15 = Ret ela_error /\
  field1 ela_error "possible_manipulation" = None /\
  field1 ela_error "image_stats" = None.
Proof. repeat split. Qed.


(** * Further properties of the code *)

#[local] Set Warnings "-clear-no-such-hyp".

(** ** Helpers on strings and patterns *)

Lemma length_chars (s : string) : length (chars s) = String.length s.
Proof. induction s as [|a s IH]; simpl; [reflexivity | now rewrite IH]. Qed.

Lemma lower_app (a b : string) : lower (a +:+ b) = lower a +:+ lower b.
Proof. unfold lower. now rewrite chars_app, map_app, unchars_app. Qed.

Lemma head_In {A} (l : list A) (x : A) : head l = Some x -> In x l.
Proof. destruct l; [discriminate | intros [= ->]; now left]. Qed.

Lemma lang_min_len (r : regex) (w : list ascii) :
  lang r w -> min_len r <= length w.
Proof.
  revert w. induction r as [|p|r1 IH1 r2 IH2|r1 IH1 r2 IH2|greedy p|i r1 IH1| |];
    intros w Hw; simpl in *.
  - subst. simpl. lia.
  - destruct Hw as [a [-> _]]. simpl. lia.
  - destruct Hw as [w1 [w2 [-> [H1 H2]]]]. rewrite length_app.
    apply IH1 in H1. apply IH2 in H2. lia.
  - destruct Hw as [Hw | Hw]; [apply IH1 in Hw | apply IH2 in Hw]; lia.
  - lia.
  - now apply IH1.
  - subst. simpl. lia.
  - subst. simpl. lia.
Qed.

(** A match of the whole subject needs a subject at least as long as the
    shortest word of the pattern. *)
Lemma re_match_all_min_len (r : regex) (data : string) c g :
  re_match r data = Some (c, g) -> rest c = [] ->
  min_len r <= String.length data.
Proof.
  intros Hm Hr. apply head_In in Hm. apply run_sound in Hm as [w [Hw E]].
  simpl in E. rewrite Hr, app_nil_r in E.
  rewrite <- length_chars, E. now apply lang_min_len.
Qed.

Lemma strptime_min_length (data : string) (d : datetime) :
  strptime data = Ret d -> 9 <= String.length data.
Proof.
  unfold strptime. destruct (re_match strptime_regex data) as [[c g]|] eqn:Hm;
    [|discriminate].
  destruct (rest c) eqn:Hr; [|discriminate]. intros _.
  apply (re_match_all_min_len _ _ _ _ Hm Hr).
Qed.

Lemma slice_to_short (n : nat) (s : string) :
  String.length s <= n -> slice_to n s = s.
Proof.
  intros Hn. unfold slice_to. rewrite take_ge by (rewrite length_chars; lia).
  apply unchars_chars.
Qed.

Lemma startswith_prefixed (p s : string) : startswith (p +:+ s) p = true.
Proof.
  unfold startswith. rewrite chars_app. apply is_prefix_spec. now exists (chars s).
Qed.

Lemma slice_from_prefixed (p s : string) :
  slice_from (String.length p) (p +:+ s) = s.
Proof.
  unfold slice_from. rewrite chars_app, <- length_chars, drop_app_length.
  apply unchars_chars.
Qed.

(** What [format_pdf_date] does once the prefix is off. *)
Lemma format_pdf_date_unprefixed (s : string) :
  startswith s "D:" = false ->
  format_pdf_date s
  = match strptime (slice_to 14 s) with
    | Ret date_obj =>
        Ret (if Nat.ltb 14 (String.length s)
             then if truthy (VStr (slice_from 14 s))
                  then strftime date_obj +:+ replace_char "'" ":" (slice_from 14 s)
                  else strftime date_obj
             else strftime date_obj)
    | Raise _ => Ret s
    end.
Proof.
  intros Hs. unfold format_pdf_date. rewrite Hs.
  destruct (strptime (slice_to 14 s)) as [d|e] eqn:E; simpl.
  - destruct (Nat.ltb 14 (String.length s)); reflexivity.
  - now rewrite (strptime_raises _ _ E).
Qed.

(** ** [format_pdf_date]: the prefix, short strings, and a second pass *)

(** X1.  The prefix "D:" is optional: a string that does not itself begin
    with "D:" is normalised to the same result with the prefix as
    without. *)
Theorem format_pdf_date_prefix_optional (s : string) :
  startswith s "D:" = false ->
  format_pdf_date ("D:" +:+ s) = format_pdf_date s.
Proof.
  intros Hs. unfold format_pdf_date at 1.
  rewrite (startswith_prefixed "D:" s).
  change 2 with (String.length "D:"). rewrite slice_from_prefixed.
  unfold format_pdf_date. now rewrite Hs.
Qed.

Lemma format_pdf_date_prefix_optional_witness :
  format_pdf_date "D:20240229235959Z" = format_pdf_date "20240229235959Z".
Proof.
  apply (format_pdf_date_prefix_optional "20240229235959Z"). reflexivity.
Defined.

(** X2.  A string of fewer than nine characters cannot be a timestamp (a
    year of four digits and five more fields of at least one): without the
    prefix it is returned as it is, and with the prefix it is returned
    without it. *)
Theorem format_pdf_date_short (s : string) :
  String.length s < 9 -> startswith s "D:" = false ->
  format_pdf_date s = Ret s /\ format_pdf_date ("D:" +:+ s) = Ret s.
Proof.
  intros Hlen Hs.
  assert (H : format_pdf_date s = Ret s).
  { rewrite (format_pdf_date_unprefixed s Hs), slice_to_short by lia.
    destruct (strptime s) as [d|e] eqn:E; [|reflexivity].
    apply strptime_min_length in E. lia. }
  split; [exact H|]. transitivity (format_pdf_date s); [|exact H].
  unfold format_pdf_date at 1. rewrite (startswith_prefixed "D:" s).
  change 2 with (String.length "D:"). rewrite slice_from_prefixed.
  unfold format_pdf_date. now rewrite Hs.
Qed.

Lemma format_pdf_date_short_witness :
  format_pdf_date "2025" = Ret "2025" /\ format_pdf_date "D:2025" = Ret "2025".
Proof. apply (format_pdf_date_short "2025"); [simpl; lia | reflexivity]. Defined.

Lemma digit_facts (a : ascii) :
  is_digit a = true -> is_space a = false /\ digit_value a <= 9.
Proof.
  destruct a as [[] [] [] [] [] [] [] []]; intros Ha;
    try discriminate Ha; split; first [reflexivity | vm_compute; lia].
Qed.

Lemma range_digit (lo hi a : ascii) :
  is_digit lo = true -> is_digit hi = true ->
  cls_range lo hi a = true -> is_digit a = true.
Proof.
  unfold cls_range, is_digit, in_range. intros Hlo Hhi Ha.
  apply andb_true_iff in Hlo as [Hlo _]. apply andb_true_iff in Hhi as [_ Hhi].
  apply andb_true_iff in Ha as [Ha1 Ha2].
  apply N.leb_le in Hlo, Hhi, Ha1, Ha2.
  apply andb_true_iff. split; apply N.leb_le; lia.
Qed.

(** The year group of the timestamp pattern holds four digits. *)
Lemma captured_year :
  captured strptime_regex 1 (fun w => length w = 4 /\ digits w).
Proof.
  unfold strptime_regex. apply captured_cat_l; [|reflexivity].
  apply captured_group. intros w Hw. simpl in Hw.
  destruct Hw as (w1 & w2 & -> & (a & -> & Ha) & w3 & w4 & -> & (b & -> & Hb)
                  & w5 & w6 & -> & (c & -> & Hc) & (d & -> & Hd)).
  split; [reflexivity | repeat constructor; assumption].
Qed.

Lemma strptime_year_bound (data : string) (d : datetime) :
  strptime data = Ret d -> (Z.of_nat (year d) <= 9999)%Z.
Proof.
  unfold strptime. destruct (re_match strptime_regex data) as [[c g]|] eqn:Hm;
    [|discriminate].
  apply head_In in Hm. apply captured_year in Hm as (w & Hw & Hlen & Hd).
  destruct (rest c); [|discriminate].
  repeat match goal with
         | |- context [if ?b then _ else _] => destruct b
         end; try discriminate.
  intros [= <-]. simpl. unfold int_field. rewrite Hw. simpl.
  destruct w as [|a [|b [|c0 [|e [|? ?]]]]]; try discriminate Hlen.
  apply Forall_cons_1 in Hd as [Ha Hd]. apply Forall_cons_1 in Hd as [Hb Hd].
  apply Forall_cons_1 in Hd as [Hc Hd]. apply Forall_cons_1 in Hd as [He _].
  destruct (digit_facts _ Ha) as [Sa Va]. destruct (digit_facts _ Hb) as [_ Vb].
  destruct (digit_facts _ Hc) as [_ Vc]. destruct (digit_facts _ He) as [_ Ve].
  cbn [lstrip]. rewrite Sa. unfold int_of_digits. cbn [fold_left]. lia.
Qed.

(** A string [strptime] accepts begins with five digits: the year and the
    first character of the month. *)
Lemma strptime_first_digits (data : string) (d : datetime) :
  strptime data = Ret d ->
  exists w5 t, chars data = w5 ++ t /\ length w5 = 5 /\ digits w5.
Proof.
  unfold strptime. destruct (re_match strptime_regex data) as [[c g]|] eqn:Hm;
    [|discriminate].
  intros _. apply head_In in Hm. apply run_sound in Hm as [w [Hw E]].
  simpl in E. unfold strptime_regex in Hw.
  destruct Hw as (wy & w' & -> & Hy & wm & w'' & -> & Hmo & _).
  simpl in Hy.
  destruct Hy as (w1 & w2 & -> & (a & -> & Ha) & w3 & w4 & -> & (b & -> & Hb)
                  & w5 & w6 & -> & (c0 & -> & Hc) & (e & -> & He)).
  assert (Hfirst : exists x t, wm = x :: t /\ is_digit x = true).
  { cbn [lang] in Hmo. destruct Hmo as [H1 | [H1 | H1]].
    - destruct H1 as (u1 & u2 & -> & Hu1 & _). apply lang_lit in Hu1 as ->.
      now eexists _, _.
    - destruct H1 as (u1 & u2 & -> & Hu1 & _). apply lang_lit in Hu1 as ->.
      now eexists _, _.
    - destruct H1 as (x & -> & Hx). exists x, []. split; [reflexivity|].
      now apply (range_digit "1" "9"). }
  destruct Hfirst as (x & t & -> & Hx).
  exists [a; b; c0; e; x], (t ++ w'' ++ rest c).
  split; [rewrite E; simpl; now rewrite <- app_assoc|].
  split; [reflexivity | repeat constructor; assumption].
Qed.

Lemma str_of_nat_short (n : nat) :
  (Z.of_nat n <= 9999)%Z -> length (chars (str_of_nat n)) <= 4.
Proof.
  intros Hn.
  assert (Hall : forallb (fun n => Nat.leb (length (chars (str_of_nat n))) 4)
                         (seq 0 (Z.to_nat 10000)) = true)
    by (vm_compute; reflexivity).
  rewrite forallb_forall in Hall. apply Nat.leb_le, Hall, in_seq. lia.
Qed.

Lemma strftime_chars (d : datetime) :
  exists more,
    chars (strftime d) = chars (str_of_nat (year d)) ++ "-"%char :: more.
Proof. unfold strftime. rewrite chars_app. simpl. eauto. Qed.

(** A string whose first five characters hold a hyphen is no timestamp. *)
Lemma strptime_rejects_hyphen (y more : list ascii) (r : string) :
  length y <= 4 -> chars r = y ++ "-"%char :: more ->
  forall d, strptime (slice_to 14 r) <> Ret d.
Proof.
  intros Hy Hr d Hd. apply strptime_first_digits in Hd as (w5 & t & E & Hlen & Hdig).
  unfold slice_to in E. rewrite chars_unchars in E.
  assert (E' : chars r = w5 ++ (t ++ drop 14 (chars r))).
  { rewrite app_assoc, <- E. symmetry. apply take_drop. }
  assert (Hl : w5 !! length y = Some "-"%char).
  { rewrite <- (lookup_app_l w5 (t ++ drop 14 (chars r))) by lia.
    rewrite <- E', Hr. apply list_lookup_middle. reflexivity. }
  unfold digits in Hdig. rewrite Forall_lookup in Hdig.
  specialize (Hdig _ _ Hl). discriminate Hdig.
Qed.

(** X3.  A second pass changes nothing: whatever [format_pdf_date] returns,
    if it does not begin with "D:", is returned as it is when given back to
    [format_pdf_date].  (A normalised timestamp has a hyphen after the year
    and is no timestamp of the PDF form.) *)
Theorem format_pdf_date_fixed_point (s r : string) :
  format_pdf_date s = Ret r -> startswith r "D:" = false ->
  format_pdf_date r = Ret r.
Proof.
  intros Hf Hr. rewrite (format_pdf_date_unprefixed r Hr).
  unfold format_pdf_date in Hf.
  set (s' := if startswith s "D:" then slice_from 2 s else s) in Hf.
  destruct (strptime (slice_to 14 s')) as [d|e] eqn:E; simpl in Hf.
  - assert (Hshape : exists more,
              chars r = chars (str_of_nat (year d)) ++ "-"%char :: more).
    { injection Hf as <-. destruct (strftime_chars d) as [more Hm].
      match goal with
      | |- context [if ?b then _ else strftime d] => destruct b
      end; [|now exists more].
      exists (more ++ chars (replace_char "'" ":"
                (if Nat.ltb 14 (String.length s') then slice_from 14 s' else ""))).
      rewrite chars_app, Hm. now rewrite <- app_assoc. }
    destruct Hshape as [more Hm].
    pose proof (strptime_rejects_hyphen _ _ _
                  (str_of_nat_short _ (strptime_year_bound _ _ E)) Hm) as Hrej.
    destruct (strptime (slice_to 14 r)) as [d'|e']; [now destruct (Hrej d')|].
    reflexivity.
  - rewrite (strptime_raises _ _ E) in Hf. simpl in Hf. injection Hf as <-.
    now rewrite E.
Qed.

Lemma format_pdf_date_fixed_point_witness :
  format_pdf_date "2025-07-31 14:43:53-05:00" = Ret "2025-07-31 14:43:53-05:00".
Proof.
  apply (format_pdf_date_fixed_point "D:20250731144353-05'00");
    vm_compute; reflexivity.
Defined.

(** ** [extract_metadata]: missing keys and letter case *)

Lemma occurs_app_l (needle a b : string) :
  occurs needle a -> occurs needle (a +:+ b).
Proof.
  intros Ho. apply occurs_chars in Ho as (pre & post & E).
  apply occurs_chars. exists pre, (post ++ chars b).
  now rewrite chars_app, E, <- !app_assoc.
Qed.

Lemma occurs_app_r (needle a b : string) :
  occurs needle b -> occurs needle (a +:+ b).
Proof.
  intros Ho. apply occurs_chars in Ho as (pre & post & E).
  apply occurs_chars. exists (chars a ++ pre), post.
  now rewrite chars_app, E, <- !app_assoc.
Qed.

(** X4.  The date test reads a missing key as "Unknown": a document without
    a modification date, or whose modification date is the word "Unknown",
    is never flagged, and a document with a modification date and no
    creation date is always flagged. *)
Theorem edited_by_dates_missing_keys (metadata : gmap string string) :
  exists record by_dates,
    extract_metadata metadata = Ret record /\
    field2 record "analysis_editions" "edited_by_dates"
      = Some (VBool by_dates) /\
    (metadata !! "modDate" = None \/ metadata !! "modDate" = Some "Unknown" ->
     by_dates = false) /\
    (forall m, metadata !! "creationDate" = None ->
               metadata !! "modDate" = Some m -> m <> "Unknown" ->
               by_dates = true).
Proof.
  eexists _, _. split; [reflexivity|]. split; [reflexivity|].
  unfold meta_get. split.
  - intros [-> | ->]; simpl; now rewrite andb_false_r.
  - intros m -> -> Hm. simpl. apply String.eqb_neq in Hm. now rewrite Hm.
Qed.

Lemma edited_by_dates_missing_keys_witness :
  exists record,
    extract_metadata acrobat_metadata = Ret record /\
    field2 record "analysis_editions" "edited_by_dates" = Some (VBool true).
Proof.
  destruct (edited_by_dates_missing_keys acrobat_metadata)
    as (record & b & Hrec & Hb & _ & Htrue).
  exists record. split; [exact Hrec|].
  rewrite Hb, (Htrue "D:20240102000000"); try reflexivity. discriminate.
Defined.

Lemma extract_metadata_software (metadata : gmap string string) :
  exists record,
    extract_metadata metadata = Ret record /\
    field2 record "analysis_editions" "edited_by_software"
    = Some (VBool
        (existsb (fun software =>
                    contains (lower (meta_get metadata "producer"
                                     +:+ meta_get metadata "creator"))
                             (lower software))
                 edit_softwares)).
Proof. eexists. split; reflexivity. Qed.

(** X5.  One field is enough, in any letter case: when the producer alone,
    or the creator alone, contains the name of one of the five tools
    whatever the case of its letters, the document is flagged as edited by
    software. *)
Theorem edited_by_software_either_field (metadata : gmap string string)
    (software : string) :
  In software edit_softwares ->
  occurs (lower software) (lower (meta_get metadata "producer")) \/
  occurs (lower software) (lower (meta_get metadata "creator")) ->
  exists record,
    extract_metadata metadata = Ret record /\
    field2 record "analysis_editions" "edited_by_software" = Some (VBool true).
Proof.
  intros Hin Ho.
  destruct (extract_metadata_software metadata) as (record & Hrec & Hflag).
  exists record. split; [exact Hrec|]. rewrite Hflag. do 2 f_equal.
  apply existsb_exists. exists software. split; [exact Hin|].
  apply contains_occurs. rewrite lower_app.
  destruct Ho as [Ho | Ho]; [now apply occurs_app_l | now apply occurs_app_r].
Qed.

Lemma edited_by_software_either_field_witness :
  exists record,
    extract_metadata acrobat_metadata = Ret record /\
    field2 record "analysis_editions" "edited_by_software" = Some (VBool true).
Proof.
  apply (edited_by_software_either_field acrobat_metadata "Acrobat").
  - now left.
  - left. apply contains_occurs. vm_compute. reflexivity.
Defined.

(** X6.  The software test does not see letter case: two mappings whose
    producers agree up to case, and whose creators agree up to case, get the
    same flag. *)
Theorem edited_by_software_ignores_case (m1 m2 : gmap string string) :
  lower (meta_get m1 "producer") = lower (meta_get m2 "producer") ->
  lower (meta_get m1 "creator") = lower (meta_get m2 "creator") ->
  exists r1 r2 flag,
    extract_metadata m1 = Ret r1 /\ extract_metadata m2 = Ret r2 /\
    field2 r1 "analysis_editions" "edited_by_software" = Some (VBool flag) /\
    field2 r2 "analysis_editions" "edited_by_software" = Some (VBool flag).
Proof.
  intros Hp Hc.
  destruct (extract_metadata_software m1) as (r1 & Hr1 & Hf1).
  destruct (extract_metadata_software m2) as (r2 & Hr2 & Hf2).
  exists r1, r2. eexists. split; [exact Hr1|]. split; [exact Hr2|].
  split; [exact Hf1|]. rewrite Hf2.
  assert (E : lower (meta_get m1 "producer" +:+ meta_get m1 "creator")
              = lower (meta_get m2 "producer" +:+ meta_get m2 "creator"))
    by now rewrite !lower_app, Hp, Hc.
  now rewrite E.
Qed.

Lemma edited_by_software_ignores_case_witness :
  exists r1 r2 flag,
    extract_metadata acrobat_metadata = Ret r1 /\
    extract_metadata acrobat_metadata' = Ret r2 /\
    field2 r1 "analysis_editions" "edited_by_software" = Some (VBool flag) /\
    field2 r2 "analysis_editions" "edited_by_software" = Some (VBool flag).
Proof.
  apply (edited_by_software_ignores_case acrobat_metadata acrobat_metadata');
    vm_compute; reflexivity.
Defined.

(** ** [parse_pdf_low_level]: the fonts, the regions and the note *)

Lemma scan_chars_fonts (page_num : nat) (cs : list pchar) (st : scan_state) :
  fst (fold_left (scan_char page_num) cs st)
  = list_to_set (char_font <$> cs) ∪ fst st.
Proof.
  revert st. induction cs as [|c cs IH]; intros st; simpl.
  - set_solver.
  - rewrite IH.
    assert (E : fst (scan_char page_num st c) = {[ char_font c ]} ∪ fst st).
    { unfold scan_char. now destruct (negb (whitelisted (char_font c))). }
    rewrite E. set_solver.
Qed.

Lemma scan_pages_fonts (pages : list plumber_page) :
  forall page_num st,
    fst (scan_pages page_num pages st)
    = list_to_set (char_font <$> all_chars pages) ∪ fst st.
Proof.
  induction pages as [|page pages IH]; intros page_num st.
  - simpl. set_solver.
  - cbn [scan_pages]. rewrite IH. unfold all_chars. cbn [fmap list_fmap concat].
    rewrite fmap_app, list_to_set_app_L.
    destruct (page_chars page) as [|c cs] eqn:E.
    + simpl. set_solver.
    + cbn [nonempty]. rewrite scan_chars_fonts. set_solver.
Qed.

Lemma In_all_chars (pages : list plumber_page) (c : pchar) :
  In c (all_chars pages) <->
  exists page, In page pages /\ In c (page_chars page).
Proof.
  unfold all_chars. rewrite in_concat. split.
  - intros (cs & Hcs & Hc). apply in_map_iff in Hcs as (page & <- & Hp). eauto.
  - intros (page & Hp & Hc). exists (page_chars page). split; [|exact Hc].
    apply in_map_iff. eauto.
Qed.

(** X7.  [fonts_used] lists each font once, [font_count] is the length of
    that list, and a font is listed exactly when some character of some page
    has it (a character without a font name counting as "unknown"). *)
Theorem fonts_used_distinct_and_complete (pdf : plumber_pdf) :
  exists record fonts,
    parse_pdf_low_level (Ret pdf) = Ret record /\
    field1 record "fonts_used" = Some (VList (VStr <$> fonts)) /\
    field1 record "font_count" = Some (VInt (Z.of_nat (length fonts))) /\
    List.NoDup fonts /\
    (forall font,
       In font fonts <->
       exists page c,
         In page (pdf_pages pdf) /\ In c (page_chars page) /\
         char_font c = font).
Proof.
  destruct (parse_pdf_low_level_regions pdf)
    as (record & fonts & Hrec & Hfonts & _ & Hused & Hcount).
  exists record, (elements fonts). split; [exact Hrec|].
  split; [exact Hused|]. split; [exact Hcount|].
  split; [apply NoDup_ListNoDup, NoDup_elements|].
  intros font. rewrite <- list_elem_of_In, elem_of_elements, Hfonts.
  rewrite scan_pages_fonts. cbn [fst].
  rewrite elem_of_union, elem_of_list_to_set, list_elem_of_fmap. split.
  - intros [(c & -> & Hc) | Hempty]; [|set_solver].
    apply list_elem_of_In, In_all_chars in Hc as (page & Hp & Hc). eauto.
  - intros (page & c & Hp & Hc & <-). left. exists c. split; [reflexivity|].
    apply list_elem_of_In, In_all_chars. eauto.
Qed.

Lemma regions_from_all_chars (pages : list plumber_page) :
  forall page_num,
    length (regions_from page_num pages)
    = length (List.filter suspicious (all_chars pages)).
Proof.
  induction pages as [|page pages IH]; intros page_num; [reflexivity|].
  cbn [regions_from]. unfold all_chars. cbn [fmap list_fmap concat].
  rewrite List.filter_app, !length_app, length_map. f_equal. apply IH.
Qed.

Lemma filter_nil_whitelisted (cs : list pchar) :
  List.filter suspicious cs = [] <->
  Forall (fun c => whitelisted (char_font c) = true) cs.
Proof.
  induction cs as [|c cs IH]; simpl.
  - split; [constructor | reflexivity].
  - unfold suspicious at 1. destruct (whitelisted (char_font c)) eqn:E; simpl.
    + rewrite IH. split; [now constructor | now intros H; inversion H].
    + split; [discriminate | intros H; inversion H; congruence].
Qed.

(** X8.  There are as many regions as characters in a font that is not
    expected, so the sequence is empty exactly when every character of the
    document uses an expected font. *)
Theorem regions_count_and_emptiness (pdf : plumber_pdf) :
  exists record regions,
    parse_pdf_low_level (Ret pdf) = Ret record /\
    field1 record "suspicious_regions" = Some (VList regions) /\
    length regions
    = length (List.filter (fun c => negb (whitelisted (char_font c)))
                          (all_chars (pdf_pages pdf))) /\
    (regions = [] <->
     Forall (fun c => whitelisted (char_font c) = true)
            (all_chars (pdf_pages pdf))).
Proof.
  destruct (parse_pdf_low_level_regions pdf)
    as (record & fonts & Hrec & _ & Hr & _).
  exists record, (regions_from 1 (pdf_pages pdf)).
  split; [exact Hrec|]. split; [exact Hr|].
  split; [apply regions_from_all_chars|].
  rewrite <- filter_nil_whitelisted.
  pose proof (regions_from_all_chars (pdf_pages pdf) 1) as Hlen.
  split; intros Hnil.
  - rewrite Hnil in Hlen. simpl in Hlen.
    now destruct (List.filter suspicious (all_chars (pdf_pages pdf))).
  - rewrite Hnil in Hlen. simpl in Hlen.
    now destruct (regions_from 1 (pdf_pages pdf)).
Qed.

Lemma regions_from_In (pages : list plumber_page) (region : value) :
  forall page_num,
    In region (regions_from page_num pages) ->
    exists i page c,
      pages !! i = Some page /\ In c (page_chars page) /\
      whitelisted (char_font c) = false /\
      region = region_of (page_num + i) c.
Proof.
  induction pages as [|page pages IH]; intros page_num Hin; [easy|].
  cbn [regions_from] in Hin. apply in_app_or in Hin as [Hin | Hin].
  - apply in_map_iff in Hin as (c & <- & Hc).
    apply List.filter_In in Hc as [Hc Hs]. exists 0, page, c.
    split; [reflexivity|]. split; [exact Hc|].
    split; [now apply negb_true_iff in Hs | now rewrite Nat.add_0_r].
  - apply IH in Hin as (i & pg & c & Hi & Hc & Hw & ->).
    exists (S i), pg, c. repeat split; try assumption.
    f_equal. lia.
Qed.

(** X9.  Every region comes from a character of the document: its page
    number is the 1-based number of a page that holds the character, its
    font name is the character's and is not an expected font, and its box
    and size are the character's. *)
Theorem regions_provenance (pdf : plumber_pdf) :
  exists record regions,
    parse_pdf_low_level (Ret pdf) = Ret record /\
    field1 record "suspicious_regions" = Some (VList regions) /\
    Forall (fun region =>
              exists i page c,
                pdf_pages pdf !! i = Some page /\ In c (page_chars page) /\
                whitelisted (char_font c) = false /\
                field1 region "page" = Some (VInt (Z.of_nat i + 1)) /\
                field1 region "fontname" = Some (VStr (char_font c)) /\
                field1 region "bbox"
                  = Some (VTuple [num_get (c_x0 c); num_get (c_top c);
                                  num_get (c_x1 c); num_get (c_bottom c)]) /\
                field1 region "width" = Some (num_get (c_width c)) /\
                field1 region "height" = Some (num_get (c_height c)))
           regions.
Proof.
  destruct (parse_pdf_low_level_regions pdf)
    as (record & fonts & Hrec & _ & Hr & _).
  exists record, (regions_from 1 (pdf_pages pdf)).
  split; [exact Hrec|]. split; [exact Hr|].
  apply List.Forall_forall. intros region Hin.
  apply regions_from_In in Hin as (i & page & c & Hi & Hc & Hw & ->).
  exists i, page, c. repeat split; try assumption.
  simpl. do 2 f_equal. lia.
Qed.

Lemma regions_from_texts (pages : list plumber_page) :
  forall page_num,
    (fun region =>
       field1 region "(x0, top, x1, bottom) - coordinates in PDFtext")
    <$> regions_from page_num pages
    = (fun c => Some (VStr (default "" (c_text c))))
      <$> List.filter suspicious (all_chars pages).
Proof.
  induction pages as [|page pages IH]; intros page_num; [reflexivity|].
  cbn [regions_from]. unfold all_chars. cbn [fmap list_fmap concat].
  rewrite List.filter_app, !fmap_app. f_equal; [|apply IH].
  induction (List.filter suspicious (page_chars page)) as [|c cs IHc];
    [reflexivity|].
  cbn. f_equal. exact IHc.
Qed.

(** X10.  No region has a key ["text"]: the text of the character a region
    comes from (the empty string when the character has none) is stored
    under the key that the comment string and ["text"] make together, so
    that the values under that key are, in order, the texts of the
    characters in an unexpected font; and a region has exactly six keys. *)
Theorem regions_have_no_text_key (pdf : plumber_pdf) :
  exists record regions,
    parse_pdf_low_level (Ret pdf) = Ret record /\
    field1 record "suspicious_regions" = Some (VList regions) /\
    Forall (fun region =>
              field1 region "text" = None /\
              (exists i page c,
                 pdf_pages pdf !! i = Some page /\ In c (page_chars page) /\
                 whitelisted (char_font c) = false /\
                 field1 region "page" = Some (VInt (Z.of_nat i + 1)) /\
                 field1 region "bbox"
                 = Some (VTuple [num_get (c_x0 c); num_get (c_top c);
                                 num_get (c_x1 c); num_get (c_bottom c)]) /\
                 field1 region "(x0, top, x1, bottom) - coordinates in PDFtext"
                 = Some (VStr (default "" (c_text c)))) /\
              exists kvs,
                region = VDict kvs /\
                dict_keys kvs
                = ["page"; "fontname"; "bbox";
                   "(x0, top, x1, bottom) - coordinates in PDFtext";
                   "width"; "height"])
           regions /\
    (fun region =>
       field1 region "(x0, top, x1, bottom) - coordinates in PDFtext")
    <$> regions
    = (fun c => Some (VStr (default "" (c_text c))))
      <$> List.filter (fun c => negb (whitelisted (char_font c)))
                      (all_chars (pdf_pages pdf)).
Proof.
  destruct (parse_pdf_low_level_regions pdf)
    as (record & fonts & Hrec & _ & Hr & _).
  exists record, (regions_from 1 (pdf_pages pdf)).
  split; [exact Hrec|]. split; [exact Hr|].
  split; [|apply regions_from_texts].
  apply List.Forall_forall. intros region Hin.
  apply regions_from_In in Hin as (i & page & c & Hi & Hc & Hw & ->).
  split; [reflexivity|]. split.
  - exists i, page, c. do 3 (split; [assumption|]).
    split; [|split; reflexivity].
    cbn. do 2 f_equal. lia.
  - eexists. split; reflexivity.
Qed.

Lemma append_assoc (a b c : string) : (a +:+ b) +:+ c = a +:+ (b +:+ c).
Proof.
  rewrite <- (unchars_chars ((a +:+ b) +:+ c)),
          <- (unchars_chars (a +:+ (b +:+ c))).
  now rewrite !chars_app, app_assoc.
Qed.

Lemma endswith_app (a b : string) : endswith (a +:+ b) b = true.
Proof.
  unfold endswith. rewrite chars_app, rev_app_distr.
  apply is_prefix_spec. now exists (rev (chars a)).
Qed.

Lemma parse_pdf_low_level_note (pdf : plumber_pdf) :
  exists record head,
    parse_pdf_low_level (Ret pdf) = Ret record /\
    field1 record "suspicious_objects"
    = Some (VBool (existsb (fun page =>
                              existsb suspicious_type (page_xobject_types page))
                           (pdf_pages pdf))) /\
    field1 record "note"
    = Some (VStr
        (head +:+
         ((if nonempty (regions_from 1 (pdf_pages pdf))
              || existsb (fun page =>
                            existsb suspicious_type (page_xobject_types page))
                         (pdf_pages pdf)
           then "Suspicious objects found" else "No suspicious objects")
          +:+ "."))).
Proof.
  unfold parse_pdf_low_level. cbn [try_except mbind outcome_bind].
  pose proof (scan_pages_regions (pdf_pages pdf) 1 (∅, [])) as Hr.
  destruct (scan_pages 1 (pdf_pages pdf) (∅, [])) as [fonts regions].
  simpl in Hr. subst regions.
  eexists _,
    (str_of_nat (size fonts)
     +:+ " fonts detected; multiple fonts may indicate manipulation."
     +:+ "Found " +:+ str_of_nat (length (regions_from 1 (pdf_pages pdf)))
     +:+ " occurrences of suspicious fonts at specific positions.").
  split; [reflexivity|]. split; [reflexivity|].
  unfold field1. cbn [dict_get String.eqb Ascii.eqb Bool.eqb].
  now rewrite !append_assoc.
Qed.

Lemma existsb_none {A} (f : A -> bool) (l : list A) :
  Forall (fun x => f x = false) l -> existsb f l = false.
Proof.
  intros Hl. induction Hl as [|x l Hx _ IH]; simpl; [reflexivity|].
  now rewrite Hx, IH.
Qed.

(** X11.  The note speaks of suspicious objects as soon as a character uses
    an unexpected font: for a document with such a character and no
    JavaScript or open-action object, [suspicious_objects] is false and the
    note nevertheless ends with "Suspicious objects found.". *)
Theorem note_reports_objects_for_fonts (pdf : plumber_pdf) :
  (exists page c,
     In page (pdf_pages pdf) /\ In c (page_chars page) /\
     whitelisted (char_font c) = false) ->
  Forall (fun page =>
            Forall (fun t => suspicious_type t = false) (page_xobject_types page))
         (pdf_pages pdf) ->
  exists record note,
    parse_pdf_low_level (Ret pdf) = Ret record /\
    field1 record "suspicious_objects" = Some (VBool false) /\
    field1 record "note" = Some (VStr note) /\
    endswith note "Suspicious objects found." = true.
Proof.
  intros (page & c & Hp & Hc & Hw) Hobj.
  destruct (parse_pdf_low_level_note pdf) as (record & head & Hrec & Hflag & Hnote).
  assert (Hno : existsb (fun page =>
                           existsb suspicious_type (page_xobject_types page))
                        (pdf_pages pdf) = false).
  { apply existsb_none. eapply Forall_impl; [exact Hobj|].
    intros pg Hpg. now apply existsb_none. }
  assert (Hsome : nonempty (regions_from 1 (pdf_pages pdf)) = true).
  { pose proof (regions_from_all_chars (pdf_pages pdf) 1) as Hlen.
    destruct (regions_from 1 (pdf_pages pdf)); [|reflexivity].
    simpl in Hlen. symmetry in Hlen. apply length_zero_iff_nil in Hlen.
    apply filter_nil_whitelisted in Hlen.
    rewrite List.Forall_forall in Hlen.
    assert (Hin : In c (all_chars (pdf_pages pdf)))
      by (apply In_all_chars; eauto).
    apply Hlen in Hin. congruence. }
  rewrite Hno in Hflag. rewrite Hno, Hsome in Hnote. simpl in Hnote.
  exists record. eexists. split; [exact Hrec|]. split; [exact Hflag|].
  split; [exact Hnote|]. apply endswith_app.
Qed.

Lemma note_reports_objects_for_fonts_witness :
  exists record note,
    parse_pdf_low_level (Ret forged_pdf) = Ret record /\
    field1 record "suspicious_objects" = Some (VBool false) /\
    field1 record "note" = Some (VStr note) /\
    endswith note "Suspicious objects found." = true.
Proof.
  apply (note_reports_objects_for_fonts forged_pdf).
  - eexists _, forged_glyph. split; [right; left; reflexivity|].
    split; [apply in_or_app; right; now left | reflexivity].
  - repeat constructor.
Defined.

(** ** [highlight_suspicious_fonts]: what the pass keeps *)

Section OverlayInvariants.
Context {page : Type}.
Variable add_highlight_annot : page -> rect -> outcome page.

Lemma doc_index_length (doc doc' : list page) (i : Z) :
  length doc' = length doc -> doc_index doc' i = doc_index doc i.
Proof. intros E. unfold doc_index. now rewrite E. Qed.

(** One region either leaves the document as it is, or replaces the page its
    valid box points at. *)
Lemma highlight_region_inv (doc doc1 : list page) (region : value) :
  highlight_region add_highlight_annot doc region = Ret doc1 ->
  doc1 = doc \/
  exists p r i pg',
    region_box region p r /\ is_valid r = true /\
    doc_index doc (p - 1) = Ret i /\ doc1 = <[i := pg']> doc.
Proof.
  unfold highlight_region, region_box. intros Hr.
  destruct (value_item region "page") as [vp|] eqn:Ep; [|discriminate Hr].
  cbn [mbind outcome_bind] in Hr.
  destruct vp as [| |p| | | | |]; try discriminate Hr.
  cbn [mbind outcome_bind mret outcome_ret] in Hr.
  destruct (value_item region "bbox") as [b|] eqn:Eb; [|discriminate Hr].
  cbn [mbind outcome_bind] in Hr.
  destruct (fitz_Rect b) as [r|] eqn:Er; [|discriminate Hr].
  cbn [mbind outcome_bind] in Hr.
  destruct (is_valid r) eqn:Hv.
  - destruct (doc_index doc (p - 1)) as [i|] eqn:Ei; [|discriminate Hr].
    cbn [mbind outcome_bind] in Hr.
    destruct (doc !! i) as [pg|]; [|discriminate Hr].
    destruct (add_highlight_annot pg r) as [pg'|]; [|discriminate Hr].
    injection Hr as <-. right. exists p, r, i, pg'.
    repeat split; try reflexivity; try assumption.
  - injection Hr as <-. now left.
Qed.

Lemma highlight_regions_inv (regions : list value) :
  forall doc doc' : list page,
    foldM (highlight_region add_highlight_annot) doc regions = Ret doc' ->
    length doc' = length doc /\
    forall i,
      (forall region p r,
         In region regions -> region_box region p r -> is_valid r = true ->
         doc_index doc (p - 1) <> Ret i) ->
      doc' !! i = doc !! i.
Proof.
  induction regions as [|region regions IH]; intros doc doc' Hf; simpl in Hf.
  - injection Hf as <-. split; reflexivity.
  - destruct (highlight_region add_highlight_annot doc region) as [doc1|] eqn:E1;
      [|discriminate Hf].
    cbn [mbind outcome_bind] in Hf. destruct (IH _ _ Hf) as [Hlen Hkeep].
    apply highlight_region_inv in E1 as [-> | (p & r & j & pg' & Hbox & Hv & Hj & ->)].
    + split; [exact Hlen|]. intros i Hi. apply Hkeep.
      intros rg q s Hin Hb Hs. apply (Hi rg q s); [now right | assumption..].
    + rewrite length_insert in Hlen. split; [exact Hlen|]. intros i Hi.
      rewrite Hkeep.
      * apply list_lookup_insert_ne. intros ->.
        apply (Hi region p r); [now left | assumption..].
      * intros rg q s Hin Hb Hs.
        rewrite (doc_index_length doc) by apply length_insert.
        apply (Hi rg q s); [now right | assumption..].
Qed.

(** X12.  The pass neither adds nor removes a page, and a page that no
    region with a valid box points at comes out as it went in. *)
Theorem overlay_keeps_other_pages (doc doc' : list page) (regions : list value) :
  highlight_suspicious_fonts add_highlight_annot (Ret doc) (VList regions)
  = Ret doc' ->
  length doc' = length doc /\
  forall i,
    (forall region p r,
       In region regions -> region_box region p r -> is_valid r = true ->
       doc_index doc (p - 1) <> Ret i) ->
    doc' !! i = doc !! i.
Proof. intros Hh. now apply highlight_regions_inv. Qed.

Lemma highlight_regions_of_chars (n : nat) (regions : list value) :
  (forall pg r, is_empty r = false ->
                exists pg', add_highlight_annot pg r = Ret pg') ->
  Forall (fun region =>
            exists p c,
              region = region_of p c /\ 1 <= p <= n /\
              (is_valid (char_rect c) = true ->
               is_empty (char_rect c) = false)) regions ->
  forall doc : list page,
    length doc = n ->
    exists doc',
      foldM (highlight_region add_highlight_annot) doc regions = Ret doc' /\
      length doc' = n.
Proof.
  intros Hadd Hregions. induction Hregions as [|region regions Hregion _ IH];
    intros doc Hlen; simpl.
  - now exists doc.
  - destruct Hregion as (p & c & -> & Hp & Harea).
    pose proof (region_of_box p c) as Hbox.
    destruct (is_valid (char_rect c)) eqn:Hv.
    + assert (Hlt : Z.to_nat (Z.of_nat p - 1) < length doc) by lia.
      destruct (lookup_lt_is_Some_2 doc _ Hlt) as [pg Hpg].
      rewrite (highlight_region_draw add_highlight_annot doc _ _ _ pg Hbox Hv)
        by (try assumption; lia).
      destruct (Hadd pg (char_rect c) (Harea eq_refl)) as [pg' ->].
      cbn [mbind outcome_bind mret outcome_ret].
      apply IH. now rewrite length_insert.
    + rewrite (highlight_region_skip add_highlight_annot doc _ _ _ Hbox Hv).
      cbn [mbind outcome_bind]. now apply IH.
Qed.

(** X13.  The pass accepts the regions of the font scan as they are when no
    character in an unexpected font has a box that passes [is_valid] and has
    no area: on a copy with at least as many pages as the scan saw, and with
    a highlight call that takes every rectangle with area, it finishes and
    returns a document of the same number of pages. *)
Theorem overlay_accepts_scan_regions (pdf : plumber_pdf) (doc : list page)
    (record suspicious_regions : value) :
  (forall pg r, is_empty r = false ->
                exists pg', add_highlight_annot pg r = Ret pg') ->
  Forall (fun c =>
            whitelisted (char_font c) = false ->
            is_valid (char_rect c) = true -> is_empty (char_rect c) = false)
         (all_chars (pdf_pages pdf)) ->
  length (pdf_pages pdf) <= length doc ->
  parse_pdf_low_level (Ret pdf) = Ret record ->
  field1 record "suspicious_regions" = Some suspicious_regions ->
  exists doc',
    highlight_suspicious_fonts add_highlight_annot (Ret doc) suspicious_regions
    = Ret doc' /\
    length doc' = length doc.
Proof.
  intros Hadd Harea Hpages Hrec Hsr.
  destruct (parse_pdf_low_level_regions pdf) as (record' & fonts & Hrec' & _ & Hr & _).
  rewrite Hrec in Hrec'. injection Hrec' as <-.
  rewrite Hsr in Hr. injection Hr as ->.
  unfold highlight_suspicious_fonts. cbn [mbind outcome_bind iterate mret outcome_ret].
  apply (highlight_regions_of_chars (length doc)); [exact Hadd | | reflexivity].
  apply List.Forall_forall. intros region Hin.
  apply regions_from_In in Hin as (i & pg & c & Hi & Hc & Hw & ->).
  exists (1 + i), c. split; [reflexivity|].
  split; [apply lookup_lt_Some in Hi; lia|].
  rewrite List.Forall_forall in Harea. apply Harea; [|exact Hw].
  apply In_all_chars. exists pg. split; [|exact Hc].
  revert Hi. generalize (pdf_pages pdf). clear.
  induction i as [|i IH]; intros [|pg0 pages] Hi; try discriminate Hi.
  - injection Hi as ->. now left.
  - right. now apply IH.
Qed.
End OverlayInvariants.

Lemma overlay_keeps_other_pages_witness :
  exists doc',
    highlight_suspicious_fonts append_highlight
      (Ret [FitzPage [] []; FitzPage [] []]) (VList [region_of 2 forged_glyph])
    = Ret doc' /\
    doc' !! 0 = Some (FitzPage [] []).
Proof.
  eexists. split; [vm_compute; reflexivity|].
  eapply (overlay_keeps_other_pages append_highlight
            [FitzPage [] []; FitzPage [] []] _ [region_of 2 forged_glyph]).
  - vm_compute. reflexivity.
  - intros region p r [<- | []] [Hp Hb] _. injection Hp as <-.
    vm_compute. discriminate.
Defined.

Lemma overlay_accepts_scan_regions_witness :
  exists doc',
    highlight_suspicious_fonts append_highlight
      (Ret [FitzPage [] []; FitzPage [] []])
      (VList (regions_from 1 (pdf_pages forged_pdf)))
    = Ret doc' /\
    length doc' = 2.
Proof.
  destruct (parse_pdf_low_level_regions forged_pdf)
    as (record & fonts & Hrec & _ & Hr & _).
  apply (overlay_accepts_scan_regions append_highlight forged_pdf
           [FitzPage [] []; FitzPage [] []] record).
  - intros pg r He. unfold append_highlight. rewrite He. eexists. reflexivity.
  - apply List.Forall_forall. intros c Hc _ _.
    assert (Hall : forallb (fun c => negb (is_empty (char_rect c)))
                           (all_chars (pdf_pages forged_pdf)) = true)
      by (vm_compute; reflexivity).
    rewrite forallb_forall in Hall. apply negb_true_iff, Hall, Hc.
  - simpl. lia.
  - exact Hrec.
  - exact Hr.
Defined.

(** ** [analyze_pdf]: what a record holds and what ends a request *)

Section EndpointInvariants.
Context `{Imaging}.
Variable add_highlight_annot : fitz_page -> rect -> outcome fitz_page.

(** X14.  When pdfplumber cannot open the file, the request ends with
    HTTP 500, although the font scan and the statement extractor each turned
    the failure into an error value: the overlay pass is handed [None] for
    the regions. *)
Theorem pdfplumber_failure_ends_request (file : upload) (e : exn) :
  pdfplumber_open file = Raise e ->
  exists e',
    analyze_file add_highlight_annot file = Raise e' /\
    exn_cls e' = HTTPException 500.
Proof.
  intros Hopen.
  destruct (analyze_file add_highlight_annot file) as [record|e'] eqn:Hf.
  - exfalso.
    apply analyze_file_inv in Hf
      as (pdf & me & cd & md & ia & low & sr & doc' & res & pe
          & _ & _ & _ & _ & _ & Hlow & Hsr & Hh & _).
    rewrite Hopen in Hlow. injection Hlow as <-.
    injection Hsr as <-. discriminate Hh.
  - exists e'. split; [reflexivity|].
    eapply analyze_file_raises, Hf.
Qed.

(** X15.  The metadata section of a returned record carries the two dates
    of the document as [format_pdf_date] normalises them, and the producer,
    the creator and the author as the document has them; a date that is no
    timestamp, as the empty string of a document without dates, is carried
    as it is. *)
Theorem record_dates_normalised (file : upload) (record : value)
    (pdf : fitz_document) :
  analyze_file add_highlight_annot file = Ret record ->
  fitz_open file = Ret pdf ->
  exists creation modified creation_date mod_date,
    fitz_metadata pdf !! "creationDate" = Some creation /\
    fitz_metadata pdf !! "modDate" = Some modified /\
    format_pdf_date creation = Ret creation_date /\
    format_pdf_date modified = Ret mod_date /\
    field2 record "metadata" "creation_date" = Some (VStr creation_date) /\
    field2 record "metadata" "modification_date" = Some (VStr mod_date) /\
    (String.length creation < 9 -> startswith creation "D:" = false ->
     creation_date = creation) /\
    (forall k s, In k ["producer"; "creator"; "author"] ->
                 fitz_metadata pdf !! k = Some s ->
                 field2 record "metadata" k = Some (VStr s)).
Proof.
  intros Hf Hopen.
  apply analyze_file_inv in Hf
    as (pdf' & me & cd & md & ia & low & sr & doc' & res & pe & Hrest).
  destruct Hrest as (Hopen' & _ & Hcd & Hmd & _ & _ & _ & _ & _ & _ & ->).
  rewrite Hopen in Hopen'. injection Hopen' as <-.
  destruct (fitz_metadata pdf !! "creationDate") as [c|] eqn:Ec;
    [|discriminate Hcd].
  destruct (fitz_metadata pdf !! "modDate") as [m|] eqn:Em;
    [|discriminate Hmd].
  cbn [format_pdf_date_of] in Hcd, Hmd.
  exists c, m, cd, md. do 6 (split; [first [assumption | reflexivity]|]).
  split.
  - intros Hlen Hpre.
    rewrite (format_pdf_date_unprefixed c Hpre), slice_to_short in Hcd by lia.
    destruct (strptime c) as [d|e] eqn:E; [|now injection Hcd as <-].
    apply strptime_min_length in E. lia.
  - intros k s Hk Hs. cbn in Hk.
    destruct Hk as [<- | [<- | [<- | []]]]; cbn; now rewrite Hs.
Qed.

(** X16.  A returned batch mirrors the files in their order: each record
    names its file, names the annotated copy by the prefix ["analyzed_"],
    and has the five sections of a record. *)
Theorem records_mirror_files (files : list upload) (records : list value) :
  analyze_pdf add_highlight_annot files = Ret records ->
  Forall2 (fun file record =>
             field2 record "metadata" "file_name"
               = Some (VStr (filename file)) /\
             field2 record "metadata" "analysed_file_name"
               = Some (VStr ("analyzed_" +:+ filename file)) /\
             exists kvs,
               record = VDict kvs /\
               dict_keys kvs
               = ["metadata"; "low_level_analysis"; "analysis_editions";
                  "bank_result"; "image_analysis"])
          files records.
Proof.
  intros Hr. apply analyze_pdf_records in Hr.
  induction Hr as [|file record files records [_ Hf] _ IH]; constructor;
    [|exact IH].
  apply analyze_file_inv in Hf
    as (pdf & me & cd & md & ia & low & sr & doc' & res & pe & Hrest).
  destruct Hrest as (_ & _ & _ & _ & _ & _ & _ & _ & _ & _ & ->).
  split; [reflexivity|]. split; [reflexivity|]. eexists. split; reflexivity.
Qed.

Lemma analyze_page_images_spec (images : list (outcome (list byte))) :
  forall page_num img_index acc ia,
    analyze_page_images page_num img_index images acc = Ret ia ->
    ia = acc ++ page_entries page_num img_index images /\
    forall e, ~ In (Raise e) images.
Proof.
  induction images as [|extract images IH]; intros n i acc ia Hia; simpl in Hia.
  - injection Hia as <-. split; [now rewrite app_nil_r | easy].
  - destruct extract as [data|e0]; [|discriminate Hia].
    cbn [mbind outcome_bind] in Hia. apply IH in Hia as [-> Hno].
    split; [now rewrite <- app_assoc|].
    intros e [Habs | Hin]; [discriminate Habs | now apply (Hno e)].
Qed.

Lemma analyze_doc_images_spec (pages : list fitz_page) :
  forall page_num acc ia,
    analyze_doc_images page_num pages acc = Ret ia ->
    ia = acc ++ doc_entries page_num pages /\ ~ failed_extraction pages.
Proof.
  induction pages as [|page pages IH]; intros n acc ia Hia; simpl in Hia.
  - injection Hia as <-. split; [now rewrite app_nil_r|].
    now intros (page & e & [] & _).
  - bind_inv Hia. apply analyze_page_images_spec in E as [-> Hno].
    apply IH in Hia as [-> Hrest]. split; [now rewrite <- app_assoc|].
    intros (pg & e & [<- | Hin] & He); [now apply (Hno e)|].
    apply Hrest. now exists pg, e.
Qed.

(** X17.  In a returned record [image_analysis] has one entry per embedded
    image, in page order and image order, with the page counted from 1 and
    the image from 0 within its page; each analysis is the error value of
    [analyze_image]. *)
Theorem image_analysis_entries (file : upload) (record : value)
    (pdf : fitz_document) :
  analyze_file add_highlight_annot file = Ret record ->
  fitz_open file = Ret pdf ->
  field1 record "image_analysis"
  = Some (VList (doc_entries 0 (fitz_pages pdf))) /\
  length (doc_entries 0 (fitz_pages pdf))
  = length (concat (page_images <$> fitz_pages pdf)).
Proof.
  intros Hf Hopen.
  apply analyze_file_inv in Hf
    as (pdf' & me & cd & md & ia & low & sr & doc' & res & pe & Hrest).
  destruct Hrest as (Hopen' & _ & _ & _ & Hia & _ & _ & _ & _ & _ & ->).
  rewrite Hopen in Hopen'. injection Hopen' as <-.
  apply analyze_doc_images_spec in Hia as [-> _]. split; [reflexivity|].
  generalize 0 at 1. induction (fitz_pages pdf) as [|page pages IH]; intros n;
    [reflexivity|].
  cbn [doc_entries fmap list_fmap concat]. rewrite !length_app, IH. f_equal.
  generalize 0. induction (page_images page) as [|x xs IHx]; intros k;
    [reflexivity|].
  simpl. now rewrite IHx.
Qed.

(** X18.  Extraction of an image is not guarded: when extracting any
    embedded image raises, the request ends with HTTP 500. *)
Theorem failed_extraction_ends_request (file : upload) (pdf : fitz_document) :
  fitz_open file = Ret pdf ->
  failed_extraction (fitz_pages pdf) ->
  exists e',
    analyze_file add_highlight_annot file = Raise e' /\
    exn_cls e' = HTTPException 500.
Proof.
  intros Hopen Hfail.
  destruct (analyze_file add_highlight_annot file) as [record|e'] eqn:Hf.
  - exfalso.
    apply analyze_file_inv in Hf
      as (pdf' & me & cd & md & ia & low & sr & doc' & res & pe & Hrest).
    destruct Hrest as (Hopen' & _ & _ & _ & Hia & _).
    rewrite Hopen in Hopen'. injection Hopen' as <-.
    now apply analyze_doc_images_spec in Hia as [_ Hno].
  - exists e'. split; [reflexivity|]. eapply analyze_file_raises, Hf.
Qed.
(** X19.  A record is returned only when both libraries opened the file,
    and it carries what the detectors returned: the font scan and the
    statement extraction as they are, the two metadata flags as
    [extract_metadata] computed them, and the flag of the low level analysis
    as the scan's [suspicious_objects]. *)
Theorem record_carries_detectors (file : upload) (record : value) :
  analyze_file add_highlight_annot file = Ret record ->
  exists pdf plumber metadata_extracted low_level_analysis result,
    fitz_open file = Ret pdf /\
    pdfplumber_open file = Ret plumber /\
    extract_metadata (fitz_metadata pdf) = Ret metadata_extracted /\
    parse_pdf_low_level (Ret plumber) = Ret low_level_analysis /\
    extract_bank_statement (Ret plumber) = Ret result /\
    field1 record "low_level_analysis" = Some low_level_analysis /\
    field1 record "bank_result" = Some result /\
    field2 record "analysis_editions" "edited_by_dates"
    = field2 metadata_extracted "analysis_editions" "edited_by_dates" /\
    field2 record "analysis_editions" "edited_by_software"
    = field2 metadata_extracted "analysis_editions" "edited_by_software" /\
    field2 record "analysis_editions" "low_level_analysis_summary"
    = field1 low_level_analysis "suspicious_objects".
Proof.
  intros Hf.
  apply analyze_file_inv in Hf
    as (pdf & me & cd & md & ia & low & sr & doc' & res & pe
        & Hopen & Hme & _ & _ & Hia & Hlow & Hsr & Hh & Hres & Hpe & ->).
  destruct (pdfplumber_open file) as [plumber|e] eqn:Hplumber.
  2:{ exfalso. injection Hlow as <-. injection Hsr as <-. discriminate Hh. }
  exists pdf, plumber, me, low, res.
  repeat (split; [first [assumption | reflexivity]|]).
  pose proof (analyze_doc_images_entries _ _ _ _
                (List.Forall_nil error_entry) Hia) as Hent.
  unfold possible_edits_of in Hpe.
  rewrite (py_any_error_entries ia Hent) in Hpe.
  injection Hme as <-.
  unfold parse_pdf_low_level in Hlow. cbn [try_except mbind outcome_bind] in Hlow.
  destruct (scan_pages 1 (pdf_pages plumber) (∅, [])) as [fonts regions].
  injection Hlow as <-.
  cbn [mbind outcome_bind mret outcome_ret value_item value_get dict_get
       String.eqb Ascii.eqb Bool.eqb from_option id truthy] in Hpe.
  repeat match type of Hpe with
         | context [if ?b then _ else _] => destruct b
         end;
    cbn [mbind outcome_bind mret outcome_ret] in Hpe;
    injection Hpe as <-; repeat split; reflexivity.
Qed.

(** X20.  The verdict of a returned batch is constant: whatever the
    documents, every record has the summary of a possible edit and reports no
    image manipulation, the comparison of fonts reading a key the scan never
    writes and every image analysis being an error value. *)
Theorem verdict_is_constant (files : list upload) (records : list value) :
  analyze_pdf add_highlight_annot files = Ret records ->
  length records = length files /\
  forall record, In record records ->
    field2 record "analysis_editions" "summary"
    = Some (VStr "Possible edit detected") /\
    field2 record "analysis_editions" "image_analysis_summary"
    = Some (VBool false).
Proof.
  intros Hr. apply analyze_pdf_records in Hr.
  induction Hr as [|file record files records [_ Hf] _ [IHl IH]].
  - split; [reflexivity | easy].
  - split; [simpl; now rewrite IHl|].
    intros r [<- | Hin]; [|now apply IH].
    now apply analyze_file_record in Hf.
Qed.
End EndpointInvariants.

(** An upload pdfplumber cannot open. *)
Lemma pdfplumber_failure_ends_request_witness :
  exists e',
    analyze_file (H := plain_imaging) append_highlight unparsed_upload
    = Raise e' /\
    exn_cls e' = HTTPException 500.
Proof.
  exact (pdfplumber_failure_ends_request (H := plain_imaging) append_highlight
           unparsed_upload _ eq_refl).
Defined.

(** A document without dates gets a record with empty dates. *)
Lemma record_dates_normalised_witness :
  exists record,
    analyze_file (H := plain_imaging) append_highlight undated_upload
    = Ret record /\
    field2 record "metadata" "creation_date" = Some (VStr "") /\
    field2 record "metadata" "producer" = Some (VStr "pdf-lib").
Proof.
  assert (Hf : exists record,
             analyze_file (H := plain_imaging) append_highlight undated_upload
             = Ret record)
    by (eexists; vm_compute; reflexivity).
  destruct Hf as [record Hf]. exists record. split; [exact Hf|].
  destruct (record_dates_normalised (H := plain_imaging) append_highlight
              undated_upload record _ Hf eq_refl)
    as (c & m & cd & md & Hc & _ & _ & _ & Hcd & _ & Hshort & Hraw).
  assert (Ec : c = "") by (vm_compute in Hc; now injection Hc as <-).
  subst c. rewrite Hcd, Hshort by (simpl; first [lia | reflexivity]).
  split; [reflexivity|]. apply Hraw; [now left|].
  vm_compute. reflexivity.
Defined.

(** A batch of two statements. *)
Lemma records_mirror_files_witness :
  exists r1 r2,
    analyze_pdf (H := plain_imaging) append_highlight
      [clean_upload; image_upload] = Ret [r1; r2] /\
    field2 r1 "metadata" "file_name" = Some (VStr "statement.pdf") /\
    field2 r2 "metadata" "analysed_file_name"
    = Some (VStr "analyzed_scan.pdf").
Proof.
  assert (Hr : exists r1 r2,
             analyze_pdf (H := plain_imaging) append_highlight
               [clean_upload; image_upload] = Ret [r1; r2])
    by (eexists _, _; vm_compute; reflexivity).
  destruct Hr as (r1 & r2 & Hr). exists r1, r2. split; [exact Hr|].
  pose proof (records_mirror_files (H := plain_imaging) append_highlight
                [clean_upload; image_upload] _ Hr) as Hm.
  apply Forall2_cons_1 in Hm as [(H1 & _) Hm].
  apply Forall2_cons_1 in Hm as [(_ & H2 & _) _].
  split; [exact H1 | exact H2].
Defined.

(** Two pages with two images and one image. *)
Lemma image_analysis_entries_witness :
  exists record,
    analyze_file (H := plain_imaging) append_highlight three_images_upload
    = Ret record /\
    field1 record "image_analysis"
    = Some (VList
        [ VDict [("page", VInt 1); ("image_index", VInt 0);
                 ("analysis", ela_error)];
          VDict [("page", VInt 1); ("image_index", VInt 1);
                 ("analysis", ela_error)];
          VDict [("page", VInt 2); ("image_index", VInt 0);
                 ("analysis", ela_error)] ]).
Proof.
  assert (Hf : exists record,
             analyze_file (H := plain_imaging) append_highlight
               three_images_upload = Ret record)
    by (eexists; vm_compute; reflexivity).
  destruct Hf as [record Hf]. exists record. split; [exact Hf|].
  apply (image_analysis_entries (H := plain_imaging) append_highlight
           three_images_upload record three_images Hf eq_refl).
Defined.

(** A page whose second image cannot be extracted. *)
Lemma failed_extraction_ends_request_witness :
  exists e',
    analyze_file (H := plain_imaging) append_highlight bad_image_upload
    = Raise e' /\
    exn_cls e' = HTTPException 500.
Proof.
  eapply (failed_extraction_ends_request (H := plain_imaging) append_highlight
            bad_image_upload); [reflexivity|].
  eexists _, (Exn ValueError "bad xref"). split; [left; reflexivity|].
  right. left. reflexivity.
Defined.

(** The record of a statement in the expected fonts. *)
Lemma record_carries_detectors_witness :
  exists record low,
    analyze_file (H := plain_imaging) append_highlight clean_upload
    = Ret record /\
    field1 record "low_level_analysis" = Some low /\
    field2 record "analysis_editions" "low_level_analysis_summary"
    = field1 low "suspicious_objects".
Proof.
  assert (Hf : exists record,
             analyze_file (H := plain_imaging) append_highlight clean_upload
             = Ret record)
    by (eexists; vm_compute; reflexivity).
  destruct Hf as [record Hf].
  destruct (record_carries_detectors (H := plain_imaging) append_highlight
              clean_upload record Hf)
    as (pdf & plumber & me & low & res & _ & _ & _ & _ & _ & Hlow & _ & _ & _
        & Hsum).
  exists record, low. split; [exact Hf|].
  split; [exact Hlow | exact Hsum].
Defined.

(** A batch of a statement and a scan. *)
Lemma verdict_is_constant_witness :
  exists records,
    analyze_pdf (H := plain_imaging) append_highlight
      [clean_upload; image_upload] = Ret records /\
    length records = 2.
Proof.
  assert (Hr : exists records,
             analyze_pdf (H := plain_imaging) append_highlight
               [clean_upload; image_upload] = Ret records)
    by (eexists; vm_compute; reflexivity).
  destruct Hr as [records Hr]. exists records. split; [exact Hr|].
  apply (verdict_is_constant (H := plain_imaging) append_highlight
           [clean_upload; image_upload] records Hr).
Defined.

(** ** The statement extractor: what is found and in which shape *)

Lemma lstrip_Forall (P : ascii -> Prop) (l : list ascii) :
  Forall P l -> Forall P (lstrip l).
Proof.
  induction 1 as [|a l Ha Hl IH]; simpl; [constructor|].
  destruct (is_space a); [exact IH | now constructor].
Qed.

Lemma lstrip_head (l : list ascii) (a : ascii) :
  head (lstrip l) = Some a -> is_space a = false.
Proof.
  induction l as [|b l IH]; simpl; [discriminate|].
  destruct (is_space b) eqn:E; [exact IH | now intros [= <-]].
Qed.

Lemma lstrip_suffix (l : list ascii) : exists pre, l = pre ++ lstrip l.
Proof.
  induction l as [|b l [pre IH]]; simpl; [now exists []|].
  destruct (is_space b); [|now exists []].
  exists (b :: pre). simpl. now rewrite <- IH.
Qed.

Lemma last_rev {A} (l : list A) : last (rev l) = head l.
Proof. destruct l as [|a l]; [reflexivity|]. simpl. apply last_snoc. Qed.

Lemma head_rev {A} (l : list A) : head (rev l) = last l.
Proof. rewrite <- (rev_involutive l) at 2. now rewrite last_rev. Qed.

Lemma last_suffix {A} (pre l : list A) (a : A) :
  last l = Some a -> last (pre ++ l) = Some a.
Proof.
  intros Hl. destruct l as [|b l] using rev_ind; [discriminate|].
  rewrite last_snoc in Hl. injection Hl as ->.
  now rewrite app_assoc, last_snoc.
Qed.

(** What [str.strip] returns has no white space at either end, and keeps
    every property of all the characters. *)
Lemma strip_trimmed (s : string) : trimmed (chars (strip s)).
Proof.
  unfold strip. rewrite chars_unchars. split; intros a Ha.
  - rewrite head_rev in Ha.
    destruct (lstrip_suffix (rev (lstrip (chars s)))) as [pre E].
    pose proof (last_suffix pre _ _ Ha) as Hl.
    rewrite <- E, last_rev in Hl. now apply lstrip_head in Hl.
  - rewrite last_rev in Ha. now apply lstrip_head in Ha.
Qed.

Lemma strip_Forall (P : ascii -> Prop) (w : list ascii) :
  Forall P w -> Forall P (chars (strip (unchars w))).
Proof.
  intros Hw. unfold strip. rewrite !chars_unchars.
  apply List.Forall_rev, lstrip_Forall, List.Forall_rev, lstrip_Forall, Hw.
Qed.

Lemma captured_account_class :
  captured default_account 1 (Forall (fun a => cls_digit_space a = true)).
Proof.
  unfold default_account. repeat apply captured_cat_r. apply captured_group.
  intros w [w1 [w2 [-> [[a [-> Ha]] H2]]]]. now constructor.
Qed.

Lemma captured_name_class :
  captured default_name 1 (Forall (fun a => cls_upper_space a = true)).
Proof.
  unfold default_name. apply captured_cat_r.
  apply captured_cat_l; [|reflexivity]. apply captured_group.
  intros w [w1 [w2 [-> [[a [-> Ha]] H2]]]]. now constructor.
Qed.

(** The matcher finds every word of a pattern without anchors. *)
Lemma run_star_complete (greedy : bool) (p : charset) (g : captures)
    (w t : list ascii) :
  Forall (fun a => p a = true) w ->
  forall pv, exists pv',
    In (Cursor pv' t, g) (run (Star greedy p) (Cursor pv (w ++ t)) g).
Proof.
  induction 1 as [|a w Ha Hw IH]; intros pv; simpl.
  - exists pv. destruct t as [|b t]; [now left|].
    destruct (p b); [|now left].
    destruct greedy; [apply in_or_app; right |]; now left.
  - rewrite Ha. destruct (IH (Some a)) as [pv' Hin]. exists pv'.
    destruct greedy; [apply in_or_app; left | right]; exact Hin.
Qed.

Lemma run_complete (r : regex) :
  anchor_free r = true ->
  forall w t pv g,
    lang r w ->
    exists pv' g', In (Cursor pv' t, g') (run r (Cursor pv (w ++ t)) g).
Proof.
  induction r as [|p|r1 IH1 r2 IH2|r1 IH1 r2 IH2|greedy p|i r1 IH1| |];
    simpl; intros Hf w t pv g Hw; try discriminate Hf.
  - subst w. exists pv, g. now left.
  - destruct Hw as [a [-> Ha]]. simpl. rewrite Ha. exists (Some a), g. now left.
  - apply andb_true_iff in Hf as [Hf1 Hf2].
    destruct Hw as [w1 [w2 [-> [H1 H2]]]].
    destruct (IH1 Hf1 w1 (w2 ++ t) pv g H1) as [pv1 [g1 Hin1]].
    destruct (IH2 Hf2 w2 t pv1 g1 H2) as [pv2 [g2 Hin2]].
    exists pv2, g2. rewrite <- app_assoc. apply in_flat_map.
    now exists (Cursor pv1 (w2 ++ t), g1).
  - apply andb_true_iff in Hf as [Hf1 Hf2].
    destruct Hw as [Hw | Hw].
    + destruct (IH1 Hf1 w t pv g Hw) as [pv' [g' Hin]].
      exists pv', g'. apply in_or_app. now left.
    + destruct (IH2 Hf2 w t pv g Hw) as [pv' [g' Hin]].
      exists pv', g'. apply in_or_app. now right.
  - destruct (run_star_complete greedy p g w t Hw pv) as [pv' Hin].
    now exists pv', g.
  - destruct (IH1 Hf w t pv g Hw) as [pv' [g' Hin]].
    eexists pv', _. apply in_map_iff. eexists (_, _). split; [|exact Hin].
    reflexivity.
Qed.

Lemma search_from_complete (r : regex) (post : list ascii) :
  (forall pv, run r (Cursor pv post) [] <> []) ->
  forall pre pv, exists m, search_from r pv (pre ++ post) = Some m.
Proof.
  intros Hpost. induction pre as [|a pre IH]; intros pv.
  - simpl. specialize (Hpost pv).
    destruct post as [|b post]; simpl;
      destruct (run r _ []) as [|m l]; try easy; simpl; eauto.
  - simpl. destruct (run r (Cursor pv (a :: pre ++ post)) []) as [|m l]; simpl;
      [apply IH | eauto].
Qed.

Lemma re_search_complete (r : regex) (text : string) (pre w post : list ascii) :
  anchor_free r = true -> lang r w -> chars text = pre ++ w ++ post ->
  exists m, re_search r text = Some m.
Proof.
  intros Hf Hw E. unfold re_search. rewrite E.
  apply search_from_complete. intros pv Hnil.
  destruct (run_complete r Hf w post pv [] Hw) as [pv' [g' Hin]].
  rewrite Hnil in Hin. exact Hin.
Qed.

Lemma lang_lit_refl (s : string) : lang (lit s) (chars s).
Proof.
  unfold lit. induction (chars s) as [|a l IH]; simpl; [reflexivity|].
  exists [a], l. split; [reflexivity|]. split; [|exact IH].
  exists a. split; [reflexivity | apply Ascii.eqb_refl].
Qed.

Lemma account_match_follows (text : string) (m : match_obj) :
  re_search default_account text = Some m -> number_follows text.
Proof.
  intros Hs. apply re_search_inv in Hs as [pre [post [pv' [E Hin]]]].
  destruct m as [c' g']. apply run_sound in Hin as [w [Hw Ew]]. simpl in Ew.
  destruct Hw as [w1 [w2 [-> [H1 [w3 [w4 [-> [H3 [w5 [w6 [-> [H5 H6]]]]]]]]]]]].
  apply lang_lit in H1 as ->.
  destruct H6 as [u1 [u2 [-> [[a [-> Ha]] _]]]].
  assert (Hnext : exists b t, cls_digit_space b = true /\
                              w5 ++ ([a] ++ u2) ++ rest c' = b :: t).
  { destruct H5 as [|b w5 Hb _]; [now exists a, (u2 ++ rest c')|].
    exists b, (w5 ++ ([a] ++ u2) ++ rest c'). split; [|reflexivity].
    unfold cls_digit_space. unfold cls_space in Hb. rewrite Hb.
    apply orb_true_r. }
  destruct Hnext as [b [t [Hb Et]]].
  assert (Ht : forall alt : string,
             w3 = chars alt ->
             occurs (("Account " +:+ alt) +:+ String b "") text).
  { intros alt ->. apply occurs_chars. exists pre, t.
    rewrite E, Ew, !chars_app, <- !app_assoc. do 3 f_equal.
    change (chars (String b "") ++ t) with (b :: t).
    rewrite <- Et, <- !app_assoc. reflexivity. }
  destruct H3 as [H3 | H3]; apply lang_lit in H3.
  - exists "Account number:", b. split; [now left|]. split; [exact Hb|].
    exact (Ht "number:" H3).
  - exists "Account #", b. split; [now right|]. split; [exact Hb|].
    exact (Ht "#" H3).
Qed.

Lemma account_follows_match (text : string) :
  number_follows text -> exists m, re_search default_account text = Some m.
Proof.
  intros (anchor & a & Hanchor & Ha & Ho).
  apply occurs_chars in Ho as (pre & post & E).
  rewrite chars_app in E. simpl (chars (String a "")) in E.
  assert (Hw : exists alt, (alt = "number:" \/ alt = "#") /\
                           chars anchor = chars "Account " ++ chars alt).
  { destruct Hanchor as [-> | ->]; eexists; (split; [|reflexivity]); auto. }
  destruct Hw as (alt & Halt & Ealt).
  apply (re_search_complete default_account text pre
           (chars "Account " ++ chars alt ++ [] ++ [a]) post);
    [reflexivity | | rewrite E, Ealt, <- !app_assoc; reflexivity].
  unfold default_account.
  eexists _, _. split; [reflexivity|]. split; [apply lang_lit_refl|].
  eexists _, _. split; [reflexivity|]. split.
  { destruct Halt as [-> | ->]; [left | right]; apply lang_lit_refl. }
  eexists _, _. split; [reflexivity|]. split; [constructor|].
  simpl. exists [a], []. split; [reflexivity|]. split; [|constructor].
  exists a. now split.
Qed.

(** X21.  The account number, when it is not None, has only digits and
    white space, begins and ends with no white space, and can be the empty
    string: the class of the group admits white space alone, which [strip]
    then removes. *)
Theorem account_number_shape (full_text : string) :
  (exists v,
     extract_account_number full_text = Ret v /\
     (v = VNone \/
      exists s, v = VStr s /\
                Forall (fun a => is_digit a = true \/ is_space a = true)
                       (chars s) /\
                trimmed (chars s))) /\
  extract_account_number ("Account # " +:+ "pending") = Ret (VStr "").
Proof.
  split; [|vm_compute; reflexivity].
  unfold extract_account_number.
  destruct (re_search default_account full_text) as [m|] eqn:Hs.
  - destruct (group_str_captured _ _ _ _ _ captured_account_class Hs)
      as [w [-> Hw]].
    cbn [mbind outcome_bind mret outcome_ret]. eexists. split; [reflexivity|].
    right. eexists. split; [reflexivity|]. split; [|apply strip_trimmed].
    apply strip_Forall. eapply Forall_impl; [exact Hw|].
    intros a Ha. now apply orb_true_iff in Ha.
  - exists VNone. split; [reflexivity | now left].
Qed.

(** X22.  The account number is None exactly when neither phrase occurs
    with a digit or a white space character right after it; otherwise it is
    a string. *)
Theorem account_number_found_iff (full_text : string) :
  (extract_account_number full_text = Ret VNone <->
   ~ number_follows full_text) /\
  (number_follows full_text ->
   exists s, extract_account_number full_text = Ret (VStr s)).
Proof.
  destruct (extract_account_number_spec full_text) as [v [Hv [Hnone Hsome]]].
  split; [split|].
  - intros Hn Hf. apply account_follows_match in Hf as [m Hm].
    destruct (Hsome m Hm) as [s ->]. rewrite Hv in Hn. discriminate Hn.
  - intros Hf. rewrite Hv. f_equal. apply Hnone.
    destruct (re_search default_account full_text) as [m|] eqn:Hs; [|easy].
    exfalso. apply Hf. eapply account_match_follows, Hs.
  - intros Hf. apply account_follows_match in Hf as [m Hm].
    destruct (Hsome m Hm) as [s ->]. now exists s.
Qed.

(** The record of [structure_extract_in_json], part by part. *)
Lemma structure_extract_in_json_parts (full_text : string) :
  exists holder acct ib dep cw ow sf fb td tc to txs,
    structure_extract_in_json full_text =
      Ret (VDict
        [ ("account_holder", holder);
          ("account_summary", VDict
             [ ("account_number", acct);
               ("initial_balance", VFloat ib);
               ("deposits_additions", VFloat dep);
               ("card_withdrawals", VFloat cw);
               ("other_withdrawals", VFloat ow);
               ("service_fees", VFloat sf);
               ("final_balance", VFloat fb) ]);
          ("total_transactions", VDict
             [ ("total_deposits_additions", VFloat td);
               ("total_card_withdrawals", VFloat tc);
               ("total_other_withdrawals", VFloat to) ]);
          ("transactions", VList txs) ]) /\
    match re_search default_name full_text with
    | Some m => s ← group_str m 1; mret (VStr (strip s))
    | None => mret (VStr "Name not found")
    end = Ret holder /\
    find_value pat_initial_balance full_text false = Ret (VFloat ib) /\
    find_value pat_deposits_additions full_text false = Ret (VFloat dep) /\
    find_value pat_final_balance full_text false = Ret (VFloat fb) /\
    find_value pat_total_deposits full_text false = Ret (VFloat td) /\
    find_value pat_total_card full_text true = Ret (VFloat tc) /\
    find_value pat_total_other full_text true = Ret (VFloat to) /\
    mapM transaction_of (groups2 <$> re_findall default_transaction full_text)
    = Ret txs.
Proof.
  unfold structure_extract_in_json.
  destruct (account_holder_spec full_text) as [holder [Hh _]].
  destruct (extract_account_number_spec full_text) as [acct [Ha _]].
  destruct (find_value_spec _ full_text false captured_initial_balance)
    as [ib [Hib _]].
  destruct (find_value_spec _ full_text false captured_deposits_additions)
    as [dep [Hdep _]].
  destruct (find_value_spec _ full_text true captured_card_withdrawals)
    as [cw [Hcw _]].
  destruct (find_value_spec _ full_text true captured_other_subtractions)
    as [a [Hoa _]].
  destruct (find_value_spec _ full_text true captured_withdrawals_debits)
    as [b [Hob _]].
  destruct (find_value_spec _ full_text true captured_service_fees)
    as [sf [Hsf _]].
  destruct (find_value_spec _ full_text false captured_final_balance)
    as [fb [Hfb _]].
  destruct (find_value_spec _ full_text false captured_total_deposits)
    as [td [Htd _]].
  destruct (find_value_spec _ full_text true captured_total_card)
    as [tc [Htc _]].
  destruct (find_value_spec _ full_text true captured_total_other)
    as [to [Hto _]].
  destruct (mapM_ret transaction_of
              (groups2 <$> re_findall default_transaction full_text)
              (transaction_of_ret full_text)) as [txs Htx].
  rewrite Hh, Ha, Hib, Hdep, Hcw, Hoa. cbn [mbind outcome_bind].
  exists holder, acct, ib, dep, cw, (if truthy (VFloat a) then a else b),
         sf, fb, td, tc, to, txs.
  destruct (truthy (VFloat a)) eqn:Ta; cbn [mbind outcome_bind mret outcome_ret];
    rewrite ?Hob, Hsf, Hfb, Htd, Htc, Hto; cbn [mbind outcome_bind];
    rewrite Htx; cbn [mbind outcome_bind mret outcome_ret];
    repeat split; reflexivity.
Qed.

(** X23.  The account holder is "Name not found" or a string of the letters
    A-Z and white space with no white space at either end.  The group admits
    line breaks, so the holder can span the upper-case lines above
    "Account summary", not only the one before it. *)
Theorem account_holder_shape (full_text : string) :
  (exists record s,
     structure_extract_in_json full_text = Ret record /\
     field1 record "account_holder" = Some (VStr s) /\
     (re_search default_name full_text = None -> s = "Name not found") /\
     (s = "Name not found" \/
      Forall (fun a => cls_upper_space a = true) (chars s) /\
      trimmed (chars s))) /\
  (exists record,
     structure_extract_in_json
       ("STATEMENT" +:+ nl +:+ "JOHN DOE" +:+ nl +:+ "Account summary")
     = Ret record /\
     field1 record "account_holder"
     = Some (VStr ("STATEMENT" +:+ nl +:+ "JOHN DOE"))).
Proof.
  split; [|eexists; split; vm_compute; reflexivity].
  destruct (structure_extract_in_json_parts full_text)
    as (holder & acct & ib & dep & cw & ow & sf & fb & td & tc & to & txs
        & -> & Hh & _).
  destruct (re_search default_name full_text) as [m|] eqn:Hs.
  - destruct (group_str_captured _ _ _ _ _ captured_name_class Hs)
      as [w [Hg Hw]].
    rewrite Hg in Hh. injection Hh as <-.
    eexists _, _. split; [reflexivity|]. split; [reflexivity|].
    split; [discriminate|]. right.
    split; [now apply strip_Forall | apply strip_trimmed].
  - injection Hh as <-.
    eexists _, _. split; [reflexivity|]. split; [reflexivity|].
    split; [reflexivity | now left].
Qed.

Lemma find_value_nonneg (pat : regex) (text : string) (v : Q) :
  captured pat 1 amount_word ->
  find_value pat text false = Ret (VFloat v) ->
  (0 <= v)%Q.
Proof.
  intros Hc Hv. unfold find_value in Hv.
  destruct (re_search pat text) as [m|] eqn:Hs.
  - destruct (group_str_captured _ _ _ _ _ Hc Hs) as [w [Hg [q [Hq Hpos]]]].
    rewrite Hg in Hv. cbn [mbind outcome_bind] in Hv. rewrite Hq in Hv.
    now injection Hv as <-.
  - injection Hv as <-. apply Qle_refl.
Qed.

(** X24.  The figures read without a sign are never negative: the two
    balances, the deposits and the total of the deposits. *)
Theorem credit_figures_never_negative (full_text : string) :
  exists record ib dep fb td,
    structure_extract_in_json full_text = Ret record /\
    field2 record "account_summary" "initial_balance" = Some (VFloat ib) /\
    field2 record "account_summary" "deposits_additions" = Some (VFloat dep) /\
    field2 record "account_summary" "final_balance" = Some (VFloat fb) /\
    field2 record "total_transactions" "total_deposits_additions"
    = Some (VFloat td) /\
    (0 <= ib)%Q /\ (0 <= dep)%Q /\ (0 <= fb)%Q /\ (0 <= td)%Q.
Proof.
  destruct (structure_extract_in_json_parts full_text)
    as (holder & acct & ib & dep & cw & ow & sf & fb & td & tc & to & txs
        & -> & _ & Hib & Hdep & Hfb & Htd & _).
  eexists _, ib, dep, fb, td. split; [reflexivity|].
  do 4 (split; [reflexivity|]).
  split; [exact (find_value_nonneg _ _ _ captured_initial_balance Hib)|].
  split; [exact (find_value_nonneg _ _ _ captured_deposits_additions Hdep)|].
  split; [exact (find_value_nonneg _ _ _ captured_final_balance Hfb)|].
  exact (find_value_nonneg _ _ _ captured_total_deposits Htd).
Qed.

(** X25.  The three totals are always there as numbers: each is 0.00 when
    its phrase does not occur in the text, the total of the deposits is the
    amount read, and the two totals of withdrawals are the opposite of the
    amount read, hence never positive. *)
Theorem totals_default_and_sign (full_text : string) :
  exists record td tc to,
    structure_extract_in_json full_text = Ret record /\
    field2 record "total_transactions" "total_deposits_additions"
    = Some (VFloat td) /\
    field2 record "total_transactions" "total_card_withdrawals"
    = Some (VFloat tc) /\
    field2 record "total_transactions" "total_other_withdrawals"
    = Some (VFloat to) /\
    (~ occurs "Total deposits and other additions" full_text ->
     ~ occurs "Total deposits and other credits" full_text -> td = 0%Q) /\
    (~ occurs "Total ATM and debit card subtractions" full_text ->
     tc = 0%Q) /\
    (~ occurs "Total other subtractions" full_text ->
     ~ occurs "Total withdrawals and other debits" full_text -> to = 0%Q) /\
    (forall q, magnitude pat_total_deposits full_text q -> td = q) /\
    (forall q, magnitude pat_total_card full_text q -> tc = Qopp q) /\
    (forall q, magnitude pat_total_other full_text q -> to = Qopp q) /\
    (tc <= 0)%Q /\ (to <= 0)%Q.
Proof.
  destruct (structure_extract_in_json_parts full_text)
    as (holder & acct & ib & dep & cw & ow & sf & fb & td & tc & to & txs
        & -> & _ & _ & _ & _ & Htd & Htc & Hto & _).
  destruct (find_value_props _ _ _ _ captured_total_deposits Htd)
    as (Ztd & Mtd & _).
  destruct (find_value_props _ _ _ _ captured_total_card Htc)
    as (Ztc & Mtc & Ntc).
  destruct (find_value_props _ _ _ _ captured_total_other Hto)
    as (Zto & Mto & Nto).
  eexists _, td, tc, to. split; [reflexivity|].
  do 3 (split; [reflexivity|]).
  split. { intros H1 H2. apply Ztd. now apply absent_alt_no_match. }
  split. { intros H1. apply Ztc. now apply absent_no_match. }
  split. { intros H1 H2. apply Zto. now apply absent_alt_no_match. }
  split; [exact Mtd|]. split; [exact Mtc|]. split; [exact Mto|].
  split; [now apply Ntc | now apply Nto].
Qed.

Lemma findall_from_suffix (r : regex) (s : list ascii) :
  forall pv skip m,
    In m (findall_from r pv s skip) ->
    exists pre post pv', s = pre ++ post /\ In m (run r (Cursor pv' post) []).
Proof.
  induction s as [|a s IH]; intros pv skip m; simpl.
  - destruct skip; [|easy].
    destruct (run r (Cursor pv []) []) as [|m0 l] eqn:E; simpl; [easy|].
    intros [<- | []]. exists [], [], pv. rewrite E. split; [easy | now left].
  - assert (Hrec : forall pv' k,
               In m (findall_from r pv' s k) ->
               exists pre post pv'',
                 a :: s = pre ++ post /\ In m (run r (Cursor pv'' post) [])).
    { intros pv' k Hin. apply IH in Hin as (pre & post & pv'' & -> & Hin).
      now exists (a :: pre), post, pv''. }
    destruct skip as [|k]; [|apply Hrec].
    destruct (run r (Cursor pv (a :: s)) []) as [|m0 l] eqn:E; simpl.
    + apply Hrec.
    + intros [<- | Hin]; [|now apply Hrec in Hin].
      exists [], (a :: s), pv. rewrite E. split; [easy | now left].
Qed.

Lemma captured_transaction_date_word :
  captured default_transaction 1 date_word.
Proof.
  unfold default_transaction. apply captured_cat_r.
  apply captured_cat_l; [|reflexivity]. apply captured_group.
  intros w (w1 & w2 & -> & H1 & w3 & w4 & -> & H3 & w5 & w6 & -> & H5
            & w7 & w8 & -> & H7 & H8).
  apply lang_lit in H3 as ->. apply lang_lit in H7 as ->.
  destruct H1 as (u1 & u2 & -> & [d1 [-> Hd1]] & [d2 [-> Hd2]]).
  destruct H5 as (u3 & u4 & -> & [d3 [-> Hd3]] & [d4 [-> Hd4]]).
  destruct H8 as (u5 & u6 & -> & [d5 [-> Hd5]] & [d6 [-> Hd6]]).
  exists d1, d2, d3, d4, d5, d6. split; [reflexivity|].
  repeat constructor; assumption.
Qed.

Lemma mapM_Forall2 {A B} (f : A -> outcome B) (l : list A) :
  forall bs, mapM f l = Ret bs -> Forall2 (fun a b => f a = Ret b) l bs.
Proof.
  induction l as [|a l IH]; intros bs Hm; simpl in Hm.
  - injection Hm as <-. constructor.
  - bind_inv Hm. bind_inv Hm. injection Hm as <-.
    constructor; [assumption | now apply IH].
Qed.

Lemma Forall2_Forall_l {A B} (P : A -> Prop) (R S : A -> B -> Prop)
    (l : list A) (k : list B) :
  Forall P l -> Forall2 R l k -> (forall a b, P a -> R a b -> S a b) ->
  Forall2 S l k.
Proof.
  intros HP HR HS. induction HR as [|a b l k Hab HR IH]; constructor.
  - apply HS; [|exact Hab]. now inversion HP.
  - apply IH. now inversion HP.
Qed.

(** X26.  The transactions are the matches of the line pattern in the order
    of the text: one entry per match, whose date is the first group, two
    digits three times between slashes and not checked to be a date, and
    whose value is the number read from the second group.  A text without a
    slash has no transaction. *)
Theorem transactions_follow_matches (full_text : string) :
  exists record txs,
    structure_extract_in_json full_text = Ret record /\
    field1 record "transactions" = Some (VList txs) /\
    Forall2 (fun m tx =>
               exists d v q,
                 group m 1 = Some d /\ group m 2 = Some v /\
                 date_word (chars d) /\
                 py_float (remove_char "," v) = Ret q /\
                 tx = VDict [("date", VStr d); ("value", VFloat q)])
            (re_findall default_transaction full_text) txs /\
    (~ occurs "/" full_text -> txs = []).
Proof.
  destruct (structure_extract_in_json_parts full_text)
    as (holder & acct & ib & dep & cw & ow & sf & fb & td & tc & to & txs
        & -> & _ & _ & _ & _ & _ & _ & _ & Htx).
  eexists _, txs. split; [reflexivity|]. split; [reflexivity|].
  apply mapM_Forall2, Forall2_fmap_l in Htx.
  assert (Hms : Forall (fun m => exists pre post pv',
                          chars full_text = pre ++ post /\
                          In m (run default_transaction (Cursor pv' post) []))
                       (re_findall default_transaction full_text)).
  { apply List.Forall_forall. intros m Hin.
    now apply findall_from_suffix in Hin. }
  split.
  - eapply Forall2_Forall_l; [exact Hms | exact Htx |].
    intros [c' g'] tx (pre & post & pv' & _ & Hin) Htr.
    destruct (captured_transaction_date_word _ _ _ _ Hin) as [w1 [H1 Hd]].
    destruct (captured_transaction_value _ _ _ _ Hin) as [w2 [H2 [q Hq]]].
    exists (unchars w1), (unchars w2), q.
    unfold group. simpl. rewrite H1, H2. do 2 (split; [reflexivity|]).
    rewrite chars_unchars. split; [exact Hd|]. split; [exact Hq|].
    cbn [compose] in Htr. unfold transaction_of, groups2, group in Htr.
    simpl in Htr. rewrite H1, H2 in Htr. simpl in Htr. rewrite Hq in Htr.
    now injection Htr as <-.
  - intros Hno. destruct Hms as [|[c' g'] ms (pre & post & pv' & E & Hin) _].
    + now inversion Htx.
    + exfalso. apply Hno.
      destruct (captured_transaction_date_word _ _ _ _ Hin) as [w1 [_ Hd]].
      apply run_sound in Hin as [w [Hw Ew]]. simpl in Ew.
      destruct Hw as (w0 & w' & -> & -> & u1 & u2 & -> & H1 & _).
      destruct H1 as (x1 & x2 & -> & _ & y1 & y2 & -> & Hy & _).
      apply lang_lit in Hy as ->.
      apply occurs_chars. exists (pre ++ x1), (y2 ++ u2 ++ rest c').
      rewrite E, Ew, <- !app_assoc. reflexivity.
Qed.

Lemma joined_text_cons (page : plumber_page) (pages : list plumber_page) :
  joined_text (page :: pages)
  = default "" (page_text page) +:+ joined_text pages.
Proof.
  unfold joined_text. cbn [fmap list_fmap concat].
  now rewrite unchars_app, unchars_chars.
Qed.

Lemma full_text_joined (pages : list plumber_page) :
  forall acc,
    fold_left (fun acc page => acc +:+ default "" (page_text page)) pages acc
    = acc +:+ joined_text pages.
Proof.
  induction pages as [|page pages IH]; intros acc; simpl.
  - rewrite <- (unchars_chars (acc +:+ joined_text [])), chars_app.
    change (chars (joined_text [])) with (@nil ascii).
    now rewrite app_nil_r, unchars_chars.
  - now rewrite IH, joined_text_cons, append_assoc.
Qed.

(** X27.  [extract_bank_statement] never raises; its result is an error
    value exactly when pdfplumber could not open the file, and otherwise it
    is the record of the page texts put end to end with nothing between
    them, a page without text giving nothing. *)
Theorem statement_of_joined_text (opened : outcome plumber_pdf) :
  exists result,
    extract_bank_statement opened = Ret result /\
    (is_Some (field1 result "error") <-> exists e, opened = Raise e) /\
    (forall pdf, opened = Ret pdf ->
       structure_extract_in_json (joined_text (pdf_pages pdf)) = Ret result).
Proof.
  destruct opened as [pdf|e]; unfold extract_bank_statement;
    cbn [try_except mbind outcome_bind].
  - rewrite (full_text_joined (pdf_pages pdf) "").
    change ("" +:+ joined_text (pdf_pages pdf))
      with (joined_text (pdf_pages pdf)).
    destruct (structure_extract_in_json_parts (joined_text (pdf_pages pdf)))
      as (holder & acct & ib & dep & cw & ow & sf & fb & td & tc & to & txs
          & Hrec & _).
    rewrite Hrec. eexists. split; [reflexivity|]. split.
    + split; [intros [x Hx]; discriminate Hx | intros [e He]; discriminate He].
    + intros pdf' [= <-]. exact Hrec.
  - eexists. split; [reflexivity|]. split.
    + split; [eauto | intros _; eexists; reflexivity].
    + discriminate.
Qed.
